(** * Fixed-point FOC core: trigonometric engine, Park transform and the
      PWM & current-feedback base component.

    Shallow embedding of
      - [FOC401/STM32CubeIDE/Application/User/MPC_math.c]
      - [FOCG431/FOCG431/Src/pwm_curr_fdbk.c]

    C integers are modelled as [Z]; every arithmetic operation of the source
    is followed by the reduction to the width of its C type.  The target is
    a 32-bit ARM core: [short] is 16 bits, [int] and [int32_t] are 32 bits,
    two's complement, and [/] truncates toward zero ([Z.quot]).  A signed
    result that does not fit its type wraps around, as the instructions of
    the target do; the properties that depend on it say so. *)

From Stdlib Require Import ZArith Lia List Bool.
Import ListNotations.
Local Open Scope Z_scope.

(** ** Machine integers *)

Module CInt.

(** Two's complement reduction of [x] to a signed integer of [w] bits. *)
Definition wrap_signed (w x : Z) : Z :=
  (x + 2 ^ (w - 1)) mod 2 ^ w - 2 ^ (w - 1).

Definition to_int16 (x : Z) : Z := wrap_signed 16 x.
Definition to_int32 (x : Z) : Z := wrap_signed 32 x.
Definition to_uint16 (x : Z) : Z := x mod 2 ^ 16.

Definition is_int16 (x : Z) : Prop := - 32768 <= x <= 32767.
Definition is_int32 (x : Z) : Prop := - 2147483648 <= x <= 2147483647.
Definition is_uint16 (x : Z) : Prop := 0 <= x <= 65535.

(** [int] / [int32_t] arithmetic. *)
Definition add32 (x y : Z) : Z := to_int32 (x + y).
Definition sub32 (x y : Z) : Z := to_int32 (x - y).
Definition mul32 (x y : Z) : Z := to_int32 (x * y).
Definition neg32 (x : Z) : Z := to_int32 (- x).
Definition div32 (x y : Z) : Z := to_int32 (Z.quot x y).
(** [x >> n] on a signed operand: arithmetic shift, as the compilers of the
    target implement it. *)
Definition asr32 (x n : Z) : Z := Z.shiftr x n.

End CInt.
Import CInt.

(** ** MPC_math.c : trigonometric engine and Park transform *)

Module MPC_math.

(** [const uint16_t sinTable[]] : 91 entries, 0..90 degrees. *)
Definition sinTable : list Z :=
  [0;9;18;27;36;45;54;62;71;80;89;98;106;115;124;133;141;150;158;167;175;183;
   192;200;208;216;224;232;240;248;256;264;271;279;286;294;301;308;315;322;
   329;336;343;349;356;362;368;374;380;386;392;398;403;409;414;419;424;429;
   434;439;443;448;452;456;460;464;468;471;475;478;481;484;487;490;492;495;
   497;499;501;503;504;506;507;508;509;510;511;511;512;512;512].

(** [sinTable[i]].  An index outside the array is an out-of-bounds read,
    for which C defines no result: [None]. *)
Definition sinTable_at (i : Z) : option Z :=
  if i <? 0 then None else nth_error sinTable (Z.to_nat i).

(** [short limitTheta(short theta)].  The operands are promoted to [int];
    the returned [int] is converted to [short]. *)
Definition limitTheta (theta : Z) : Z :=
  if theta <? 0 then
    to_int16 (sub32 (add32 360 theta) (mul32 360 (add32 1 (div32 theta 360))))
  else
    to_int16 (sub32 theta (mul32 360 (div32 theta 360))).

(** [short sin2(short thetaElec)]. *)
Definition sin2 (thetaElec : Z) : option Z :=
  let thetaElec := limitTheta thetaElec in
  if thetaElec <=? 90 then
    option_map to_int16 (sinTable_at thetaElec)
  else if (thetaElec >? 90) && (thetaElec <=? 180) then
    option_map to_int16 (sinTable_at (sub32 180 thetaElec))
  else if (thetaElec >? 180) && (thetaElec <=? 270) then
    option_map (fun s => to_int16 (neg32 s)) (sinTable_at (sub32 thetaElec 180))
  else
    option_map (fun s => to_int16 (neg32 s)) (sinTable_at (sub32 360 thetaElec)).

(** [short cos2(short theta)] : the [int] sum [theta + 90] is converted to
    the [short] parameter of [sin2]. *)
Definition cos2 (theta : Z) : option Z := sin2 (to_int16 (add32 theta 90)).

(** The six globals [sin000 .. cos240], written by [computeSinCos] and read
    by [parkTransform]. *)
Record TrigTriplet : Type := mkTrig {
  sin000 : Z; sin120 : Z; sin240 : Z;
  cos000 : Z; cos120 : Z; cos240 : Z
}.

(** [void computeSinCos(int16_t thetaElec)] : the new value of the six
    globals, in the order of the assignments of the source. *)
Definition computeSinCos (thetaElec : Z) : option TrigTriplet :=
  let thetaElec := to_int16 (add32 thetaElec 90) in
  match sin2 thetaElec with None => None | Some s000 =>
  match cos2 thetaElec with None => None | Some c000 =>
  match sin2 (to_int16 (add32 thetaElec 120)) with None => None | Some s120 =>
  match sin2 (to_int16 (add32 thetaElec 240)) with None => None | Some s240 =>
  match cos2 (to_int16 (add32 thetaElec 120)) with None => None | Some c120 =>
  match cos2 (to_int16 (add32 thetaElec 240)) with None => None | Some c240 =>
    Some (mkTrig s000 s120 s240 c000 c120 c240)
  end end end end end end.

Record qd_t : Type := mk_qd { qd_q : Z; qd_d : Z }.

Section Park.

(** [qd_t] is declared in a header that is not part of the sources at hand.
    [qd_conv] is the conversion applied when an [int] is stored into one of
    its fields. *)
Variable qd_conv : Z -> Z.

(** [void parkTransform(short a, short b, short c, volatile qd_t *Xdq)].
    [sin000*a + sin240*b + sin120*c] is evaluated in [int], multiplied by
    1000, then divided by 768. *)
Definition parkTransform (t : TrigTriplet) (a b c : Z) : qd_t :=
  let d := div32 (mul32 (add32 (add32 (mul32 (sin000 t) a)
                                      (mul32 (sin240 t) b))
                               (mul32 (sin120 t) c)) 1000) 768 in
  let q := div32 (mul32 (add32 (add32 (mul32 (cos000 t) a)
                                      (mul32 (cos240 t) b))
                               (mul32 (cos120 t) c)) 1000) 768 in
  {| qd_q := qd_conv q; qd_d := qd_conv d |}.

End Park.

Section Clarke.

(** [alphabeta_t] is declared in a header that is not part of the sources at
    hand.  [ab_conv] is the conversion applied when an [int] is stored into
    one of its fields. *)
Variable ab_conv : Z -> Z.

(** [void clarkeTransform(int16_t a, int16_t b, int16_t c,
    alphabeta_t *Xalbt)] : the values stored in [alpha] and [beta]. *)
Definition clarkeTransform (a b c : Z) : Z * Z :=
  let alpha := sub32 (div32 (mul32 a 2) 3) (div32 (add32 b c) 3) in
  let beta := div32 (mul32 (sub32 b c) 250) 433 in
  (ab_conv alpha, ab_conv beta).

End Clarke.

End MPC_math.

(** ** pwm_curr_fdbk.c : PWM & current feedback base component *)

Module PWMC.

(** The six sector constants [SECTOR_1 .. SECTOR_6]. *)
Inductive Sector_t : Type :=
  SECTOR_1 | SECTOR_2 | SECTOR_3 | SECTOR_4 | SECTOR_5 | SECTOR_6.

Definition sector_number (s : Sector_t) : Z :=
  match s with
  | SECTOR_1 => 1 | SECTOR_2 => 2 | SECTOR_3 => 3
  | SECTOR_4 => 4 | SECTOR_5 => 5 | SECTOR_6 => 6
  end.

(** [CRCAction_t]; [CRC_OTHER] stands for any value that is neither
    [CRC_START] nor [CRC_EXEC] (the last [else] of
    [PWMC_CurrentReadingCalibr]). *)
Inductive CRCAction_t : Type := CRC_START | CRC_EXEC | CRC_OTHER.

Record alphabeta_t : Type := mk_alphabeta { alpha : Z; beta : Z }.
Record ab_t : Type := mk_ab { ab_a : Z; ab_b : Z }.

(** The data members of [PWMC_Handle_t] that [pwm_curr_fdbk.c] reads or
    writes.  The structure is declared in [pwm_curr_fdbk.h]; the widths
    are those of the casts and literals of the source: the counters, duties,
    period, [hT_Sqrt3], [DTTest], [DTCompCnt] and the calibration ticks are
    [uint16_t], the currents [int16_t], the filter buffers [int32_t]. *)
Record PWMC_Handle_t : Type := mkHandle {
  hT_Sqrt3 : Z;
  CntPhA : Z;
  CntPhB : Z;
  CntPhC : Z;
  lowDuty : Z;
  midDuty : Z;
  highDuty : Z;
  OffCalibrWaitTimeCounter : Z;
  Ia : Z;
  Ib : Z;
  Ic : Z;
  IaEst : Z;
  IbEst : Z;
  IcEst : Z;
  LPFIqd_const : Z;
  LPFIdBuf : Z;
  LPFIqBuf : Z;
  DTTest : Z;
  PWMperiod : Z;
  OffCalibrWaitTicks : Z;
  DTCompCnt : Z;
  AlignFlag : Z;
  Sector : Sector_t;
  TurnOnLowSidesAction : bool;
  DPWM_Mode : bool
}.

(** Field assignment [pHandle->f = x]. *)
Definition set_CntPhA (x : Z) (h : PWMC_Handle_t) : PWMC_Handle_t :=
  mkHandle (hT_Sqrt3 h) x (CntPhB h) (CntPhC h) (lowDuty h) (midDuty h)
    (highDuty h) (OffCalibrWaitTimeCounter h) (Ia h) (Ib h) (Ic h) (IaEst h)
    (IbEst h) (IcEst h) (LPFIqd_const h) (LPFIdBuf h) (LPFIqBuf h)
    (DTTest h) (PWMperiod h) (OffCalibrWaitTicks h) (DTCompCnt h)
    (AlignFlag h) (Sector h) (TurnOnLowSidesAction h) (DPWM_Mode h).

Definition set_CntPhB (x : Z) (h : PWMC_Handle_t) : PWMC_Handle_t :=
  mkHandle (hT_Sqrt3 h) (CntPhA h) x (CntPhC h) (lowDuty h) (midDuty h)
    (highDuty h) (OffCalibrWaitTimeCounter h) (Ia h) (Ib h) (Ic h) (IaEst h)
    (IbEst h) (IcEst h) (LPFIqd_const h) (LPFIdBuf h) (LPFIqBuf h)
    (DTTest h) (PWMperiod h) (OffCalibrWaitTicks h) (DTCompCnt h)
    (AlignFlag h) (Sector h) (TurnOnLowSidesAction h) (DPWM_Mode h).

Definition set_CntPhC (x : Z) (h : PWMC_Handle_t) : PWMC_Handle_t :=
  mkHandle (hT_Sqrt3 h) (CntPhA h) (CntPhB h) x (lowDuty h) (midDuty h)
    (highDuty h) (OffCalibrWaitTimeCounter h) (Ia h) (Ib h) (Ic h) (IaEst h)
    (IbEst h) (IcEst h) (LPFIqd_const h) (LPFIdBuf h) (LPFIqBuf h)
    (DTTest h) (PWMperiod h) (OffCalibrWaitTicks h) (DTCompCnt h)
    (AlignFlag h) (Sector h) (TurnOnLowSidesAction h) (DPWM_Mode h).

Definition set_lowDuty (x : Z) (h : PWMC_Handle_t) : PWMC_Handle_t :=
  mkHandle (hT_Sqrt3 h) (CntPhA h) (CntPhB h) (CntPhC h) x (midDuty h)
    (highDuty h) (OffCalibrWaitTimeCounter h) (Ia h) (Ib h) (Ic h) (IaEst h)
    (IbEst h) (IcEst h) (LPFIqd_const h) (LPFIdBuf h) (LPFIqBuf h)
    (DTTest h) (PWMperiod h) (OffCalibrWaitTicks h) (DTCompCnt h)
    (AlignFlag h) (Sector h) (TurnOnLowSidesAction h) (DPWM_Mode h).

Definition set_midDuty (x : Z) (h : PWMC_Handle_t) : PWMC_Handle_t :=
  mkHandle (hT_Sqrt3 h) (CntPhA h) (CntPhB h) (CntPhC h) (lowDuty h) x
    (highDuty h) (OffCalibrWaitTimeCounter h) (Ia h) (Ib h) (Ic h) (IaEst h)
    (IbEst h) (IcEst h) (LPFIqd_const h) (LPFIdBuf h) (LPFIqBuf h)
    (DTTest h) (PWMperiod h) (OffCalibrWaitTicks h) (DTCompCnt h)
    (AlignFlag h) (Sector h) (TurnOnLowSidesAction h) (DPWM_Mode h).

Definition set_highDuty (x : Z) (h : PWMC_Handle_t) : PWMC_Handle_t :=
  mkHandle (hT_Sqrt3 h) (CntPhA h) (CntPhB h) (CntPhC h) (lowDuty h)
    (midDuty h) x (OffCalibrWaitTimeCounter h) (Ia h) (Ib h) (Ic h)
    (IaEst h) (IbEst h) (IcEst h) (LPFIqd_const h) (LPFIdBuf h) (LPFIqBuf h)
    (DTTest h) (PWMperiod h) (OffCalibrWaitTicks h) (DTCompCnt h)
    (AlignFlag h) (Sector h) (TurnOnLowSidesAction h) (DPWM_Mode h).

Definition set_OffCalibrWaitTimeCounter (x : Z) (h : PWMC_Handle_t) : PWMC_Handle_t :=
  mkHandle (hT_Sqrt3 h) (CntPhA h) (CntPhB h) (CntPhC h) (lowDuty h)
    (midDuty h) (highDuty h) x (Ia h) (Ib h) (Ic h) (IaEst h) (IbEst h)
    (IcEst h) (LPFIqd_const h) (LPFIdBuf h) (LPFIqBuf h) (DTTest h)
    (PWMperiod h) (OffCalibrWaitTicks h) (DTCompCnt h) (AlignFlag h)
    (Sector h) (TurnOnLowSidesAction h) (DPWM_Mode h).

Definition set_IaEst (x : Z) (h : PWMC_Handle_t) : PWMC_Handle_t :=
  mkHandle (hT_Sqrt3 h) (CntPhA h) (CntPhB h) (CntPhC h) (lowDuty h)
    (midDuty h) (highDuty h) (OffCalibrWaitTimeCounter h) (Ia h) (Ib h)
    (Ic h) x (IbEst h) (IcEst h) (LPFIqd_const h) (LPFIdBuf h) (LPFIqBuf h)
    (DTTest h) (PWMperiod h) (OffCalibrWaitTicks h) (DTCompCnt h)
    (AlignFlag h) (Sector h) (TurnOnLowSidesAction h) (DPWM_Mode h).

Definition set_IbEst (x : Z) (h : PWMC_Handle_t) : PWMC_Handle_t :=
  mkHandle (hT_Sqrt3 h) (CntPhA h) (CntPhB h) (CntPhC h) (lowDuty h)
    (midDuty h) (highDuty h) (OffCalibrWaitTimeCounter h) (Ia h) (Ib h)
    (Ic h) (IaEst h) x (IcEst h) (LPFIqd_const h) (LPFIdBuf h) (LPFIqBuf h)
    (DTTest h) (PWMperiod h) (OffCalibrWaitTicks h) (DTCompCnt h)
    (AlignFlag h) (Sector h) (TurnOnLowSidesAction h) (DPWM_Mode h).

Definition set_IcEst (x : Z) (h : PWMC_Handle_t) : PWMC_Handle_t :=
  mkHandle (hT_Sqrt3 h) (CntPhA h) (CntPhB h) (CntPhC h) (lowDuty h)
    (midDuty h) (highDuty h) (OffCalibrWaitTimeCounter h) (Ia h) (Ib h)
    (Ic h) (IaEst h) (IbEst h) x (LPFIqd_const h) (LPFIdBuf h) (LPFIqBuf h)
    (DTTest h) (PWMperiod h) (OffCalibrWaitTicks h) (DTCompCnt h)
    (AlignFlag h) (Sector h) (TurnOnLowSidesAction h) (DPWM_Mode h).

Definition set_LPFIdBuf (x : Z) (h : PWMC_Handle_t) : PWMC_Handle_t :=
  mkHandle (hT_Sqrt3 h) (CntPhA h) (CntPhB h) (CntPhC h) (lowDuty h)
    (midDuty h) (highDuty h) (OffCalibrWaitTimeCounter h) (Ia h) (Ib h)
    (Ic h) (IaEst h) (IbEst h) (IcEst h) (LPFIqd_const h) x (LPFIqBuf h)
    (DTTest h) (PWMperiod h) (OffCalibrWaitTicks h) (DTCompCnt h)
    (AlignFlag h) (Sector h) (TurnOnLowSidesAction h) (DPWM_Mode h).

Definition set_LPFIqBuf (x : Z) (h : PWMC_Handle_t) : PWMC_Handle_t :=
  mkHandle (hT_Sqrt3 h) (CntPhA h) (CntPhB h) (CntPhC h) (lowDuty h)
    (midDuty h) (highDuty h) (OffCalibrWaitTimeCounter h) (Ia h) (Ib h)
    (Ic h) (IaEst h) (IbEst h) (IcEst h) (LPFIqd_const h) (LPFIdBuf h) x
    (DTTest h) (PWMperiod h) (OffCalibrWaitTicks h) (DTCompCnt h)
    (AlignFlag h) (Sector h) (TurnOnLowSidesAction h) (DPWM_Mode h).

Definition set_DTTest (x : Z) (h : PWMC_Handle_t) : PWMC_Handle_t :=
  mkHandle (hT_Sqrt3 h) (CntPhA h) (CntPhB h) (CntPhC h) (lowDuty h)
    (midDuty h) (highDuty h) (OffCalibrWaitTimeCounter h) (Ia h) (Ib h)
    (Ic h) (IaEst h) (IbEst h) (IcEst h) (LPFIqd_const h) (LPFIdBuf h)
    (LPFIqBuf h) x (PWMperiod h) (OffCalibrWaitTicks h) (DTCompCnt h)
    (AlignFlag h) (Sector h) (TurnOnLowSidesAction h) (DPWM_Mode h).

Definition set_Sector (x : Sector_t) (h : PWMC_Handle_t) : PWMC_Handle_t :=
  mkHandle (hT_Sqrt3 h) (CntPhA h) (CntPhB h) (CntPhC h) (lowDuty h)
    (midDuty h) (highDuty h) (OffCalibrWaitTimeCounter h) (Ia h) (Ib h)
    (Ic h) (IaEst h) (IbEst h) (IcEst h) (LPFIqd_const h) (LPFIdBuf h)
    (LPFIqBuf h) (DTTest h) (PWMperiod h) (OffCalibrWaitTicks h)
    (DTCompCnt h) (AlignFlag h) x (TurnOnLowSidesAction h) (DPWM_Mode h).

Definition set_DPWM_Mode (x : bool) (h : PWMC_Handle_t) : PWMC_Handle_t :=
  mkHandle (hT_Sqrt3 h) (CntPhA h) (CntPhB h) (CntPhC h) (lowDuty h)
    (midDuty h) (highDuty h) (OffCalibrWaitTimeCounter h) (Ia h) (Ib h)
    (Ic h) (IaEst h) (IbEst h) (IcEst h) (LPFIqd_const h) (LPFIdBuf h)
    (LPFIqBuf h) (DTTest h) (PWMperiod h) (OffCalibrWaitTicks h)
    (DTCompCnt h) (AlignFlag h) (Sector h) (TurnOnLowSidesAction h) x.

Definition handle_in_range (h : PWMC_Handle_t) : Prop :=
  is_uint16 (hT_Sqrt3 h) /\ is_uint16 (PWMperiod h) /\
  is_uint16 (CntPhA h) /\ is_uint16 (CntPhB h) /\ is_uint16 (CntPhC h) /\
  is_uint16 (DTTest h) /\ is_uint16 (DTCompCnt h) /\
  is_int16 (Ia h) /\ is_int16 (Ib h) /\ is_int16 (Ic h) /\
  is_uint16 (OffCalibrWaitTicks h) /\ is_uint16 (OffCalibrWaitTimeCounter h).

Definition alphabeta_in_range (v : alphabeta_t) : Prop :=
  is_int16 (alpha v) /\ is_int16 (beta v).

(** Modelled from the spec: the macro [MAX] is defined in a header that is
    not part of the sources at hand; the spec has the counters clamped "to a
    non-negative floor", which is [MAX(x, 0)] with the usual two-operand
    maximum. *)
Definition MAX (a b : Z) : Z := if a >? b then a else b.

(** *** Space-vector modulation: [PWMC_SetPhaseVoltage] *)

(** The locals [wUAlpha], [wUBeta], [wX], [wY], [wZ]. *)
Record Projections : Type := mkProjections {
  wUAlpha : Z; wUBeta : Z; wX : Z; wY : Z; wZ : Z
}.

Definition svpwm_projections (h : PWMC_Handle_t) (v : alphabeta_t)
  : Projections :=
  let wUAlpha := mul32 (alpha v) (hT_Sqrt3 h) in
  let wUBeta := mul32 (neg32 (mul32 (beta v) (PWMperiod h))) 2 in
  let wX := wUBeta in
  let wY := div32 (add32 wUBeta wUAlpha) 2 in
  let wZ := div32 (sub32 wUBeta wUAlpha) 2 in
  mkProjections wUAlpha wUBeta wX wY wZ.

(** The locals [wTimePhA], [wTimePhB], [wTimePhC]. *)
Record Timings : Type := mkTimings {
  wTimePhA : Z; wTimePhB : Z; wTimePhC : Z
}.

(** "Sector calculation from wX, wY, wZ": the sector, the three timings and
    the assignment of the timings to the low, mid and high duty. *)
Definition svpwm_sector (h : PWMC_Handle_t) (p : Projections)
  : PWMC_Handle_t * Timings :=
  let wX := wX p in let wY := wY p in let wZ := wZ p in
  if wY <? 0 then
    if wZ <? 0 then
      let h := set_Sector SECTOR_5 h in
      let wTimePhA := add32 (div32 (PWMperiod h) 4)
                            (div32 (sub32 wY wZ) 262144) in
      let wTimePhB := add32 wTimePhA (div32 wZ 131072) in
      let wTimePhC := sub32 wTimePhA (div32 wY 131072) in
      let h := set_lowDuty (to_uint16 wTimePhC) h in
      let h := set_midDuty (to_uint16 wTimePhA) h in
      let h := set_highDuty (to_uint16 wTimePhB) h in
      (h, mkTimings wTimePhA wTimePhB wTimePhC)
    else if wX <=? 0 then
      let h := set_Sector SECTOR_4 h in
      let wTimePhA := add32 (div32 (PWMperiod h) 4)
                            (div32 (sub32 wX wZ) 262144) in
      let wTimePhB := add32 wTimePhA (div32 wZ 131072) in
      let wTimePhC := sub32 wTimePhB (div32 wX 131072) in
      let h := set_lowDuty (to_uint16 wTimePhC) h in
      let h := set_midDuty (to_uint16 wTimePhB) h in
      let h := set_highDuty (to_uint16 wTimePhA) h in
      (h, mkTimings wTimePhA wTimePhB wTimePhC)
    else
      let h := set_Sector SECTOR_3 h in
      let wTimePhA := add32 (div32 (PWMperiod h) 4)
                            (div32 (sub32 wY wX) 262144) in
      let wTimePhC := sub32 wTimePhA (div32 wY 131072) in
      let wTimePhB := add32 wTimePhC (div32 wX 131072) in
      let h := set_lowDuty (to_uint16 wTimePhB) h in
      let h := set_midDuty (to_uint16 wTimePhC) h in
      let h := set_highDuty (to_uint16 wTimePhA) h in
      (h, mkTimings wTimePhA wTimePhB wTimePhC)
  else
    if wZ >=? 0 then
      let h := set_Sector SECTOR_2 h in
      let wTimePhA := add32 (div32 (PWMperiod h) 4)
                            (div32 (sub32 wY wZ) 262144) in
      let wTimePhB := add32 wTimePhA (div32 wZ 131072) in
      let wTimePhC := sub32 wTimePhA (div32 wY 131072) in
      let h := set_lowDuty (to_uint16 wTimePhB) h in
      let h := set_midDuty (to_uint16 wTimePhA) h in
      let h := set_highDuty (to_uint16 wTimePhC) h in
      (h, mkTimings wTimePhA wTimePhB wTimePhC)
    else if wX <=? 0 then
      let h := set_Sector SECTOR_6 h in
      let wTimePhA := add32 (div32 (PWMperiod h) 4)
                            (div32 (sub32 wY wX) 262144) in
      let wTimePhC := sub32 wTimePhA (div32 wY 131072) in
      let wTimePhB := add32 wTimePhC (div32 wX 131072) in
      let h := set_lowDuty (to_uint16 wTimePhA) h in
      let h := set_midDuty (to_uint16 wTimePhC) h in
      let h := set_highDuty (to_uint16 wTimePhB) h in
      (h, mkTimings wTimePhA wTimePhB wTimePhC)
    else
      let h := set_Sector SECTOR_1 h in
      let wTimePhA := add32 (div32 (PWMperiod h) 4)
                            (div32 (sub32 wX wZ) 262144) in
      let wTimePhB := add32 wTimePhA (div32 wZ 131072) in
      let wTimePhC := sub32 wTimePhB (div32 wX 131072) in
      let h := set_lowDuty (to_uint16 wTimePhA) h in
      let h := set_midDuty (to_uint16 wTimePhB) h in
      let h := set_highDuty (to_uint16 wTimePhC) h in
      (h, mkTimings wTimePhA wTimePhB wTimePhC).

(** The counters: floor at 0, conversion to [uint16_t], then the dead time
    compensation, [+=] and [-=] on [uint16_t] members. *)
Definition svpwm_counters (h : PWMC_Handle_t) (t : Timings) : PWMC_Handle_t :=
  let h := set_CntPhA (to_uint16 (MAX (wTimePhA t) 0)) h in
  let h := set_CntPhB (to_uint16 (MAX (wTimePhB t) 0)) h in
  let h := set_CntPhC (to_uint16 (MAX (wTimePhC t) 0)) h in
  if DTTest h =? 1 then
    let h := if Ia h >? 0
             then set_CntPhA (to_uint16 (CntPhA h + DTCompCnt h)) h
             else set_CntPhA (to_uint16 (CntPhA h - DTCompCnt h)) h in
    let h := if Ib h >? 0
             then set_CntPhB (to_uint16 (CntPhB h + DTCompCnt h)) h
             else set_CntPhB (to_uint16 (CntPhB h - DTCompCnt h)) h in
    let h := if Ic h >? 0
             then set_CntPhC (to_uint16 (CntPhC h + DTCompCnt h)) h
             else set_CntPhC (to_uint16 (CntPhC h - DTCompCnt h)) h in
    h
  else h.

(** Everything [PWMC_SetPhaseVoltage] does to the handle before it calls
    [pFctSetADCSampPointSectX]. *)
Definition svpwm_duties (h : PWMC_Handle_t) (v : alphabeta_t)
  : PWMC_Handle_t :=
  let '(h, t) := svpwm_sector h (svpwm_projections h v) in
  svpwm_counters h t.

(** *** Low-pass filter *)

(** [static inline int32_t PWMC_LowPassFilter(int32_t in, int32_t *out_buf,
    int32_t t)], in the build without [FULL_MISRA_C_COMPLIANCY_PWM_CURR]:
    the returned value and the new content of [*out_buf]. *)
Definition PWMC_LowPassFilter (inp out_buf t : Z) : Z * Z :=
  let out_buf := add32 out_buf (mul32 (sub32 inp (asr32 out_buf 15)) t) in
  let x := asr32 out_buf 15 in
  (x, out_buf).

(** The filter called once per input of [ins], on the same buffer: the
    outputs in order, and the final buffer. *)
Fixpoint LowPassFilter_run (ins : list Z) (out_buf t : Z) : list Z * Z :=
  match ins with
  | [] => ([], out_buf)
  | inp :: rest =>
      let '(x, out_buf) := PWMC_LowPassFilter inp out_buf t in
      let '(xs, out_buf) := LowPassFilter_run rest out_buf t in
      (x :: xs, out_buf)
  end.

(** *** Capability dispatch *)

(** The operations a bound implementation supplies. *)
Inductive Capability : Type :=
| SetOffsetCalib | GetOffsetCalib | GetPhaseCurrents
| SwitchOffPwm | SwitchOnPwm | CurrReadingCalib | TurnOnLowSides
| SetADCSampPointSectX | IsOverCurrentOccurred | OCPSetReferenceVoltage
| RLDetectionModeEnable | RLDetectionModeDisable | RLDetectionModeSetDuty.

Definition Capability_eqb (c d : Capability) : bool :=
  match c, d with
  | SetOffsetCalib, SetOffsetCalib | GetOffsetCalib, GetOffsetCalib
  | GetPhaseCurrents, GetPhaseCurrents | SwitchOffPwm, SwitchOffPwm
  | SwitchOnPwm, SwitchOnPwm | CurrReadingCalib, CurrReadingCalib
  | TurnOnLowSides, TurnOnLowSides
  | SetADCSampPointSectX, SetADCSampPointSectX
  | IsOverCurrentOccurred, IsOverCurrentOccurred
  | OCPSetReferenceVoltage, OCPSetReferenceVoltage
  | RLDetectionModeEnable, RLDetectionModeEnable
  | RLDetectionModeDisable, RLDetectionModeDisable
  | RLDetectionModeSetDuty, RLDetectionModeSetDuty => true
  | _, _ => false
  end.

(** One call through the function-pointer table: which operation, and the
    handle as the operation received it. *)
Definition Event : Type := (Capability * PWMC_Handle_t)%type.

Definition invocations (c : Capability) (tr : list Event) : nat :=
  length (filter (fun e => Capability_eqb (fst e) c) tr).

(** [pHandle]: null, or the address of the one handle of the machine. *)
Inductive pointer : Type := MC_NULL | HandlePtr.

Section Dispatch.

(** What an implementation owns besides the base handle (its own members,
    the timer and ADC registers). *)
Variable HW : Type.
(** [PolarizationOffsets_t], declared outside the sources at hand. *)
Variable PolarizationOffsets_t : Type.
(** The build option [NULL_PTR_PWR_CUR_FDB]. *)
Variable NULL_PTR_PWR_CUR_FDB : bool.
(** Status codes, declared outside the sources at hand. *)
Variable MC_NO_FAULTS : Z.
Variable MC_FOC_DURATION : Z.

(** A bound operation receives [pHandle] and may write the handle's data
    members and its own state; [A] is what it is passed besides, [B] what it
    returns or writes through its second pointer.  The function pointers of
    the handle are written by the [PWMC_Register...CallBack] functions only,
    not during a call. *)
Definition callback (A B : Type) : Type :=
  A -> PWMC_Handle_t * HW -> B * (PWMC_Handle_t * HW).

(** The function-pointer members of [PWMC_Handle_t]; [None] is a null
    pointer. *)
Record PWMC_Callbacks : Type := mkCallbacks {
  pFctSetOffsetCalib :
    option (callback PolarizationOffsets_t PolarizationOffsets_t);
  pFctGetOffsetCalib :
    option (callback PolarizationOffsets_t PolarizationOffsets_t);
  pFctGetPhaseCurrents : option (callback ab_t ab_t);
  pFctSwitchOffPwm : option (callback unit unit);
  pFctSwitchOnPwm : option (callback unit unit);
  pFctCurrReadingCalib : option (callback unit unit);
  pFctTurnOnLowSides : option (callback unit unit);
  pFctSetADCSampPointSectX : option (callback unit Z);
  pFctIsOverCurrentOccurred : option (callback unit Z);
  pFctOCPSetReferenceVoltage : option (callback Z unit);
  pFctRLDetectionModeEnable : option (callback unit unit);
  pFctRLDetectionModeDisable : option (callback unit unit);
  pFctRLDetectionModeSetDuty : option (callback Z Z)
}.

Record Machine : Type := mkMachine {
  handle : PWMC_Handle_t;
  callbacks : PWMC_Callbacks;
  hw : HW;
  trace : list Event
}.

(** A call either returns, or has no defined behaviour (a null handle is
    dereferenced, or a null function pointer is called). *)
Inductive outcome (A : Type) : Type :=
| Returns (a : A) (m : Machine)
| Undefined.
Arguments Returns {A} a m.
Arguments Undefined {A}.

Definition M (A : Type) : Type := Machine -> outcome A.

Definition ret {A} (a : A) : M A := fun m => Returns a m.
Definition undefined {A} : M A := fun _ => Undefined.
Definition bind {A B} (c : M A) (k : A -> M B) : M B :=
  fun m => match c m with
           | Returns a m' => k a m'
           | Undefined => Undefined
           end.

Notation "x <- c ;; k" := (bind c (fun x => k))
  (at level 61, c at next level, right associativity).
Notation "c ;; k" := (bind c (fun _ => k))
  (at level 61, right associativity).

Definition read {A} (f : PWMC_Handle_t -> A) : M A :=
  fun m => Returns (f (handle m)) m.

Definition write (f : PWMC_Handle_t -> PWMC_Handle_t) : M unit :=
  fun m => Returns tt (mkMachine (f (handle m)) (callbacks m) (hw m) (trace m)).

Definition bound {A B} (sel : PWMC_Callbacks -> option (callback A B))
  : M bool :=
  fun m => Returns (match sel (callbacks m) with Some _ => true
                                            | None => false end) m.

(** [pHandle->pFct...(pHandle, arg)]. *)
Definition invoke {A B} (c : Capability)
    (sel : PWMC_Callbacks -> option (callback A B)) (arg : A) : M B :=
  fun m => match sel (callbacks m) with
           | None => Undefined
           | Some f =>
               let '(r, (h', w')) := f arg (handle m, hw m) in
               Returns r (mkMachine h' (callbacks m) w'
                                    (trace m ++ [(c, handle m)]))
           end.

(** The body of a function whose null check on [pHandle] is compiled only
    under [NULL_PTR_PWR_CUR_FDB]. *)
Definition unless_null {A} (pHandle : pointer) (on_null : A) (body : M A)
  : M A :=
  match pHandle with
  | MC_NULL => if NULL_PTR_PWR_CUR_FDB then ret on_null else undefined
  | HandlePtr => body
  end.

(** The same, with the check on the operation's own pointer that the source
    adds to the check on [pHandle]. *)
Definition unless_null_or_unbound {A B C} (pHandle : pointer)
    (sel : PWMC_Callbacks -> option (callback A B)) (on_null : C)
    (body : M C) : M C :=
  if NULL_PTR_PWR_CUR_FDB then
    match pHandle with
    | MC_NULL => ret on_null
    | HandlePtr => b <- bound sel ;; if b then body else ret on_null
    end
  else
    match pHandle with
    | MC_NULL => undefined
    | HandlePtr => body
    end.

(** A body that reads or writes through [pHandle]: a null handle is
    dereferenced. *)
Definition deref {A} (pHandle : pointer) (body : M A) : M A :=
  match pHandle with
  | MC_NULL => undefined
  | HandlePtr => body
  end.

(** The null check compiled only under [NULL_PTR_PWR_CUR_FDB], around a body
    that has a path on which [pHandle] is not accessed: in the other build
    the body is entered with the null handle. *)
Definition null_checked {A} (pHandle : pointer) (on_null : A) (body : M A)
  : M A :=
  match pHandle with
  | MC_NULL => if NULL_PTR_PWR_CUR_FDB then ret on_null else body
  | HandlePtr => body
  end.

Definition PWMC_Clear (pHandle : pointer) : M unit :=
  unless_null pHandle tt (
    write (set_IaEst 0) ;;
    write (set_IbEst 0) ;;
    write (set_IcEst 0) ;;
    write (set_LPFIdBuf 0) ;;
    write (set_LPFIqBuf 0)).

(** The null check of [PWMC_SetOffsetCalib] and [PWMC_GetOffsetCalib] does
    not depend on the build option. *)
Definition PWMC_SetOffsetCalib (pHandle : pointer)
    (offsets : PolarizationOffsets_t) : M PolarizationOffsets_t :=
  match pHandle with
  | MC_NULL => ret offsets
  | HandlePtr => invoke SetOffsetCalib pFctSetOffsetCalib offsets
  end.

Definition PWMC_GetOffsetCalib (pHandle : pointer)
    (offsets : PolarizationOffsets_t) : M PolarizationOffsets_t :=
  match pHandle with
  | MC_NULL => ret offsets
  | HandlePtr => invoke GetOffsetCalib pFctGetOffsetCalib offsets
  end.

Definition PWMC_GetPhaseCurrents (pHandle : pointer) (Iab : ab_t) : M ab_t :=
  unless_null pHandle Iab (invoke GetPhaseCurrents pFctGetPhaseCurrents Iab).

Definition PWMC_SetPhaseVoltage (pHandle : pointer) (Valfa_beta : alphabeta_t)
  : M Z :=
  unless_null pHandle 0 (
    write (fun h => svpwm_duties h Valfa_beta) ;;
    invoke SetADCSampPointSectX pFctSetADCSampPointSectX tt).

Definition PWMC_SwitchOffPWM (pHandle : pointer) : M unit :=
  unless_null pHandle tt (invoke SwitchOffPwm pFctSwitchOffPwm tt).

Definition PWMC_SwitchOnPWM (pHandle : pointer) : M unit :=
  unless_null pHandle tt (invoke SwitchOnPwm pFctSwitchOnPwm tt).

(** [retVal] starts as [false]; the last [else] does not access [pHandle],
    so that in the build without the null check a null handle is
    dereferenced for [CRC_START] and [CRC_EXEC] only. *)
Definition PWMC_CurrentReadingCalibr (pHandle : pointer)
    (action : CRCAction_t) : M bool :=
  null_checked pHandle false (
    match action with
    | CRC_START =>
        PWMC_SwitchOffPWM pHandle ;;
        deref pHandle (
          ticks <- read OffCalibrWaitTicks ;;
          write (set_OffCalibrWaitTimeCounter ticks) ;;
          ticks <- read OffCalibrWaitTicks ;;
          if 0 =? ticks then
            invoke CurrReadingCalib pFctCurrReadingCalib tt ;;
            ret true
          else ret false)
    | CRC_EXEC =>
        deref pHandle (
          counter <- read OffCalibrWaitTimeCounter ;;
          if counter >? 0 then
            write (set_OffCalibrWaitTimeCounter (to_uint16 (counter - 1))) ;;
            counter <- read OffCalibrWaitTimeCounter ;;
            if 0 =? counter then
              invoke CurrReadingCalib pFctCurrReadingCalib tt ;;
              ret true
            else ret false
          else ret true)
    | CRC_OTHER => ret false
    end).

Definition PWMC_TurnOnLowSides (pHandle : pointer) : M unit :=
  unless_null pHandle tt (invoke TurnOnLowSides pFctTurnOnLowSides tt).

Definition PWMC_CheckOverCurrent (pHandle : pointer) : M Z :=
  unless_null pHandle MC_NO_FAULTS (
    r <- invoke IsOverCurrentOccurred pFctIsOverCurrentOccurred tt ;;
    ret (to_uint16 r)).

Definition PWMC_OCPSetReferenceVoltage (pHandle : pointer) (hDACVref : Z)
  : M unit :=
  unless_null_or_unbound pHandle pFctOCPSetReferenceVoltage tt (
    invoke OCPSetReferenceVoltage pFctOCPSetReferenceVoltage hDACVref).

Definition PWMC_RLDetectionModeEnable (pHandle : pointer) : M unit :=
  unless_null_or_unbound pHandle pFctRLDetectionModeEnable tt (
    invoke RLDetectionModeEnable pFctRLDetectionModeEnable tt).

Definition PWMC_RLDetectionModeDisable (pHandle : pointer) : M unit :=
  unless_null_or_unbound pHandle pFctRLDetectionModeDisable tt (
    invoke RLDetectionModeDisable pFctRLDetectionModeDisable tt).

Definition PWMC_RLDetectionModeSetDuty (pHandle : pointer) (hDuty : Z)
  : M Z :=
  unless_null_or_unbound pHandle pFctRLDetectionModeSetDuty MC_FOC_DURATION (
    invoke RLDetectionModeSetDuty pFctRLDetectionModeSetDuty hDuty).

(** [n] successive calls [PWMC_CurrentReadingCalibr(pHandle, CRC_EXEC)]:
    the returned values, in order. *)
Fixpoint exec_calls (n : nat) : M (list bool) :=
  match n with
  | O => ret []
  | S k =>
      r <- PWMC_CurrentReadingCalibr HandlePtr CRC_EXEC ;;
      rs <- exec_calls k ;;
      ret (r :: rs)
  end.

(** *** Registration of the operations *)

(** Assignment [pHandle->pFct... = pCallBack]; a null [pCallBack] is
    [None]. *)
Definition set_pFctGetPhaseCurrents (x : option (callback ab_t ab_t))
    (c : PWMC_Callbacks) : PWMC_Callbacks :=
  mkCallbacks (pFctSetOffsetCalib c) (pFctGetOffsetCalib c) x
    (pFctSwitchOffPwm c) (pFctSwitchOnPwm c) (pFctCurrReadingCalib c)
    (pFctTurnOnLowSides c) (pFctSetADCSampPointSectX c)
    (pFctIsOverCurrentOccurred c) (pFctOCPSetReferenceVoltage c)
    (pFctRLDetectionModeEnable c) (pFctRLDetectionModeDisable c)
    (pFctRLDetectionModeSetDuty c).

Definition set_pFctSwitchOffPwm (x : option (callback unit unit))
    (c : PWMC_Callbacks) : PWMC_Callbacks :=
  mkCallbacks (pFctSetOffsetCalib c) (pFctGetOffsetCalib c)
    (pFctGetPhaseCurrents c) x (pFctSwitchOnPwm c) (pFctCurrReadingCalib c)
    (pFctTurnOnLowSides c) (pFctSetADCSampPointSectX c)
    (pFctIsOverCurrentOccurred c) (pFctOCPSetReferenceVoltage c)
    (pFctRLDetectionModeEnable c) (pFctRLDetectionModeDisable c)
    (pFctRLDetectionModeSetDuty c).

Definition set_pFctSwitchOnPwm (x : option (callback unit unit))
    (c : PWMC_Callbacks) : PWMC_Callbacks :=
  mkCallbacks (pFctSetOffsetCalib c) (pFctGetOffsetCalib c)
    (pFctGetPhaseCurrents c) (pFctSwitchOffPwm c) x (pFctCurrReadingCalib c)
    (pFctTurnOnLowSides c) (pFctSetADCSampPointSectX c)
    (pFctIsOverCurrentOccurred c) (pFctOCPSetReferenceVoltage c)
    (pFctRLDetectionModeEnable c) (pFctRLDetectionModeDisable c)
    (pFctRLDetectionModeSetDuty c).

Definition set_pFctCurrReadingCalib (x : option (callback unit unit))
    (c : PWMC_Callbacks) : PWMC_Callbacks :=
  mkCallbacks (pFctSetOffsetCalib c) (pFctGetOffsetCalib c)
    (pFctGetPhaseCurrents c) (pFctSwitchOffPwm c) (pFctSwitchOnPwm c) x
    (pFctTurnOnLowSides c) (pFctSetADCSampPointSectX c)
    (pFctIsOverCurrentOccurred c) (pFctOCPSetReferenceVoltage c)
    (pFctRLDetectionModeEnable c) (pFctRLDetectionModeDisable c)
    (pFctRLDetectionModeSetDuty c).

Definition set_pFctTurnOnLowSides (x : option (callback unit unit))
    (c : PWMC_Callbacks) : PWMC_Callbacks :=
  mkCallbacks (pFctSetOffsetCalib c) (pFctGetOffsetCalib c)
    (pFctGetPhaseCurrents c) (pFctSwitchOffPwm c) (pFctSwitchOnPwm c)
    (pFctCurrReadingCalib c) x (pFctSetADCSampPointSectX c)
    (pFctIsOverCurrentOccurred c) (pFctOCPSetReferenceVoltage c)
    (pFctRLDetectionModeEnable c) (pFctRLDetectionModeDisable c)
    (pFctRLDetectionModeSetDuty c).

Definition set_pFctSetADCSampPointSectX (x : option (callback unit Z))
    (c : PWMC_Callbacks) : PWMC_Callbacks :=
  mkCallbacks (pFctSetOffsetCalib c) (pFctGetOffsetCalib c)
    (pFctGetPhaseCurrents c) (pFctSwitchOffPwm c) (pFctSwitchOnPwm c)
    (pFctCurrReadingCalib c) (pFctTurnOnLowSides c) x
    (pFctIsOverCurrentOccurred c) (pFctOCPSetReferenceVoltage c)
    (pFctRLDetectionModeEnable c) (pFctRLDetectionModeDisable c)
    (pFctRLDetectionModeSetDuty c).

Definition set_pFctIsOverCurrentOccurred (x : option (callback unit Z))
    (c : PWMC_Callbacks) : PWMC_Callbacks :=
  mkCallbacks (pFctSetOffsetCalib c) (pFctGetOffsetCalib c)
    (pFctGetPhaseCurrents c) (pFctSwitchOffPwm c) (pFctSwitchOnPwm c)
    (pFctCurrReadingCalib c) (pFctTurnOnLowSides c)
    (pFctSetADCSampPointSectX c) x (pFctOCPSetReferenceVoltage c)
    (pFctRLDetectionModeEnable c) (pFctRLDetectionModeDisable c)
    (pFctRLDetectionModeSetDuty c).

Definition set_pFctOCPSetReferenceVoltage (x : option (callback Z unit))
    (c : PWMC_Callbacks) : PWMC_Callbacks :=
  mkCallbacks (pFctSetOffsetCalib c) (pFctGetOffsetCalib c)
    (pFctGetPhaseCurrents c) (pFctSwitchOffPwm c) (pFctSwitchOnPwm c)
    (pFctCurrReadingCalib c) (pFctTurnOnLowSides c)
    (pFctSetADCSampPointSectX c) (pFctIsOverCurrentOccurred c) x
    (pFctRLDetectionModeEnable c) (pFctRLDetectionModeDisable c)
    (pFctRLDetectionModeSetDuty c).

Definition set_pFctRLDetectionModeEnable (x : option (callback unit unit))
    (c : PWMC_Callbacks) : PWMC_Callbacks :=
  mkCallbacks (pFctSetOffsetCalib c) (pFctGetOffsetCalib c)
    (pFctGetPhaseCurrents c) (pFctSwitchOffPwm c) (pFctSwitchOnPwm c)
    (pFctCurrReadingCalib c) (pFctTurnOnLowSides c)
    (pFctSetADCSampPointSectX c) (pFctIsOverCurrentOccurred c)
    (pFctOCPSetReferenceVoltage c) x (pFctRLDetectionModeDisable c)
    (pFctRLDetectionModeSetDuty c).

Definition set_pFctRLDetectionModeDisable (x : option (callback unit unit))
    (c : PWMC_Callbacks) : PWMC_Callbacks :=
  mkCallbacks (pFctSetOffsetCalib c) (pFctGetOffsetCalib c)
    (pFctGetPhaseCurrents c) (pFctSwitchOffPwm c) (pFctSwitchOnPwm c)
    (pFctCurrReadingCalib c) (pFctTurnOnLowSides c)
    (pFctSetADCSampPointSectX c) (pFctIsOverCurrentOccurred c)
    (pFctOCPSetReferenceVoltage c) (pFctRLDetectionModeEnable c) x
    (pFctRLDetectionModeSetDuty c).

Definition set_pFctRLDetectionModeSetDuty (x : option (callback Z Z))
    (c : PWMC_Callbacks) : PWMC_Callbacks :=
  mkCallbacks (pFctSetOffsetCalib c) (pFctGetOffsetCalib c)
    (pFctGetPhaseCurrents c) (pFctSwitchOffPwm c) (pFctSwitchOnPwm c)
    (pFctCurrReadingCalib c) (pFctTurnOnLowSides c)
    (pFctSetADCSampPointSectX c) (pFctIsOverCurrentOccurred c)
    (pFctOCPSetReferenceVoltage c) (pFctRLDetectionModeEnable c)
    (pFctRLDetectionModeDisable c) x.

Definition rebind (f : PWMC_Callbacks -> PWMC_Callbacks) : M unit :=
  fun m => Returns tt (mkMachine (handle m) (f (callbacks m)) (hw m) (trace m)).

Definition PWMC_RegisterGetPhaseCurrentsCallBack
    (pCallBack : option (callback ab_t ab_t)) (pHandle : pointer) : M unit :=
  unless_null pHandle tt (rebind (set_pFctGetPhaseCurrents pCallBack)).

Definition PWMC_RegisterSwitchOffPwmCallBack
    (pCallBack : option (callback unit unit)) (pHandle : pointer) : M unit :=
  unless_null pHandle tt (rebind (set_pFctSwitchOffPwm pCallBack)).

Definition PWMC_RegisterSwitchonPwmCallBack
    (pCallBack : option (callback unit unit)) (pHandle : pointer) : M unit :=
  unless_null pHandle tt (rebind (set_pFctSwitchOnPwm pCallBack)).

Definition PWMC_RegisterReadingCalibrationCallBack
    (pCallBack : option (callback unit unit)) (pHandle : pointer) : M unit :=
  unless_null pHandle tt (rebind (set_pFctCurrReadingCalib pCallBack)).

Definition PWMC_RegisterTurnOnLowSidesCallBack
    (pCallBack : option (callback unit unit)) (pHandle : pointer) : M unit :=
  unless_null pHandle tt (rebind (set_pFctTurnOnLowSides pCallBack)).

Definition PWMC_RegisterSampPointSectXCallBack
    (pCallBack : option (callback unit Z)) (pHandle : pointer) : M unit :=
  unless_null pHandle tt (rebind (set_pFctSetADCSampPointSectX pCallBack)).

Definition PWMC_RegisterIsOverCurrentOccurredCallBack
    (pCallBack : option (callback unit Z)) (pHandle : pointer) : M unit :=
  unless_null pHandle tt (rebind (set_pFctIsOverCurrentOccurred pCallBack)).

Definition PWMC_RegisterOCPSetRefVoltageCallBack
    (pCallBack : option (callback Z unit)) (pHandle : pointer) : M unit :=
  unless_null pHandle tt (rebind (set_pFctOCPSetReferenceVoltage pCallBack)).

Definition PWMC_RegisterRLDetectionModeEnableCallBack
    (pCallBack : option (callback unit unit)) (pHandle : pointer) : M unit :=
  unless_null pHandle tt (rebind (set_pFctRLDetectionModeEnable pCallBack)).

Definition PWMC_RegisterRLDetectionModeDisableCallBack
    (pCallBack : option (callback unit unit)) (pHandle : pointer) : M unit :=
  unless_null pHandle tt (rebind (set_pFctRLDetectionModeDisable pCallBack)).

Definition PWMC_RegisterRLDetectionModeSetDutyCallBack
    (pCallBack : option (callback Z Z)) (pHandle : pointer) : M unit :=
  unless_null pHandle tt (rebind (set_pFctRLDetectionModeSetDuty pCallBack)).

(** *** Mode flags *)

Definition PWMC_GetTurnOnLowSidesAction (pHandle : pointer) : M bool :=
  unless_null pHandle false (read TurnOnLowSidesAction).

Definition PWMC_DPWM_ModeEnable (pHandle : pointer) : M unit :=
  unless_null pHandle tt (write (set_DPWM_Mode true)).

Definition PWMC_DPWM_ModeDisable (pHandle : pointer) : M unit :=
  unless_null pHandle tt (write (set_DPWM_Mode false)).

Definition PWMC_GetDPWM_Mode (pHandle : pointer) : M bool :=
  unless_null pHandle false (read DPWM_Mode).

(** *** Estimation of the phase currents *)

(** [MCM_Rev_Park] is defined in [mc_math.c] and [SQRT3FACTOR] in a header,
    neither part of the sources at hand: the estimation is modelled for any
    reverse Park function and any value of the constant. *)
Variable MCM_Rev_Park : MPC_math.qd_t -> Z -> alphabeta_t.
Variable SQRT3FACTOR : Z.

(** [void PWMC_CalcPhaseCurrentsEst(PWMC_Handle_t *pHandle, qd_t Iqd,
    int16_t hElAngledpp)], in the build without
    [FULL_MISRA_C_COMPLIANCY_PWM_CURR].  The cast to [int16_t] applies to
    the sum, before the division by 2. *)
Definition PWMC_CalcPhaseCurrentsEst (pHandle : pointer)
    (Iqd : MPC_math.qd_t) (hElAngledpp : Z) : M unit :=
  unless_null pHandle tt (
    buf <- read LPFIqBuf ;;
    t <- read LPFIqd_const ;;
    let '(x, buf) := PWMC_LowPassFilter (MPC_math.qd_q Iqd) buf t in
    write (set_LPFIqBuf buf) ;;
    let idq_ave_q := to_int16 x in
    buf <- read LPFIdBuf ;;
    t <- read LPFIqd_const ;;
    let '(x, buf) := PWMC_LowPassFilter (MPC_math.qd_d Iqd) buf t in
    write (set_LPFIdBuf buf) ;;
    let idq_ave_d := to_int16 x in
    let ialpha_beta :=
      MCM_Rev_Park (MPC_math.mk_qd idq_ave_q idq_ave_d) hElAngledpp in
    write (set_IaEst (alpha ialpha_beta)) ;;
    let temp1 := neg32 (alpha ialpha_beta) in
    let temp2 := mul32 (beta ialpha_beta)
                       (asr32 (to_int32 SQRT3FACTOR) 15) in
    write (set_IbEst (to_int16 (div32 (to_int16 (sub32 temp1 temp2)) 2))) ;;
    write (set_IcEst (to_int16 (div32 (to_int16 (add32 temp1 temp2)) 2)))).

End Dispatch.

End PWMC.

Import MPC_math.
Import PWMC.

Arguments Returns {HW PolarizationOffsets_t A} a m.
Arguments Undefined {HW PolarizationOffsets_t A}.
Arguments mkMachine {HW PolarizationOffsets_t} handle callbacks hw trace.
Arguments mkCallbacks {HW PolarizationOffsets_t}.
Arguments handle {HW PolarizationOffsets_t} m.
Arguments callbacks {HW PolarizationOffsets_t} m.
Arguments hw {HW PolarizationOffsets_t} m.
Arguments trace {HW PolarizationOffsets_t} m.
Arguments ret {HW PolarizationOffsets_t A} a m.
Arguments bind {HW PolarizationOffsets_t A B} c k m.

(** [PWMC_SetPhaseVoltage], called on the machine [m] with the vector [v],
    returns; it has called the sampling point operation once, on the handle
    [h], and no other operation. *)
Definition SetPhaseVoltage_delivers {HW PO : Type} (flag : bool)
    (m : Machine HW PO) (v : alphabeta_t) (h : PWMC_Handle_t) : Prop :=
  exists r m',
    PWMC_SetPhaseVoltage HW PO flag HandlePtr v m = Returns r m' /\
    trace m' = trace m ++ [(SetADCSampPointSectX, h)].

(** The machine [m] with its handle replaced. *)
Definition with_handle {HW PO : Type} (h : PWMC_Handle_t) (m : Machine HW PO)
  : Machine HW PO :=
  mkMachine h (callbacks m) (hw m) (trace m).

(** A bound operation that leaves [OffCalibrWaitTicks] as it finds it. *)
Definition keeps_wait_ticks {HW A B : Type} (f : callback HW A B) : Prop :=
  forall arg h w,
    OffCalibrWaitTicks (fst (snd (f arg (h, w)))) = OffCalibrWaitTicks h.

(** A machine for examples: no implementation state, every operation bound
    to one that does nothing and returns 0. *)
Definition idle {A B : Type} (b : B) : callback unit A B :=
  fun _ s => (b, s).

Definition idle_callbacks : PWMC_Callbacks unit unit :=
  mkCallbacks (Some (idle tt)) (Some (idle tt))
    (Some (idle (mk_ab 0 0))) (Some (idle tt)) (Some (idle tt))
    (Some (idle tt)) (Some (idle tt)) (Some (idle 0)) (Some (idle 0))
    (Some (idle tt)) (Some (idle tt)) (Some (idle tt)) (Some (idle 0)).

(** period 4096, [hT_Sqrt3] = 4096 * 56756 / 16384, dead time compensation
    of 50 counts enabled, phase currents 1, 0 and -1. *)
Definition example_handle : PWMC_Handle_t :=
  mkHandle 14189 0 0 0 0 0 0 0 1 0 (-1) 0 0 0 0 0 0 1 4096 0 50 0
           SECTOR_1 false false.

Definition example_machine : Machine unit unit :=
  mkMachine example_handle idle_callbacks tt [].

(** The example machine with a configured wait of [ticks] and a wait
    counter of [counter]. *)
Definition calibration_machine (ticks counter : Z) : Machine unit unit :=
  mkMachine
    (mkHandle 14189 0 0 0 0 0 0 counter 0 0 0 0 0 0 0 0 0 0 4096 ticks 50 0
              SECTOR_1 false false)
    idle_callbacks tt [].

(** A handle none of whose function pointers has been registered. *)
Definition unbound_callbacks : PWMC_Callbacks unit unit :=
  mkCallbacks None None None None None None None None None None None None
              None.

Definition unbound_machine : Machine unit unit :=
  mkMachine example_handle unbound_callbacks tt [].

(** A counter of [PWMC_SetPhaseVoltage] as a function of its timing: the
    floor at 0 and the conversion, then the compensation by [comp] in the
    direction given by the sign of the phase current. *)
Definition compensated (enabled : bool) (current comp time : Z) : Z :=
  let cnt := to_uint16 (MAX time 0) in
  if enabled then
    if current >? 0 then to_uint16 (cnt + comp) else to_uint16 (cnt - comp)
  else cnt.

(** The six trigonometric values within the full scale of the table, as
    [computeSinCos] leaves them. *)
Definition trig_in_range (t : TrigTriplet) : Prop :=
  (- 512 <= sin000 t <= 512 /\ - 512 <= sin120 t <= 512 /\
   - 512 <= sin240 t <= 512) /\
  (- 512 <= cos000 t <= 512 /\ - 512 <= cos120 t <= 512 /\
   - 512 <= cos240 t <= 512).

(** The sine and cosine values of the electrical angle 0. *)
Definition trig_at_zero : TrigTriplet :=
  mkTrig 512 (- 256) (- 256) 0 (- 443) 443.

(** The angles of one turn, 0 to 359 degrees. *)
Definition residues : list Z := map Z.of_nat (seq 0 360).

(** [n] calls of the low-pass filter with the same input. *)
Definition LowPassFilter_hold (n : nat) (inp out_buf t : Z) : list Z * Z :=
  LowPassFilter_run (repeat inp n) out_buf t.

(** An accumulator below [2^30] in magnitude: its output fits an
    [int16_t]. *)
Definition accumulator_in_range (out_buf : Z) : Prop :=
  - 1073741824 <= out_buf < 1073741824.

(** The registrations an implementation performs for the operations that
    the dispatch functions call without a check. *)
Definition register_mandatory {HW PO : Type} (flag : bool)
    (get : callback HW ab_t ab_t) (off on cal low : callback HW unit unit)
    (samp over : callback HW unit Z) : M HW PO unit :=
  bind (PWMC_RegisterGetPhaseCurrentsCallBack HW PO flag (Some get) HandlePtr)
  (fun _ =>
  bind (PWMC_RegisterSwitchOffPwmCallBack HW PO flag (Some off) HandlePtr)
  (fun _ =>
  bind (PWMC_RegisterSwitchonPwmCallBack HW PO flag (Some on) HandlePtr)
  (fun _ =>
  bind (PWMC_RegisterReadingCalibrationCallBack HW PO flag (Some cal)
                                                HandlePtr)
  (fun _ =>
  bind (PWMC_RegisterTurnOnLowSidesCallBack HW PO flag (Some low) HandlePtr)
  (fun _ =>
  bind (PWMC_RegisterSampPointSectXCallBack HW PO flag (Some samp) HandlePtr)
  (fun _ =>
  PWMC_RegisterIsOverCurrentOccurredCallBack HW PO flag (Some over)
                                             HandlePtr)))))).

(** * Properties *)

(** ** Machine integers *)

Lemma to_int32_range x : is_int32 (to_int32 x).
Proof.
  unfold is_int32, to_int32, wrap_signed.
  change (2 ^ (32 - 1)) with 2147483648. change (2 ^ 32) with 4294967296.
  pose proof (Z.mod_pos_bound (x + 2147483648) 4294967296). lia.
Qed.

Lemma to_int32_id x : is_int32 x -> to_int32 x = x.
Proof.
  unfold is_int32, to_int32, wrap_signed.
  change (2 ^ (32 - 1)) with 2147483648. change (2 ^ 32) with 4294967296.
  intros H. rewrite Z.mod_small; lia.
Qed.

Lemma to_int16_range x : is_int16 (to_int16 x).
Proof.
  unfold is_int16, to_int16, wrap_signed.
  change (2 ^ (16 - 1)) with 32768. change (2 ^ 16) with 65536.
  pose proof (Z.mod_pos_bound (x + 32768) 65536). lia.
Qed.

Lemma to_int16_id x : is_int16 x -> to_int16 x = x.
Proof.
  unfold is_int16, to_int16, wrap_signed.
  change (2 ^ (16 - 1)) with 32768. change (2 ^ 16) with 65536.
  intros H. rewrite Z.mod_small; lia.
Qed.

Lemma to_uint16_range x : is_uint16 (to_uint16 x).
Proof.
  unfold is_uint16, to_uint16. change (2 ^ 16) with 65536.
  pose proof (Z.mod_pos_bound x 65536). lia.
Qed.

Lemma to_uint16_id x : is_uint16 x -> to_uint16 x = x.
Proof.
  unfold is_uint16, to_uint16. change (2 ^ 16) with 65536.
  intros H. apply Z.mod_small. lia.
Qed.

(** Reduction to 32 bits does not change the residue modulo [2^32]. *)
Lemma to_int32_eqm x : (to_int32 x) mod 4294967296 = x mod 4294967296.
Proof.
  unfold to_int32, wrap_signed.
  change (2 ^ (32 - 1)) with 2147483648. change (2 ^ 32) with 4294967296.
  rewrite Zminus_mod_idemp_l. f_equal. lia.
Qed.

Lemma to_int32_congr x y :
  x mod 4294967296 = y mod 4294967296 -> to_int32 x = to_int32 y.
Proof.
  intros H. unfold to_int32, wrap_signed.
  change (2 ^ (32 - 1)) with 2147483648. change (2 ^ 32) with 4294967296.
  rewrite <- (Zplus_mod_idemp_l x), <- (Zplus_mod_idemp_l y), H. reflexivity.
Qed.

(** A quotient of an [int] by a constant of magnitude at least 1 is an
    [int]. *)
Lemma quot_is_int32 x d : is_int32 x -> 1 < d -> is_int32 (Z.quot x d).
Proof.
  unfold is_int32. intros Hx Hd.
  destruct (Z_le_gt_dec 0 x) as [Hp | Hn].
  - pose proof (Z.quot_pos x d Hp ltac:(lia)).
    pose proof (Z.quot_le_upper_bound x d x ltac:(lia)). nia.
  - pose proof (Z.quot_opp_l x d ltac:(lia)) as Ho.
    pose proof (Z.quot_pos (- x) d ltac:(lia) ltac:(lia)).
    assert (Z.quot (- x) d <= - x)
      by (apply Z.quot_le_upper_bound; nia).
    lia.
Qed.

Lemma div32_exact x d : is_int32 x -> 1 < d -> div32 x d = Z.quot x d.
Proof. intros. apply to_int32_id, quot_is_int32; assumption. Qed.

(** Congruence modulo [2^32], to compare a computation reduced at every
    step with the same computation reduced once. *)
Abbreviation eqm32 := (eqm 4294967296).

Lemma to_int32_eqm32 x : eqm32 (to_int32 x) x.
Proof. exact (to_int32_eqm x). Qed.

Lemma eqm32_to_int32 x y : eqm32 x y -> to_int32 x = to_int32 y.
Proof. exact (to_int32_congr x y). Qed.

Ltac strip_eqm :=
  lazymatch goal with
  | |- eqm _ (to_int32 _) _ =>
      eapply eqm_trans; [apply to_int32_eqm32 | strip_eqm]
  | |- eqm _ (_ + _) _ => apply Zplus_eqm; strip_eqm
  | |- eqm _ (_ - _) _ => apply Zminus_eqm; strip_eqm
  | |- eqm _ (_ * _) _ => apply Zmult_eqm; strip_eqm
  | |- eqm _ (- _) _ => apply Zopp_eqm; strip_eqm
  | |- _ => apply eqm_refl
  end.

Ltac reduce_once :=
  unfold add32, sub32, mul32, neg32;
  apply eqm32_to_int32;
  eapply eqm_trans; [strip_eqm | apply eqm_refl].

(** Drops the reductions whose operand is shown by [tac] to fit an [int],
    innermost first. *)
Ltac strip_int32 tac :=
  repeat match goal with
         | |- context [to_int32 ?x] =>
             lazymatch x with
             | context [to_int32 _] => fail
             | _ => rewrite (to_int32_id x) by (unfold is_int32; tac)
             end
         end.

(** ** Angle normalisation *)

Lemma limitTheta_is_rem theta :
  is_int16 theta -> limitTheta theta = Z.rem theta 360.
Proof.
  unfold is_int16. intros Hs.
  assert (Hq : - 91 <= Z.quot theta 360 <= 91)
    by (Z.to_euclidean_division_equations; lia).
  assert (Hr : - 360 < Z.rem theta 360 < 360)
    by (Z.to_euclidean_division_equations; lia).
  pose proof (Z.quot_rem' theta 360) as E.
  unfold limitTheta, add32, sub32, mul32, div32.
  destruct (theta <? 0); strip_int32 lia;
    rewrite to_int16_id by (unfold is_int16; lia); lia.
Qed.

Lemma limitTheta_nonnegative theta :
  is_int16 theta -> 0 <= theta ->
  0 <= limitTheta theta < 360 /\ limitTheta theta = theta mod 360.
Proof.
  intros Hs Hp. rewrite (limitTheta_is_rem theta Hs).
  rewrite Z.rem_mod_nonneg by lia.
  split; [apply Z.mod_pos_bound; lia | reflexivity].
Qed.

(** C1.  The claim fails on the code: for a negative angle [limitTheta]
    returns the C remainder [theta % 360], which lies in (-360, 0] and is
    negative unless [theta] is a multiple of 360; it differs by 360 from the
    value returned for [theta + 360] once that angle is not negative. *)
Theorem limitTheta_negative_input theta :
  is_int16 theta -> theta < 0 ->
  limitTheta theta = Z.rem theta 360 /\
  - 360 < limitTheta theta <= 0 /\
  (theta mod 360 <> 0 ->
   limitTheta theta < 0 /\ limitTheta theta = theta mod 360 - 360).
Proof.
  intros Hs Hn. rewrite (limitTheta_is_rem theta Hs).
  split; [reflexivity |].
  unfold is_int16 in Hs.
  split; [| intros Hm; split]; Z.to_euclidean_division_equations; lia.
Qed.

Lemma limitTheta_negative_input_witness :
  limitTheta (- 1) = Z.rem (- 1) 360 /\
  - 360 < limitTheta (- 1) <= 0 /\
  ((- 1) mod 360 <> 0 ->
   limitTheta (- 1) < 0 /\ limitTheta (- 1) = (- 1) mod 360 - 360).
Proof.
  apply (limitTheta_negative_input (- 1)); unfold is_int16; lia.
Defined.

(** The angle -1 degree: [limitTheta] returns -1 where 359 is expected, and
    [sin2] then reads [sinTable[-1]]. *)
Lemma limitTheta_minus_one :
  limitTheta (- 1) = - 1 /\ limitTheta (- 1 + 360) = 359 /\
  sin2 (- 1) = None /\ sin2 359 = Some (- 9).
Proof. repeat split; reflexivity. Qed.

(** ** Park transform *)

Lemma packed_sum_once s0 a s1 b s2 c :
  mul32 (add32 (add32 (mul32 s0 a) (mul32 s1 b)) (mul32 s2 c)) 1000
  = to_int32 ((s0 * a + s1 * b + s2 * c) * 1000).
Proof. reduce_once. Qed.

(** A product that does not fit an [int] never divides to the quotient of
    the exact product. *)
Lemma quot_of_wrapped x :
  Z.quot (to_int32 x) 768 = Z.quot x 768 -> is_int32 x.
Proof.
  pose proof (to_int32_range x) as Hr. pose proof (to_int32_eqm x) as He.
  unfold is_int32 in *. set (w := to_int32 x) in *. clearbody w.
  intros Hq. Z.to_euclidean_division_equations. lia.
Qed.

Lemma weighted_sum_fits s0 s1 s2 a b c :
  - 512 <= s0 <= 512 -> - 512 <= s1 <= 512 -> - 512 <= s2 <= 512 ->
  Z.abs a + Z.abs b + Z.abs c <= 4194 ->
  is_int32 ((s0 * a + s1 * b + s2 * c) * 1000).
Proof.
  intros H0 H1 H2 H.
  assert (Ha : Z.abs (s0 * a) <= 512 * Z.abs a)
    by (rewrite Z.abs_mul; apply Z.mul_le_mono_nonneg_r; lia).
  assert (Hb : Z.abs (s1 * b) <= 512 * Z.abs b)
    by (rewrite Z.abs_mul; apply Z.mul_le_mono_nonneg_r; lia).
  assert (Hc : Z.abs (s2 * c) <= 512 * Z.abs c)
    by (rewrite Z.abs_mul; apply Z.mul_le_mono_nonneg_r; lia).
  unfold is_int32. lia.
Qed.

Section ParkProperties.

Variable qd_conv : Z -> Z.
Variable t : TrigTriplet.
Variables a b c : Z.

Let sum_d : Z :=
  sin000 t * a + sin240 t * b + sin120 t * c.
Let sum_q : Z :=
  cos000 t * a + cos240 t * b + cos120 t * c.

(** C9 as the code has it.  [parkTransform] multiplies the weighted sums by
    1000 and divides by 768, the division truncating, in 32-bit [int]
    arithmetic, and stores the results into the fields of [qd_t].
    - The value computed for [d] (for [q]), before it is stored, is the
      exact [(sin000*a + sin240*b + sin120*c) * 1000 / 768] (the same with
      the cosines) if and only if the weighted sum times 1000 fits an
      [int].
    - In that case the field holds the conversion of the exact value to its
      type; for a 16-bit field it is the exact value when that is within
      -32768 .. 32767.
    - The product fits whenever the six trigonometric values are within
      -512 .. 512 and [|a| + |b| + |c| <= 4194]. *)
Theorem parkTransform_scaling :
  let d := Z.quot (sum_d * 1000) 768 in
  let q := Z.quot (sum_q * 1000) 768 in
  (qd_d (parkTransform (fun z => z) t a b c) = d
   <-> is_int32 (sum_d * 1000)) /\
  (qd_q (parkTransform (fun z => z) t a b c) = q
   <-> is_int32 (sum_q * 1000)) /\
  (is_int32 (sum_d * 1000) ->
   qd_d (parkTransform qd_conv t a b c) = qd_conv d /\
   (is_int16 d -> qd_d (parkTransform to_int16 t a b c) = d)) /\
  (is_int32 (sum_q * 1000) ->
   qd_q (parkTransform qd_conv t a b c) = qd_conv q /\
   (is_int16 q -> qd_q (parkTransform to_int16 t a b c) = q)) /\
  (trig_in_range t -> Z.abs a + Z.abs b + Z.abs c <= 4194 ->
   is_int32 (sum_d * 1000) /\ is_int32 (sum_q * 1000) /\
   parkTransform qd_conv t a b c = mk_qd (qd_conv q) (qd_conv d)).
Proof.
  assert (Ed : forall conv,
             qd_d (parkTransform conv t a b c)
             = conv (Z.quot (to_int32 (sum_d * 1000)) 768)).
  { intros conv. unfold parkTransform; cbn [qd_d].
    rewrite (packed_sum_once (sin000 t) a (sin240 t) b (sin120 t) c).
    fold sum_d.
    rewrite div32_exact by (try apply to_int32_range; lia). reflexivity. }
  assert (Eq : forall conv,
             qd_q (parkTransform conv t a b c)
             = conv (Z.quot (to_int32 (sum_q * 1000)) 768)).
  { intros conv. unfold parkTransform; cbn [qd_q].
    rewrite (packed_sum_once (cos000 t) a (cos240 t) b (cos120 t) c).
    fold sum_q.
    rewrite div32_exact by (try apply to_int32_range; lia). reflexivity. }
  cbv zeta. rewrite !Ed, !Eq.
  split; [split; [apply quot_of_wrapped
                 | intros H; rewrite to_int32_id by exact H; reflexivity] |].
  split; [split; [apply quot_of_wrapped
                 | intros H; rewrite to_int32_id by exact H; reflexivity] |].
  split; [intros H; rewrite to_int32_id by exact H;
          split; [reflexivity | apply to_int16_id] |].
  split; [intros H; rewrite to_int32_id by exact H;
          split; [reflexivity | apply to_int16_id] |].
  intros ((S0 & S1 & S2) & (C0 & C1 & C2)) Habc.
  assert (Hd : is_int32 (sum_d * 1000))
    by (apply weighted_sum_fits; assumption).
  assert (Hq : is_int32 (sum_q * 1000))
    by (apply weighted_sum_fits; assumption).
  split; [exact Hd |]. split; [exact Hq |].
  destruct (parkTransform qd_conv t a b c) as [xq xd] eqn:E.
  specialize (Ed qd_conv). specialize (Eq qd_conv).
  rewrite E in Ed, Eq. cbn [qd_d qd_q] in Ed, Eq.
  rewrite Ed, Eq, !to_int32_id by assumption. reflexivity.
Qed.

End ParkProperties.

Lemma parkTransform_scaling_witness :
  qd_d (parkTransform to_int16 trig_at_zero 30 (- 10) (- 20)) = 30000 /\
  qd_q (parkTransform to_int16 trig_at_zero 30 (- 10) (- 20)) = 5768 /\
  parkTransform (fun z => z) trig_at_zero 1398 (- 1398) 1398
  = mk_qd (- 1612796) 932000.
Proof.
  pose proof (parkTransform_scaling to_int16 trig_at_zero 30 (- 10) (- 20))
    as (_ & _ & Hd & Hq & _).
  pose proof (parkTransform_scaling (fun z => z) trig_at_zero
                1398 (- 1398) 1398) as (_ & _ & _ & _ & Hr).
  split; [| split].
  - apply Hd; unfold is_int32, is_int16; cbn; lia.
  - apply Hq; unfold is_int32, is_int16; cbn; lia.
  - destruct Hr as (_ & _ & E);
      [unfold trig_in_range; cbn; lia | cbn; lia | rewrite E; reflexivity].
Defined.

(** C9 as stated fails: not for all inputs.  With the trigonometric values
    of the angle 0, [a = 32767] and [b = c = -32768] make the product by
    1000 leave the range of an [int]: the code computes -1049242 for [d]
    where the formula gives 43690000.  With 16-bit fields, [a = 100] and
    [b = c = 0] store 1130 in [d] where the formula gives 66666. *)
Lemma parkTransform_scaling_wraps :
  computeSinCos 0 = Some trig_at_zero /\
  qd_d (parkTransform (fun z => z) trig_at_zero 32767 (- 32768) (- 32768))
  = - 1049242 /\
  Z.quot ((sin000 trig_at_zero * 32767 + sin240 trig_at_zero * - 32768
           + sin120 trig_at_zero * - 32768) * 1000) 768
  = 43690000 /\
  qd_d (parkTransform to_int16 trig_at_zero 100 0 0) = 1130 /\
  Z.quot ((sin000 trig_at_zero * 100 + sin240 trig_at_zero * 0
           + sin120 trig_at_zero * 0) * 1000) 768
  = 66666.
Proof. repeat split; reflexivity. Qed.

(** ** Sine table and the Park transform within one control cycle *)

Lemma sinTable_at_range i s : sinTable_at i = Some s -> 0 <= s <= 512.
Proof.
  unfold sinTable_at. destruct (i <? 0); [discriminate |].
  intros H. apply nth_error_In in H.
  assert (B : forallb (fun x => (0 <=? x) && (x <=? 512)) sinTable = true)
    by reflexivity.
  rewrite forallb_forall in B. specialize (B s H). lia.
Qed.

Lemma sinTable_at_defined i : 0 <= i <= 90 -> exists s, sinTable_at i = Some s.
Proof.
  intros Hi. unfold sinTable_at.
  destruct (i <? 0) eqn:E; [lia |].
  destruct (nth_error sinTable (Z.to_nat i)) as [s |] eqn:N; [eauto |].
  apply nth_error_None in N. cbn [length sinTable] in N. lia.
Qed.

Lemma sin2_range theta s : sin2 theta = Some s -> - 512 <= s <= 512.
Proof.
  unfold sin2.
  repeat match goal with
         | |- context [if ?c then _ else _] => destruct c
         end;
    destruct (sinTable_at _) as [x |] eqn:T; try discriminate;
    apply sinTable_at_range in T; cbn [option_map];
    intros H; injection H as <-; unfold neg32;
    rewrite ?to_int32_id by (unfold is_int32; lia);
    rewrite to_int16_id by (unfold is_int16; lia); lia.
Qed.

(** For a non-negative angle the table is read within its bounds. *)
Lemma sin2_defined theta :
  is_int16 theta -> 0 <= theta -> exists s, sin2 theta = Some s.
Proof.
  intros Hs Hp.
  destruct (limitTheta_nonnegative theta Hs Hp) as (Hr & _).
  unfold sin2, sub32.
  set (r := limitTheta theta) in *.
  destruct (r <=? 90) eqn:E1;
    [| destruct ((r >? 90) && (r <=? 180)) eqn:E2;
       [| destruct ((r >? 180) && (r <=? 270)) eqn:E3]];
    rewrite ?to_int32_id by (unfold is_int32; lia);
    match goal with
    | |- context [sinTable_at ?i] =>
        destruct (sinTable_at_defined i ltac:(lia)) as (x & ->)
    end; cbn [option_map]; eauto.
Qed.

Lemma limitTheta_negative_range theta :
  is_int16 theta -> theta < 0 -> theta mod 360 <> 0 ->
  - 360 < limitTheta theta < 0.
Proof.
  intros Hs Hn Hm. rewrite (limitTheta_is_rem theta Hs).
  unfold is_int16 in Hs. Z.to_euclidean_division_equations; lia.
Qed.

Lemma sin2_negative_limit theta : limitTheta theta < 0 -> sin2 theta = None.
Proof.
  intros Hr. unfold sin2. set (r := limitTheta theta) in *.
  destruct (r <=? 90) eqn:E; [| lia].
  unfold sinTable_at. destruct (r <? 0) eqn:E'; [reflexivity | lia].
Qed.

(** X2.  For a negative angle that is not a whole number of turns [sin2]
    reads the table at a negative index: the call has no defined result. *)
Lemma sin2_negative_angle theta :
  is_int16 theta -> theta < 0 -> theta mod 360 <> 0 -> sin2 theta = None.
Proof.
  intros Hs Hn Hm.
  pose proof (limitTheta_negative_range theta Hs Hn Hm) as Hr.
  apply sin2_negative_limit. lia.
Qed.

Lemma computeSinCos_range theta t :
  computeSinCos theta = Some t ->
  - 512 <= sin000 t <= 512 /\ - 512 <= sin120 t <= 512 /\
  - 512 <= sin240 t <= 512 /\ - 512 <= cos000 t <= 512 /\
  - 512 <= cos120 t <= 512 /\ - 512 <= cos240 t <= 512.
Proof.
  unfold computeSinCos, cos2.
  repeat match goal with
         | |- context [match sin2 ?x with _ => _ end] =>
             let E := fresh "E" in
             destruct (sin2 x) eqn:E; [apply sin2_range in E | discriminate]
         end.
  intros H. injection H as <-. cbn. repeat split; lia.
Qed.

(** X8.  With the triplet of [computeSinCos] and phase values of magnitude
    at most 1398, nothing wraps: [d] and [q] are the exact integer
    formulas. *)
Lemma parkTransform_exact_in_cycle qd_conv theta t a b c :
  computeSinCos theta = Some t ->
  - 1398 <= a <= 1398 -> - 1398 <= b <= 1398 -> - 1398 <= c <= 1398 ->
  let Xdq := parkTransform qd_conv t a b c in
  qd_d Xdq
  = qd_conv (Z.quot ((sin000 t * a + sin240 t * b + sin120 t * c) * 1000)
                    768) /\
  qd_q Xdq
  = qd_conv (Z.quot ((cos000 t * a + cos240 t * b + cos120 t * c) * 1000)
                    768).
Proof.
  intros Ht Ha Hb Hc.
  destruct (computeSinCos_range theta t Ht) as (S0 & S1 & S2 & C0 & C1 & C2).
  cbv zeta. unfold parkTransform; cbn [qd_d qd_q].
  rewrite (packed_sum_once (sin000 t) a (sin240 t) b (sin120 t) c).
  rewrite (packed_sum_once (cos000 t) a (cos240 t) b (cos120 t) c).
  rewrite !div32_exact by (try apply to_int32_range; lia).
  rewrite !to_int32_id by (unfold is_int32; nia).
  split; reflexivity.
Qed.

(** ** Low-pass filter *)

Lemma PWMC_LowPassFilter_buffer inp out_buf t :
  snd (PWMC_LowPassFilter inp out_buf t)
  = to_int32 (out_buf + (inp - Z.shiftr out_buf 15) * t).
Proof. unfold PWMC_LowPassFilter, asr32; cbn [snd]. reduce_once. Qed.

Lemma PWMC_LowPassFilter_frozen inp out_buf :
  is_int32 out_buf ->
  PWMC_LowPassFilter inp out_buf 0 = (Z.shiftr out_buf 15, out_buf).
Proof.
  intros Hb.
  pose proof (PWMC_LowPassFilter_buffer inp out_buf 0) as E.
  rewrite Z.mul_0_r, Z.add_0_r, (to_int32_id _ Hb) in E.
  unfold PWMC_LowPassFilter in *. cbn [snd] in E. rewrite E. reflexivity.
Qed.

(** C8.  One call leaves in the accumulator
    [accumulator + (input - (accumulator >> 15)) * timeConstant], as an
    [int32_t], and returns the new accumulator shifted right by 15.  With
    [timeConstant = 0], whatever the inputs, the accumulator keeps its
    initial value and every output is the initial accumulator shifted right
    by 15. *)
Theorem PWMC_LowPassFilter_update (ins : list Z) (inp out_buf t : Z) :
  is_int32 out_buf ->
  let '(x, out_buf') := PWMC_LowPassFilter inp out_buf t in
  out_buf' = to_int32 (out_buf + (inp - Z.shiftr out_buf 15) * t) /\
  (is_int32 (out_buf + (inp - Z.shiftr out_buf 15) * t) ->
   out_buf' = out_buf + (inp - Z.shiftr out_buf 15) * t) /\
  x = Z.shiftr out_buf' 15 /\
  LowPassFilter_run ins out_buf 0
  = (map (fun _ => Z.shiftr out_buf 15) ins, out_buf).
Proof.
  intros Hb.
  pose proof (PWMC_LowPassFilter_buffer inp out_buf t) as E.
  destruct (PWMC_LowPassFilter inp out_buf t) as [x out_buf'] eqn:F.
  cbn [snd] in E.
  split; [exact E |].
  split; [intros Hfit; rewrite E; apply to_int32_id, Hfit |].
  split.
  - unfold PWMC_LowPassFilter in F. injection F as Fx Fb.
    rewrite <- Fx, <- Fb. reflexivity.
  - clear x out_buf' F E.
    induction ins as [| i rest IH]; [reflexivity |].
    cbn [LowPassFilter_run map].
    rewrite (PWMC_LowPassFilter_frozen i out_buf Hb), IH. reflexivity.
Qed.

Lemma PWMC_LowPassFilter_update_witness :
  PWMC_LowPassFilter 1000 65536 3 = (2, 68530) /\
  LowPassFilter_run [1000; - 7; 32767] 65536 0 = ([2; 2; 2], 65536).
Proof.
  pose proof (PWMC_LowPassFilter_update [1000; - 7; 32767] 1000 65536 3
                ltac:(unfold is_int32; lia)) as H.
  destruct (PWMC_LowPassFilter 1000 65536 3) as [x b] eqn:F.
  destruct H as (Hb & _ & Hx & Hrun).
  split; [rewrite Hx, Hb; reflexivity | exact Hrun].
Defined.

(** ** [PWMC_Clear] *)

Section ClearProperties.

Variables HW PO : Type.
Variable flag : bool.

(** C10.  On a handle, [PWMC_Clear] returns with [IaEst], [IbEst], [IcEst],
    [LPFIdBuf] and [LPFIqBuf] equal to 0; every other member of the handle,
    its function pointers included, is as before, and no operation has been
    called. *)
Theorem PWMC_Clear_frame (m : Machine HW PO) :
  exists m',
    PWMC_Clear HW PO flag HandlePtr m = Returns tt m' /\
    (IaEst (handle m') = 0 /\ IbEst (handle m') = 0 /\
     IcEst (handle m') = 0 /\ LPFIdBuf (handle m') = 0 /\
     LPFIqBuf (handle m') = 0) /\
    (hT_Sqrt3 (handle m') = hT_Sqrt3 (handle m) /\
     CntPhA (handle m') = CntPhA (handle m) /\
     CntPhB (handle m') = CntPhB (handle m) /\
     CntPhC (handle m') = CntPhC (handle m) /\
     lowDuty (handle m') = lowDuty (handle m) /\
     midDuty (handle m') = midDuty (handle m) /\
     highDuty (handle m') = highDuty (handle m) /\
     OffCalibrWaitTimeCounter (handle m')
       = OffCalibrWaitTimeCounter (handle m) /\
     Ia (handle m') = Ia (handle m) /\
     Ib (handle m') = Ib (handle m) /\
     Ic (handle m') = Ic (handle m) /\
     LPFIqd_const (handle m') = LPFIqd_const (handle m) /\
     DTTest (handle m') = DTTest (handle m) /\
     PWMperiod (handle m') = PWMperiod (handle m) /\
     OffCalibrWaitTicks (handle m') = OffCalibrWaitTicks (handle m) /\
     DTCompCnt (handle m') = DTCompCnt (handle m) /\
     AlignFlag (handle m') = AlignFlag (handle m) /\
     Sector (handle m') = Sector (handle m) /\
     TurnOnLowSidesAction (handle m') = TurnOnLowSidesAction (handle m) /\
     DPWM_Mode (handle m') = DPWM_Mode (handle m)) /\
    callbacks m' = callbacks m /\ hw m' = hw m /\ trace m' = trace m.
Proof.
  eexists. split; [reflexivity |].
  cbn. repeat split; reflexivity.
Qed.

End ClearProperties.

(** ** Space-vector modulation *)

Ltac quot_lia := Z.to_euclidean_division_equations; lia.

(** Case analysis on the conditions of the source, outermost first. *)
Ltac branch :=
  repeat (match goal with
          | |- context [if ?c then _ else _] =>
              lazymatch c with
              | context [if _ then _ else _] => fail
              | _ => destruct c eqn:?
              end
          end; cbn).

Ltac sector_cases p :=
  unfold svpwm_sector;
  destruct (wY p <? 0) eqn:?; destruct (wZ p <? 0) eqn:?;
  destruct (wZ p >=? 0) eqn:?; destruct (wX p <=? 0) eqn:?.

Lemma svpwm_sector_Sector h p :
  Sector (fst (svpwm_sector h p))
  = if wY p <? 0 then
      if wZ p <? 0 then SECTOR_5
      else if wX p <=? 0 then SECTOR_4 else SECTOR_3
    else
      if wZ p >=? 0 then SECTOR_2
      else if wX p <=? 0 then SECTOR_6 else SECTOR_1.
Proof. sector_cases p; reflexivity. Qed.

(** The sector step writes [Sector] and the three duties only. *)
Lemma svpwm_sector_frame h p :
  let h' := fst (svpwm_sector h p) in
  DTTest h' = DTTest h /\ DTCompCnt h' = DTCompCnt h /\
  Ia h' = Ia h /\ Ib h' = Ib h /\ Ic h' = Ic h /\
  PWMperiod h' = PWMperiod h /\ hT_Sqrt3 h' = hT_Sqrt3 h.
Proof. sector_cases p; cbn; repeat split; reflexivity. Qed.

Lemma svpwm_counters_Sector h t : Sector (svpwm_counters h t) = Sector h.
Proof. unfold svpwm_counters. cbn. branch; reflexivity. Qed.

Lemma svpwm_counters_values h t :
  let h' := svpwm_counters h t in
  let on := DTTest h =? 1 in
  CntPhA h' = compensated on (Ia h) (DTCompCnt h) (wTimePhA t) /\
  CntPhB h' = compensated on (Ib h) (DTCompCnt h) (wTimePhB t) /\
  CntPhC h' = compensated on (Ic h) (DTCompCnt h) (wTimePhC t).
Proof.
  unfold svpwm_counters, compensated. cbn.
  destruct (DTTest h =? 1); cbn; [| repeat split; reflexivity].
  destruct (Ia h >? 0); cbn; destruct (Ib h >? 0); cbn;
    destruct (Ic h >? 0); cbn; repeat split; reflexivity.
Qed.

Lemma svpwm_duties_counters h v :
  let t := snd (svpwm_sector h (svpwm_projections h v)) in
  let h' := svpwm_duties h v in
  let on := DTTest h =? 1 in
  CntPhA h' = compensated on (Ia h) (DTCompCnt h) (wTimePhA t) /\
  CntPhB h' = compensated on (Ib h) (DTCompCnt h) (wTimePhB t) /\
  CntPhC h' = compensated on (Ic h) (DTCompCnt h) (wTimePhC t).
Proof.
  cbv zeta. unfold svpwm_duties.
  pose proof (svpwm_sector_frame h (svpwm_projections h v)) as F.
  destruct (svpwm_sector h (svpwm_projections h v)) as [h1 t].
  cbn [fst snd] in *. destruct F as (F1 & F2 & F3 & F4 & F5 & _).
  pose proof (svpwm_counters_values h1 t) as V. cbv zeta in V.
  rewrite F1, F2, F3, F4, F5 in V. exact V.
Qed.

Lemma svpwm_duties_Sector h v :
  Sector (svpwm_duties h v)
  = Sector (fst (svpwm_sector h (svpwm_projections h v))).
Proof.
  unfold svpwm_duties.
  destruct (svpwm_sector h (svpwm_projections h v)) as [h1 t].
  apply svpwm_counters_Sector.
Qed.

(** The timings do not depend on [DTTest]. *)
Lemma svpwm_timings_DTTest x h v :
  snd (svpwm_sector (set_DTTest x h) (svpwm_projections (set_DTTest x h) v))
  = snd (svpwm_sector h (svpwm_projections h v)).
Proof.
  change (svpwm_projections (set_DTTest x h) v)
    with (svpwm_projections h v).
  sector_cases (svpwm_projections h v); reflexivity.
Qed.

Section SetPhaseVoltageProperties.

Variables HW PO : Type.
Variable flag : bool.

(** With the sampling point operation bound, the call returns, and that
    operation is the only one called; it receives the handle with the
    sector, duties and counters of this call. *)
Lemma SetPhaseVoltage_delivers_duties (m : Machine HW PO) v f :
  pFctSetADCSampPointSectX _ _ (callbacks m) = Some f ->
  SetPhaseVoltage_delivers flag m v (svpwm_duties (handle m) v).
Proof.
  intros Hf. unfold SetPhaseVoltage_delivers, PWMC_SetPhaseVoltage.
  unfold unless_null, bind, write, invoke. cbn. rewrite Hf.
  destruct (f tt (svpwm_duties (handle m) v, hw m)) as [r [h' w']].
  eexists _, _. split; reflexivity.
Qed.

(** C2.  The sector handed to the sampling point operation is one of the
    six, and each is selected on exactly its own sign pattern of [wX],
    [wY], [wZ]. *)
Theorem PWMC_SetPhaseVoltage_sector (m : Machine HW PO) v f :
  pFctSetADCSampPointSectX _ _ (callbacks m) = Some f ->
  exists h',
    SetPhaseVoltage_delivers flag m v h' /\
    let p := svpwm_projections (handle m) v in
    1 <= sector_number (Sector h') <= 6 /\
    (Sector h' = SECTOR_5 <-> wY p < 0 /\ wZ p < 0) /\
    (Sector h' = SECTOR_4 <-> wY p < 0 /\ wZ p >= 0 /\ wX p <= 0) /\
    (Sector h' = SECTOR_3 <-> wY p < 0 /\ wZ p >= 0 /\ wX p > 0) /\
    (Sector h' = SECTOR_2 <-> wY p >= 0 /\ wZ p >= 0) /\
    (Sector h' = SECTOR_6 <-> wY p >= 0 /\ wZ p < 0 /\ wX p <= 0) /\
    (Sector h' = SECTOR_1 <-> wY p >= 0 /\ wZ p < 0 /\ wX p > 0).
Proof.
  intros Hf. exists (svpwm_duties (handle m) v).
  split; [exact (SetPhaseVoltage_delivers_duties m v f Hf) |].
  cbv zeta. rewrite svpwm_duties_Sector, svpwm_sector_Sector.
  set (p := svpwm_projections (handle m) v).
  destruct (wY p <? 0) eqn:EY; destruct (wZ p <? 0) eqn:EZ;
    destruct (wZ p >=? 0) eqn:EZ'; destruct (wX p <=? 0) eqn:EX;
    try lia; cbn [sector_number];
    (split; [lia |]);
    repeat split; intros; try discriminate; try lia.
Qed.

End SetPhaseVoltageProperties.

Lemma PWMC_SetPhaseVoltage_sector_witness :
  exists h',
    SetPhaseVoltage_delivers false example_machine
                             (mk_alphabeta 0 (- 2048)) h' /\
    Sector h' = SECTOR_2.
Proof.
  destruct (PWMC_SetPhaseVoltage_sector unit unit false example_machine
              (mk_alphabeta 0 (- 2048)) (idle 0) eq_refl)
    as (h' & Hd & _ & _ & _ & _ & H2 & _).
  exists h'. split; [exact Hd |].
  apply H2. vm_compute. split; discriminate.
Defined.

(** *** The auxiliary projections *)

Lemma svpwm_projections_reduced h v :
  let p := svpwm_projections h v in
  wUAlpha p = to_int32 (alpha v * hT_Sqrt3 h) /\
  wUBeta p = to_int32 (- (beta v * PWMperiod h) * 2) /\
  wX p = wUBeta p /\
  wY p = Z.quot (to_int32 (wUBeta p + wUAlpha p)) 2 /\
  wZ p = Z.quot (to_int32 (wUBeta p - wUAlpha p)) 2.
Proof.
  cbv zeta. unfold svpwm_projections. cbn [wUAlpha wUBeta wX wY wZ].
  split; [reflexivity |].
  split; [reduce_once |].
  split; [reflexivity |].
  unfold add32, sub32.
  split; apply div32_exact; try apply to_int32_range; lia.
Qed.

(** C3 as the code has it.  [wX] is [wUBeta] itself: the factor 2 is in
    [wUBeta] already and is not applied a second time.  [wUAlpha] is the
    exact product [alpha * hT_Sqrt3]; [wUBeta], [wY] and [wZ] are
    [-(beta * PWMperiod) * 2], [(wUBeta + wUAlpha) / 2] and
    [(wUBeta - wUAlpha) / 2], the division truncating, whenever these fit
    the 32-bit locals that hold them. *)
Theorem svpwm_projections_values h v :
  handle_in_range h -> alphabeta_in_range v ->
  let p := svpwm_projections h v in
  wUAlpha p = alpha v * hT_Sqrt3 h /\
  wX p = wUBeta p /\
  (is_int32 (- (beta v * PWMperiod h) * 2) ->
   wUBeta p = - (beta v * PWMperiod h) * 2) /\
  (is_int32 (wUBeta p + wUAlpha p) ->
   wY p = Z.quot (wUBeta p + wUAlpha p) 2) /\
  (is_int32 (wUBeta p - wUAlpha p) ->
   wZ p = Z.quot (wUBeta p - wUAlpha p) 2).
Proof.
  intros Hh Hv.
  destruct (svpwm_projections_reduced h v) as (Ea & Eb & Ex & Ey & Ez).
  cbv zeta. rewrite Ey, Ez.
  destruct Hh as (HT & _). destruct Hv as (Hal & _).
  unfold is_uint16, is_int16 in *.
  split; [rewrite Ea; apply to_int32_id; unfold is_int32; nia |].
  split; [exact Ex |].
  split; [intros F; rewrite Eb; apply to_int32_id, F |].
  split; intros F; rewrite (to_int32_id _ F); reflexivity.
Qed.

Lemma svpwm_projections_values_witness :
  let p := svpwm_projections example_handle (mk_alphabeta 100 1) in
  wUAlpha p = 1418900 /\ wUBeta p = - 8192 /\ wX p = - 8192 /\
  wY p = 705354 /\ wZ p = - 713546.
Proof.
  destruct (svpwm_projections_values example_handle (mk_alphabeta 100 1))
    as (Ea & Ex & Eb & Ey & Ez).
  - unfold handle_in_range, is_uint16, is_int16; cbn; lia.
  - unfold alphabeta_in_range, is_int16; cbn; lia.
  - cbv zeta. rewrite Ex, Ey, Ez, Ea, Eb; try (vm_compute; split; discriminate).
    repeat split; reflexivity.
Defined.

(** C3 as stated fails: for period 4096 and the vector (0, 1), [wUBeta] is
    -8192 and [wX] is -8192, not [wUBeta * 2] = -16384. *)
Lemma svpwm_projections_X_not_doubled :
  let p := svpwm_projections example_handle (mk_alphabeta 0 1) in
  wUBeta p = - (1 * 4096) * 2 /\ wX p = - 8192 /\ wX p <> wUBeta p * 2.
Proof. cbv zeta. vm_compute. repeat split; discriminate. Qed.

(** *** Dead time compensation *)

Section DeadTimeProperties.

Variables HW PO : Type.
Variable flag : bool.

(** C6 as the code has it.  With [DTTest = 1] each counter is the counter of
    the same call with the compensation disabled, plus [DTCompCnt] when the
    current of that phase ([Ia], [Ib], [Ic]) is positive and minus
    [DTCompCnt] otherwise (zero included), reduced to 16 bits.  The floor at
    0 is applied before the compensation, not to its result.  For phase A
    with a positive current the counter is exactly [DTCompCnt] above the
    uncompensated one as long as the sum fits 16 bits; with a current that
    is not positive it is exactly [DTCompCnt] below when the uncompensated
    counter is at least [DTCompCnt], and wraps to 65536 minus the deficit
    when it is not. *)
Theorem PWMC_SetPhaseVoltage_dead_time (m : Machine HW PO) v f :
  pFctSetADCSampPointSectX _ _ (callbacks m) = Some f ->
  DTTest (handle m) = 1 ->
  is_uint16 (DTCompCnt (handle m)) ->
  exists h_on h_off,
    SetPhaseVoltage_delivers flag m v h_on /\
    SetPhaseVoltage_delivers flag
      (with_handle (set_DTTest 0 (handle m)) m) v h_off /\
    let comp := DTCompCnt (handle m) in
    let shift (current cnt : Z) :=
      if current >? 0 then to_uint16 (cnt + comp)
      else to_uint16 (cnt - comp) in
    CntPhA h_on = shift (Ia (handle m)) (CntPhA h_off) /\
    CntPhB h_on = shift (Ib (handle m)) (CntPhB h_off) /\
    CntPhC h_on = shift (Ic (handle m)) (CntPhC h_off) /\
    (Ia (handle m) > 0 -> CntPhA h_off + comp <= 65535 ->
     CntPhA h_on = CntPhA h_off + comp) /\
    (Ia (handle m) <= 0 -> comp <= CntPhA h_off ->
     CntPhA h_on = CntPhA h_off - comp) /\
    (Ia (handle m) <= 0 -> CntPhA h_off < comp ->
     CntPhA h_on = CntPhA h_off - comp + 65536).
Proof.
  intros Hf Hon Hcomp.
  exists (svpwm_duties (handle m) v),
         (svpwm_duties (set_DTTest 0 (handle m)) v).
  split; [exact (SetPhaseVoltage_delivers_duties HW PO flag m v f Hf) |].
  split;
    [exact (SetPhaseVoltage_delivers_duties HW PO flag
              (with_handle (set_DTTest 0 (handle m)) m) v f Hf) |].
  destruct (svpwm_duties_counters (handle m) v) as (A1 & B1 & C1).
  destruct (svpwm_duties_counters (set_DTTest 0 (handle m)) v)
    as (A0 & B0 & C0).
  cbv zeta in *. rewrite Hon in A1, B1, C1.
  rewrite svpwm_timings_DTTest in A0, B0, C0.
  destruct (svpwm_sector (handle m) (svpwm_projections (handle m) v))
    as [h1 t].
  cbn [snd DTTest Ia Ib Ic DTCompCnt set_DTTest] in *.
  unfold compensated in *. cbn [Z.eqb Pos.eqb] in *.
  rewrite A1, B1, C1, A0, B0, C0.
  repeat split; try reflexivity.
  - intros Hpos Hfit. destruct (Ia (handle m) >? 0) eqn:E; [| lia].
    pose proof (to_uint16_range (MAX (wTimePhA t) 0)).
    apply to_uint16_id. unfold is_uint16 in *. lia.
  - intros Hneg Hfit. destruct (Ia (handle m) >? 0) eqn:E; [lia |].
    pose proof (to_uint16_range (MAX (wTimePhA t) 0)).
    apply to_uint16_id. unfold is_uint16 in *. lia.
  - intros Hneg Hfit. destruct (Ia (handle m) >? 0) eqn:E; [lia |].
    pose proof (to_uint16_range (MAX (wTimePhA t) 0)) as R.
    unfold is_uint16 in *. set (c := to_uint16 (MAX (wTimePhA t) 0)) in *.
    unfold to_uint16. change (2 ^ 16) with 65536.
    rewrite <- (Z_mod_plus_full _ 1 65536).
    rewrite Z.mod_small; lia.
Qed.

End DeadTimeProperties.

Lemma PWMC_SetPhaseVoltage_dead_time_witness :
  exists h_on h_off,
    SetPhaseVoltage_delivers false example_machine
      (mk_alphabeta 32767 (- 32768)) h_on /\
    SetPhaseVoltage_delivers false
      (with_handle (set_DTTest 0 example_handle) example_machine)
      (mk_alphabeta 32767 (- 32768)) h_off /\
    CntPhA h_off = 2422 /\ CntPhA h_on = 2472.
Proof.
  destruct (PWMC_SetPhaseVoltage_dead_time unit unit false example_machine
              (mk_alphabeta 32767 (- 32768)) (idle 0) eq_refl eq_refl)
    as (h_on & h_off & Don & Doff & _ & _ & _ & Hup & _).
  - unfold is_uint16; cbn; lia.
  - exists h_on, h_off. split; [exact Don |]. split; [exact Doff |].
    assert (E : CntPhA h_off = 2422).
    { destruct Doff as (r & m' & Hr & Ht).
      vm_compute in Hr. injection Hr as _ Hm. subst m'.
      cbn in Ht. injection Ht as Ht. subst h_off. reflexivity. }
    split; [exact E |].
    cbv zeta in Hup. rewrite Hup.
    + rewrite E. reflexivity.
    + cbn; lia.
    + rewrite E; cbn; lia.
Defined.

(** C6 as stated fails: period 4096, compensation 50, vector
    (32767, -32768).  Phase C has a negative current and an uncompensated
    counter of 0; the compensated counter is 65486, neither 50 below it nor
    held at the floor 0. *)
Lemma dead_time_compensation_wraps :
  exists h_on h_off,
    SetPhaseVoltage_delivers false example_machine
      (mk_alphabeta 32767 (- 32768)) h_on /\
    SetPhaseVoltage_delivers false
      (with_handle (set_DTTest 0 example_handle) example_machine)
      (mk_alphabeta 32767 (- 32768)) h_off /\
    DTTest example_handle = 1 /\ Ic example_handle < 0 /\
    DTCompCnt example_handle = 50 /\
    CntPhC h_off = 0 /\ CntPhC h_on = 65486 /\
    CntPhC h_on <> Z.max 0 (CntPhC h_off - 50).
Proof.
  eexists _, _. split; [eexists _, _; split; reflexivity |].
  split; [eexists _, _; split; reflexivity |].
  vm_compute. repeat split; discriminate.
Qed.

(** *** Range of the counters *)

(** For a period of at most 10922 and projections of the magnitude that
    [hT_Sqrt3 <= 4 * PWMperiod] allows, no 32-bit operation of the sector
    step wraps and no timing exceeds the period. *)
Lemma timings_in_period (h : PWMC_Handle_t) (v : alphabeta_t) :
  let p := svpwm_projections h v in
  let t := snd (svpwm_sector h p) in
  0 <= PWMperiod h <= 10922 ->
  - (131072 * PWMperiod h) <= wUAlpha p <= 131072 * PWMperiod h ->
  - (65536 * PWMperiod h) <= wUBeta p <= 65536 * PWMperiod h ->
  wTimePhA t <= PWMperiod h /\ wTimePhB t <= PWMperiod h /\
  wTimePhC t <= PWMperiod h.
Proof.
  cbv zeta. unfold svpwm_projections.
  set (a := mul32 (alpha v) (hT_Sqrt3 h)).
  set (X := mul32 (neg32 (mul32 (beta v) (PWMperiod h))) 2).
  clearbody a X. cbn [wUAlpha wUBeta].
  intros HP Ha HX.
  unfold svpwm_sector. cbn [wX wY wZ].
  unfold add32, sub32, div32.
  set (P := PWMperiod h) in *.
  strip_int32 quot_lia.
  set (Y := Z.quot (X + a) 2). set (W := Z.quot (X - a) 2).
  assert (HY : 2 * Y - 1 <= X + a <= 2 * Y + 1) by (subst Y; quot_lia).
  assert (HW : 2 * W - 1 <= X - a <= 2 * W + 1) by (subst W; quot_lia).
  clearbody Y W.
  destruct (Y <? 0) eqn:EY; destruct (W <? 0) eqn:EW;
    destruct (W >=? 0) eqn:EW'; destruct (X <=? 0) eqn:EX;
    cbn [snd wTimePhA wTimePhB wTimePhC PWMperiod
         set_Sector set_lowDuty set_midDuty set_highDuty];
    fold P; unfold add32, sub32, div32;
    try lia; strip_int32 quot_lia; repeat split; quot_lia.
Qed.

Lemma compensated_disabled_le current comp time period :
  time <= period -> 0 <= period <= 65535 ->
  compensated false current comp time <= period.
Proof.
  intros Ht Hp. unfold compensated, MAX.
  destruct (time >? 0) eqn:E; rewrite to_uint16_id; unfold is_uint16; lia.
Qed.

Lemma compensated_is_uint16 enabled current comp time :
  is_uint16 (compensated enabled current comp time).
Proof.
  unfold compensated.
  destruct enabled; [destruct (current >? 0) |]; apply to_uint16_range.
Qed.

Section CounterProperties.

Variables HW PO : Type.
Variable flag : bool.

(** C7 as the code has it.  The three counters handed to the sampling point
    operation are 16-bit unsigned values.  With the compensation disabled,
    a period of at most 10922 and [hT_Sqrt3 <= 4 * PWMperiod], each of them
    is at most the period, for every vector of two [int16_t]. *)
Theorem PWMC_SetPhaseVoltage_counters (m : Machine HW PO) v f :
  pFctSetADCSampPointSectX _ _ (callbacks m) = Some f ->
  handle_in_range (handle m) -> alphabeta_in_range v ->
  exists h',
    SetPhaseVoltage_delivers flag m v h' /\
    is_uint16 (CntPhA h') /\ is_uint16 (CntPhB h') /\
    is_uint16 (CntPhC h') /\
    (DTTest (handle m) <> 1 ->
     PWMperiod (handle m) <= 10922 ->
     hT_Sqrt3 (handle m) <= 4 * PWMperiod (handle m) ->
     CntPhA h' <= PWMperiod (handle m) /\
     CntPhB h' <= PWMperiod (handle m) /\
     CntPhC h' <= PWMperiod (handle m)).
Proof.
  intros Hf Hh Hv. exists (svpwm_duties (handle m) v).
  split; [exact (SetPhaseVoltage_delivers_duties HW PO flag m v f Hf) |].
  set (h := handle m) in *.
  destruct (svpwm_duties_counters h v) as (EA & EB & EC). cbv zeta in *.
  split; [rewrite EA; apply compensated_is_uint16 |].
  split; [rewrite EB; apply compensated_is_uint16 |].
  split; [rewrite EC; apply compensated_is_uint16 |].
  intros Hoff HP HT.
  destruct Hh as (HT16 & HP16 & _). destruct Hv as (Hal & Hbe).
  unfold is_uint16, is_int16 in *.
  destruct (svpwm_projections_reduced h v) as (Ea & Eb & _). cbv zeta in *.
  rewrite to_int32_id in Ea by (unfold is_int32; nia).
  rewrite to_int32_id in Eb by (unfold is_int32; nia).
  pose proof (timings_in_period h v
                ltac:(lia) ltac:(rewrite Ea; nia) ltac:(rewrite Eb; nia))
    as (BA & BB & BC).
  apply Z.eqb_neq in Hoff. rewrite Hoff in EA, EB, EC.
  rewrite EA, EB, EC.
  repeat split; apply compensated_disabled_le; assumption || lia.
Qed.

End CounterProperties.

Lemma PWMC_SetPhaseVoltage_counters_witness :
  exists h',
    SetPhaseVoltage_delivers false
      (with_handle (set_DTTest 0 example_handle) example_machine)
      (mk_alphabeta 0 (- 2048)) h' /\
    CntPhA h' <= 4096 /\ CntPhB h' <= 4096 /\ CntPhC h' <= 4096.
Proof.
  destruct (PWMC_SetPhaseVoltage_counters unit unit false
              (with_handle (set_DTTest 0 example_handle) example_machine)
              (mk_alphabeta 0 (- 2048)) (idle 0) eq_refl)
    as (h' & Hd & _ & _ & _ & Hle).
  - unfold handle_in_range, is_uint16, is_int16; cbn; lia.
  - unfold alphabeta_in_range, is_int16; cbn; lia.
  - exists h'. split; [exact Hd |].
    apply Hle; cbn; lia.
Defined.

(** C7 as stated fails: period 4096, [hT_Sqrt3] = 14189, compensation of 50
    counts enabled, vector (32767, -32768).  Phase C, whose current is
    negative, gets the counter 65486, above the period. *)
Lemma counter_above_period :
  exists h',
    SetPhaseVoltage_delivers false example_machine
      (mk_alphabeta 32767 (- 32768)) h' /\
    handle_in_range example_handle /\
    alphabeta_in_range (mk_alphabeta 32767 (- 32768)) /\
    PWMperiod h' = 4096 /\ CntPhC h' = 65486 /\
    ~ CntPhC h' <= PWMperiod h'.
Proof.
  eexists. split; [eexists _, _; split; reflexivity |].
  unfold handle_in_range, alphabeta_in_range, is_uint16, is_int16.
  repeat split; vm_compute;
    try reflexivity; try discriminate; intros H; apply H; reflexivity.
Qed.

(** ** Offset calibration *)

Section CalibrationProperties.

Variables HW PO : Type.
Variable flag : bool.

Local Abbreviation EXEC :=
  (PWMC_CurrentReadingCalibr HW PO flag HandlePtr CRC_EXEC).
Local Abbreviation START :=
  (PWMC_CurrentReadingCalibr HW PO flag HandlePtr CRC_START).

(** [EXEC] with a wait counter above 1: the counter goes down by one,
    nothing is called, the calibration is not complete. *)
Lemma exec_while_waiting (m : Machine HW PO) :
  1 < OffCalibrWaitTimeCounter (handle m) <= 65535 ->
  EXEC m = Returns false
             (with_handle
                (set_OffCalibrWaitTimeCounter
                   (OffCalibrWaitTimeCounter (handle m) - 1) (handle m)) m).
Proof.
  intros Hc. unfold PWMC_CurrentReadingCalibr, null_checked, deref, unless_null, bind, read.
  destruct (OffCalibrWaitTimeCounter (handle m) >? 0) eqn:E; [| lia].
  unfold write, ret, with_handle. cbn.
  rewrite to_uint16_id by (unfold is_uint16; lia).
  destruct (OffCalibrWaitTimeCounter (handle m) - 1) eqn:E1; try lia;
    reflexivity.
Qed.

(** [EXEC] with a wait counter of 1: the counter reaches 0, the offset
    reading operation is called once, the calibration is complete. *)
Lemma exec_last_tick (m : Machine HW PO) cal :
  pFctCurrReadingCalib _ _ (callbacks m) = Some cal ->
  OffCalibrWaitTimeCounter (handle m) = 1 ->
  exists m',
    EXEC m = Returns true m' /\
    trace m' = trace m ++
               [(CurrReadingCalib,
                 set_OffCalibrWaitTimeCounter 0 (handle m))].
Proof.
  intros Hcal Hc.
  unfold PWMC_CurrentReadingCalibr, null_checked, deref, unless_null, bind, read.
  rewrite Hc. cbn. unfold invoke. cbn. rewrite Hcal.
  destruct (cal tt (set_OffCalibrWaitTimeCounter 0 (handle m), hw m))
    as [r [h' w']].
  eexists. split; reflexivity.
Qed.

Lemma exec_countdown (n : nat) :
  forall (m : Machine HW PO) cal,
    pFctCurrReadingCalib _ _ (callbacks m) = Some cal ->
    OffCalibrWaitTimeCounter (handle m) = Z.of_nat (S n) ->
    Z.of_nat (S n) <= 65535 ->
    exists m' h',
      exec_calls HW PO flag (S n) m = Returns (repeat false n ++ [true]) m' /\
      trace m' = trace m ++ [(CurrReadingCalib, h')].
Proof.
  induction n as [| k IH]; intros m cal Hcal Hc Hle.
  - destruct (exec_last_tick m cal Hcal Hc) as (m' & Hr & Ht).
    exists m', (set_OffCalibrWaitTimeCounter 0 (handle m)).
    split; [| exact Ht].
    cbn [exec_calls]. unfold bind. rewrite Hr. reflexivity.
  - pose proof (exec_while_waiting m ltac:(lia)) as Hstep.
    set (m1 := with_handle
                 (set_OffCalibrWaitTimeCounter
                    (OffCalibrWaitTimeCounter (handle m) - 1) (handle m)) m)
      in *.
    destruct (IH m1 cal Hcal) as (m' & h' & Hr & Ht).
    + cbn. lia.
    + lia.
    + exists m', h'. split; [| exact Ht].
      change (exec_calls HW PO flag (S (S k)))
        with (bind (PWMC_CurrentReadingCalibr HW PO flag HandlePtr CRC_EXEC)
                (fun r => bind (exec_calls HW PO flag (S k))
                            (fun rs => ret (r :: rs)))).
      unfold bind at 1. rewrite Hstep.
      unfold bind at 1. rewrite Hr. reflexivity.
Qed.

(** [START]: the PWM is switched off and the counter loaded; the offset
    reading operation is called, and the calibration complete, only when the
    configured wait is 0. *)
Lemma start_unfolded (m : Machine HW PO) off cal :
  pFctSwitchOffPwm _ _ (callbacks m) = Some off ->
  pFctCurrReadingCalib _ _ (callbacks m) = Some cal ->
  START m =
  let '(_, (h1, w1)) := off tt (handle m, hw m) in
  let h2 := set_OffCalibrWaitTimeCounter (OffCalibrWaitTicks h1) h1 in
  let tr := trace m ++ [(SwitchOffPwm, handle m)] in
  if 0 =? OffCalibrWaitTicks h1 then
    let '(_, (h3, w3)) := cal tt (h2, w1) in
    Returns true (mkMachine h3 (callbacks m) w3
                            (tr ++ [(CurrReadingCalib, h2)]))
  else Returns false (mkMachine h2 (callbacks m) w1 tr).
Proof.
  intros Hoff Hcal.
  unfold PWMC_CurrentReadingCalibr, PWMC_SwitchOffPWM, null_checked, deref,
    unless_null.
  unfold bind, read, write, invoke. rewrite Hoff.
  destruct (off tt (handle m, hw m)) as [r [h1 w1]].
  cbn -[Z.eqb].
  destruct (0 =? OffCalibrWaitTicks h1); [| reflexivity].
  cbn. rewrite Hcal.
  destruct (cal tt (set_OffCalibrWaitTimeCounter (OffCalibrWaitTicks h1) h1,
                    w1)) as [r' [h3 w3]].
  reflexivity.
Qed.

Lemma start_step (m : Machine HW PO) off cal :
  pFctSwitchOffPwm _ _ (callbacks m) = Some off ->
  pFctCurrReadingCalib _ _ (callbacks m) = Some cal ->
  keeps_wait_ticks off ->
  exists m' h',
    callbacks m' = callbacks m /\
    if OffCalibrWaitTicks (handle m) =? 0 then
      START m = Returns true m' /\
      trace m' = trace m ++ [(SwitchOffPwm, handle m); (CurrReadingCalib, h')]
    else
      START m = Returns false m' /\
      trace m' = trace m ++ [(SwitchOffPwm, handle m)] /\
      OffCalibrWaitTimeCounter (handle m')
      = OffCalibrWaitTicks (handle m).
Proof.
  intros Hoff Hcal Hkeep.
  rewrite (start_unfolded m off cal Hoff Hcal).
  pose proof (Hkeep tt (handle m) (hw m)) as K.
  destruct (off tt (handle m, hw m)) as [r [h1 w1]]. cbn [fst snd] in K.
  cbv zeta. rewrite K, (Z.eqb_sym 0).
  destruct (OffCalibrWaitTicks (handle m) =? 0) eqn:E.
  - destruct (cal tt (set_OffCalibrWaitTimeCounter
                        (OffCalibrWaitTicks (handle m)) h1, w1))
      as [r' [h3 w3]].
    eexists _, _. split; [| split; [reflexivity |]]; cbn;
      [reflexivity | rewrite <- app_assoc; reflexivity].
  - eexists _, h1. split; [| split; [reflexivity | split]]; reflexivity.
Qed.

(** C4.  With the switch-off and offset-reading operations bound, and a
    switch-off operation that does not alter the configured wait:
    [START] with a wait of 0 switches the PWM off, calls the offset reading
    once and returns true; [START] with a wait of [n + 1] ticks returns
    false after switching the PWM off, the next [n] calls of [EXEC] return
    false and the following one returns true, the offset reading being
    called exactly once, in that last call; [EXEC] with a wait counter of 0
    returns true and calls nothing. *)
Theorem PWMC_CurrentReadingCalibr_sequence (m : Machine HW PO) off cal
    (n : nat) :
  pFctSwitchOffPwm _ _ (callbacks m) = Some off ->
  pFctCurrReadingCalib _ _ (callbacks m) = Some cal ->
  keeps_wait_ticks off ->
  (OffCalibrWaitTicks (handle m) = 0 ->
   exists m' h',
     START m = Returns true m' /\
     trace m' = trace m ++ [(SwitchOffPwm, handle m); (CurrReadingCalib, h')]
     /\ invocations CurrReadingCalib (trace m')
        = S (invocations CurrReadingCalib (trace m))) /\
  (OffCalibrWaitTicks (handle m) = Z.of_nat (S n) ->
   Z.of_nat (S n) <= 65535 ->
   exists m1 m2 h',
     START m = Returns false m1 /\
     trace m1 = trace m ++ [(SwitchOffPwm, handle m)] /\
     exec_calls HW PO flag (S n) m1 = Returns (repeat false n ++ [true]) m2 /\
     trace m2 = trace m1 ++ [(CurrReadingCalib, h')] /\
     invocations CurrReadingCalib (trace m2)
     = S (invocations CurrReadingCalib (trace m))) /\
  (OffCalibrWaitTimeCounter (handle m) = 0 -> EXEC m = Returns true m).
Proof.
  intros Hoff Hcal Hkeep.
  destruct (start_step m off cal Hoff Hcal Hkeep) as (m1 & h1 & Hcb & Hs).
  split; [| split].
  - intros H0. rewrite H0 in Hs. cbn [Z.eqb] in Hs. destruct Hs as (Hr & Ht).
    exists m1, h1. split; [exact Hr |]. split; [exact Ht |].
    rewrite Ht. unfold invocations. rewrite filter_app, length_app.
    cbn. apply Nat.add_1_r.
  - intros HN Hle. rewrite HN in Hs. cbn [Z.of_nat Z.eqb] in Hs.
    destruct Hs as (Hr & Ht & Hc).
    destruct (exec_countdown n m1 cal) as (m2 & h2 & Hr2 & Ht2).
    + rewrite Hcb. exact Hcal.
    + rewrite Hc. reflexivity.
    + exact Hle.
    + exists m1, m2, h2. repeat (split; [assumption |]).
      rewrite Ht2, Ht. unfold invocations.
      rewrite !filter_app, !length_app. cbn.
      rewrite Nat.add_0_r. apply Nat.add_1_r.
  - intros H0. unfold PWMC_CurrentReadingCalibr, null_checked, deref, unless_null, bind, read.
    rewrite H0. reflexivity.
Qed.

End CalibrationProperties.

Lemma PWMC_CurrentReadingCalibr_sequence_witness :
  (exists m',
     PWMC_CurrentReadingCalibr unit unit false HandlePtr CRC_START
       (calibration_machine 0 7) = Returns true m' /\
     invocations CurrReadingCalib (trace m') = 1%nat) /\
  (exists m1 m2,
     PWMC_CurrentReadingCalibr unit unit false HandlePtr CRC_START
       (calibration_machine 3 0) = Returns false m1 /\
     exec_calls unit unit false 3 m1 = Returns [false; false; true] m2 /\
     invocations CurrReadingCalib (trace m2) = 1%nat) /\
  PWMC_CurrentReadingCalibr unit unit false HandlePtr CRC_EXEC
    (calibration_machine 3 0) = Returns true (calibration_machine 3 0).
Proof.
  assert (K : keeps_wait_ticks (idle (A := unit) tt))
    by (intros arg h w; reflexivity).
  destruct (PWMC_CurrentReadingCalibr_sequence unit unit false
              (calibration_machine 0 7) (idle tt) (idle tt) 0
              eq_refl eq_refl K) as (Hzero & _ & _).
  destruct (PWMC_CurrentReadingCalibr_sequence unit unit false
              (calibration_machine 3 0) (idle tt) (idle tt) 2
              eq_refl eq_refl K) as (_ & Hwait & Hdone).
  split; [| split].
  - destruct (Hzero eq_refl) as (m' & h' & Hr & _ & Hn).
    exists m'. split; [exact Hr | exact Hn].
  - destruct (Hwait eq_refl ltac:(cbn; lia))
      as (m1 & m2 & h' & Hr & _ & Hx & _ & Hn).
    exists m1, m2. split; [exact Hr |]. split; [exact Hx | exact Hn].
  - exact (Hdone eq_refl).
Defined.

(** ** Guards of the dispatch layer *)

Section DispatchProperties.

Variables HW PO : Type.
Variables MC_NO_FAULTS MC_FOC_DURATION : Z.

(** C5 as the code has it.
    - In a build with [NULL_PTR_PWR_CUR_FDB], every call on a null handle
      returns without touching the machine: nothing for the [void]
      functions, [false] for the calibration, 0 for [PWMC_SetPhaseVoltage],
      [MC_NO_FAULTS] for [PWMC_CheckOverCurrent] and [MC_FOC_DURATION] for
      [PWMC_RLDetectionModeSetDuty].  [PWMC_SetOffsetCalib] and
      [PWMC_GetOffsetCalib] do so in every build.
    - A missing operation is checked, in that build only, for the
      over-current reference and the R/L detection operations: the call then
      does nothing, and [PWMC_RLDetectionModeSetDuty] returns
      [MC_FOC_DURATION]; in the other build the null pointer is called.
    - In either build, on a non-null handle, the other operations are called
      without a check of the function pointer: get-phase-currents,
      over-current, sampling point (after the duties are written), switch
      off, switch on, low sides, the switch-off at [CRC_START], the
      calibration at the last [CRC_EXEC] tick, and the two offset
      operations.
    - In the build without the option a null handle is dereferenced, except
      by the offset functions and by [PWMC_CurrentReadingCalibr] with an
      action that is neither [CRC_START] nor [CRC_EXEC], which returns
      [false]. *)
Theorem PWMC_dispatch_guards (m : Machine HW PO) :
  (forall Iab, PWMC_GetPhaseCurrents HW PO true MC_NULL Iab m
               = Returns Iab m) /\
  (forall v, PWMC_SetPhaseVoltage HW PO true MC_NULL v m = Returns 0 m) /\
  PWMC_CheckOverCurrent HW PO true MC_NO_FAULTS MC_NULL m
  = Returns MC_NO_FAULTS m /\
  PWMC_SwitchOffPWM HW PO true MC_NULL m = Returns tt m /\
  PWMC_SwitchOnPWM HW PO true MC_NULL m = Returns tt m /\
  PWMC_TurnOnLowSides HW PO true MC_NULL m = Returns tt m /\
  PWMC_Clear HW PO true MC_NULL m = Returns tt m /\
  (forall action, PWMC_CurrentReadingCalibr HW PO true MC_NULL action m
                  = Returns false m) /\
  (forall offsets,
     PWMC_SetOffsetCalib HW PO MC_NULL offsets m = Returns offsets m /\
     PWMC_GetOffsetCalib HW PO MC_NULL offsets m = Returns offsets m) /\
  (forall pHandle hDACVref,
     pHandle = MC_NULL \/
     pFctOCPSetReferenceVoltage _ _ (callbacks m) = None ->
     PWMC_OCPSetReferenceVoltage HW PO true pHandle hDACVref m
     = Returns tt m) /\
  (forall pHandle,
     pHandle = MC_NULL \/
     pFctRLDetectionModeEnable _ _ (callbacks m) = None ->
     PWMC_RLDetectionModeEnable HW PO true pHandle m = Returns tt m) /\
  (forall pHandle,
     pHandle = MC_NULL \/
     pFctRLDetectionModeDisable _ _ (callbacks m) = None ->
     PWMC_RLDetectionModeDisable HW PO true pHandle m = Returns tt m) /\
  (forall pHandle hDuty,
     pHandle = MC_NULL \/
     pFctRLDetectionModeSetDuty _ _ (callbacks m) = None ->
     PWMC_RLDetectionModeSetDuty HW PO true MC_FOC_DURATION pHandle hDuty m
     = Returns MC_FOC_DURATION m) /\
  (forall flag : bool,
     (pFctGetPhaseCurrents _ _ (callbacks m) = None ->
      forall Iab, PWMC_GetPhaseCurrents HW PO flag HandlePtr Iab m
                  = Undefined) /\
     (pFctIsOverCurrentOccurred _ _ (callbacks m) = None ->
      PWMC_CheckOverCurrent HW PO flag MC_NO_FAULTS HandlePtr m
      = Undefined) /\
     (pFctSetADCSampPointSectX _ _ (callbacks m) = None ->
      forall v, PWMC_SetPhaseVoltage HW PO flag HandlePtr v m = Undefined) /\
     (pFctSwitchOffPwm _ _ (callbacks m) = None ->
      PWMC_SwitchOffPWM HW PO flag HandlePtr m = Undefined /\
      PWMC_CurrentReadingCalibr HW PO flag HandlePtr CRC_START m
      = Undefined) /\
     (pFctSwitchOnPwm _ _ (callbacks m) = None ->
      PWMC_SwitchOnPWM HW PO flag HandlePtr m = Undefined) /\
     (pFctTurnOnLowSides _ _ (callbacks m) = None ->
      PWMC_TurnOnLowSides HW PO flag HandlePtr m = Undefined) /\
     (pFctCurrReadingCalib _ _ (callbacks m) = None ->
      OffCalibrWaitTimeCounter (handle m) = 1 ->
      PWMC_CurrentReadingCalibr HW PO flag HandlePtr CRC_EXEC m
      = Undefined) /\
     (pFctSetOffsetCalib _ _ (callbacks m) = None ->
      forall offsets, PWMC_SetOffsetCalib HW PO HandlePtr offsets m
                      = Undefined) /\
     (pFctGetOffsetCalib _ _ (callbacks m) = None ->
      forall offsets, PWMC_GetOffsetCalib HW PO HandlePtr offsets m
                      = Undefined)) /\
  ((pFctOCPSetReferenceVoltage _ _ (callbacks m) = None ->
    forall hDACVref,
      PWMC_OCPSetReferenceVoltage HW PO false HandlePtr hDACVref m
      = Undefined) /\
   (pFctRLDetectionModeEnable _ _ (callbacks m) = None ->
    PWMC_RLDetectionModeEnable HW PO false HandlePtr m = Undefined) /\
   (pFctRLDetectionModeDisable _ _ (callbacks m) = None ->
    PWMC_RLDetectionModeDisable HW PO false HandlePtr m = Undefined) /\
   (pFctRLDetectionModeSetDuty _ _ (callbacks m) = None ->
    forall hDuty,
      PWMC_RLDetectionModeSetDuty HW PO false MC_FOC_DURATION HandlePtr
        hDuty m
      = Undefined)) /\
  ((forall Iab, PWMC_GetPhaseCurrents HW PO false MC_NULL Iab m
                = Undefined) /\
   (forall v, PWMC_SetPhaseVoltage HW PO false MC_NULL v m = Undefined) /\
   PWMC_CheckOverCurrent HW PO false MC_NO_FAULTS MC_NULL m = Undefined /\
   PWMC_SwitchOffPWM HW PO false MC_NULL m = Undefined /\
   PWMC_SwitchOnPWM HW PO false MC_NULL m = Undefined /\
   PWMC_TurnOnLowSides HW PO false MC_NULL m = Undefined /\
   PWMC_Clear HW PO false MC_NULL m = Undefined /\
   PWMC_CurrentReadingCalibr HW PO false MC_NULL CRC_START m = Undefined /\
   PWMC_CurrentReadingCalibr HW PO false MC_NULL CRC_EXEC m = Undefined /\
   PWMC_CurrentReadingCalibr HW PO false MC_NULL CRC_OTHER m
   = Returns false m /\
   (forall hDACVref,
      PWMC_OCPSetReferenceVoltage HW PO false MC_NULL hDACVref m
      = Undefined) /\
   PWMC_RLDetectionModeEnable HW PO false MC_NULL m = Undefined /\
   PWMC_RLDetectionModeDisable HW PO false MC_NULL m = Undefined /\
   (forall hDuty,
      PWMC_RLDetectionModeSetDuty HW PO false MC_FOC_DURATION MC_NULL
        hDuty m
      = Undefined)).
Proof.
  split; [intros; reflexivity |].
  split; [intros; reflexivity |].
  do 5 (split; [reflexivity |]).
  split; [intros; reflexivity |].
  split; [intros; split; reflexivity |].
  split; [intros pHandle hDACVref [-> | Hnone]; [reflexivity |];
          destruct pHandle; [reflexivity |];
          unfold PWMC_OCPSetReferenceVoltage, unless_null_or_unbound, bind,
            bound; rewrite Hnone; reflexivity |].
  split; [intros pHandle [-> | Hnone]; [reflexivity |];
          destruct pHandle; [reflexivity |];
          unfold PWMC_RLDetectionModeEnable, unless_null_or_unbound, bind,
            bound; rewrite Hnone; reflexivity |].
  split; [intros pHandle [-> | Hnone]; [reflexivity |];
          destruct pHandle; [reflexivity |];
          unfold PWMC_RLDetectionModeDisable, unless_null_or_unbound, bind,
            bound; rewrite Hnone; reflexivity |].
  split; [intros pHandle hDuty [-> | Hnone]; [reflexivity |];
          destruct pHandle; [reflexivity |];
          unfold PWMC_RLDetectionModeSetDuty, unless_null_or_unbound, bind,
            bound; rewrite Hnone; reflexivity |].
  split.
  { intros flag.
    repeat match goal with |- _ /\ _ => split end;
      intros Hnone; intros;
      unfold PWMC_CurrentReadingCalibr, PWMC_GetPhaseCurrents,
        PWMC_CheckOverCurrent, PWMC_SetPhaseVoltage, PWMC_SwitchOffPWM,
        PWMC_SwitchOnPWM, PWMC_TurnOnLowSides, PWMC_SetOffsetCalib,
        PWMC_GetOffsetCalib, null_checked, deref, unless_null, bind, write,
        read, invoke; cbn [callbacks handle];
      rewrite ?Hnone; try reflexivity.
    - split; reflexivity.
    - match goal with H : OffCalibrWaitTimeCounter _ = 1 |- _ => rewrite H end.
      cbn. rewrite ?Hnone. reflexivity. }
  split.
  { repeat match goal with |- _ /\ _ => split end;
      intros Hnone; intros;
      unfold PWMC_OCPSetReferenceVoltage, PWMC_RLDetectionModeEnable,
        PWMC_RLDetectionModeDisable, PWMC_RLDetectionModeSetDuty,
        unless_null_or_unbound, invoke;
      rewrite Hnone; reflexivity. }
  repeat match goal with |- _ /\ _ => split end; intros; reflexivity.
Qed.

End DispatchProperties.

Lemma PWMC_dispatch_guards_witness :
  PWMC_CheckOverCurrent unit unit true 0 MC_NULL unbound_machine
  = Returns 0 unbound_machine /\
  PWMC_RLDetectionModeEnable unit unit true HandlePtr unbound_machine
  = Returns tt unbound_machine /\
  PWMC_RLDetectionModeSetDuty unit unit true 1 HandlePtr 100 unbound_machine
  = Returns 1 unbound_machine /\
  PWMC_SwitchOnPWM unit unit true HandlePtr unbound_machine = Undefined /\
  PWMC_CurrentReadingCalibr unit unit true HandlePtr CRC_EXEC
    (mkMachine (set_OffCalibrWaitTimeCounter 1 example_handle)
               unbound_callbacks tt [])
  = Undefined /\
  PWMC_RLDetectionModeEnable unit unit false HandlePtr unbound_machine
  = Undefined.
Proof.
  destruct (PWMC_dispatch_guards unit unit 0 1 unbound_machine)
    as (_ & _ & Hoc & _ & _ & _ & _ & _ & _ & _ & Hen & _ & Hduty & Hcall
        & (_ & Hen' & _) & _).
  destruct (Hcall true) as (_ & _ & _ & _ & Hon & _).
  destruct (PWMC_dispatch_guards unit unit 0 1
              (mkMachine (set_OffCalibrWaitTimeCounter 1 example_handle)
                         unbound_callbacks tt []))
    as (_ & _ & _ & _ & _ & _ & _ & _ & _ & _ & _ & _ & _ & Hcall1 & _).
  destruct (Hcall1 true) as (_ & _ & _ & _ & _ & _ & Hexec & _).
  split; [exact Hoc |].
  split; [apply Hen; right; reflexivity |].
  split; [apply Hduty; right; reflexivity |].
  split; [apply Hon; reflexivity |].
  split; [apply Hexec; reflexivity |].
  apply Hen'; reflexivity.
Defined.

(** X21.  The operations that every implementation must supply are called
    without a check, in either build: on a handle where one of them is not
    registered, the dispatch function that uses it calls a null pointer. *)
Lemma mandatory_operation_unchecked (HW PO : Type) (flag : bool)
    (m : Machine HW PO) :
  (pFctGetPhaseCurrents _ _ (callbacks m) = None ->
   forall Iab, PWMC_GetPhaseCurrents HW PO flag HandlePtr Iab m
               = Undefined) /\
  (pFctIsOverCurrentOccurred _ _ (callbacks m) = None ->
   forall no_faults, PWMC_CheckOverCurrent HW PO flag no_faults HandlePtr m
                     = Undefined) /\
  (pFctSetADCSampPointSectX _ _ (callbacks m) = None ->
   forall v, PWMC_SetPhaseVoltage HW PO flag HandlePtr v m = Undefined) /\
  (pFctSwitchOffPwm _ _ (callbacks m) = None ->
   PWMC_CurrentReadingCalibr HW PO flag HandlePtr CRC_START m = Undefined).
Proof.
  repeat split; intros Hnone; intros;
    unfold PWMC_GetPhaseCurrents, PWMC_CheckOverCurrent,
      PWMC_SetPhaseVoltage, PWMC_CurrentReadingCalibr, PWMC_SwitchOffPWM,
      null_checked, deref, unless_null, bind, write, invoke; cbn; rewrite Hnone; reflexivity.
Qed.

(** C5 as stated fails.  On a handle whose function pointers were never
    registered, and even in the build with [NULL_PTR_PWR_CUR_FDB],
    [PWMC_GetPhaseCurrents], [PWMC_CheckOverCurrent] and
    [PWMC_SetPhaseVoltage] call through a null pointer; in the build without
    the option a null handle is dereferenced. *)
Lemma unbound_operation_is_called :
  PWMC_GetPhaseCurrents unit unit true HandlePtr (mk_ab 0 0) unbound_machine
  = Undefined /\
  PWMC_CheckOverCurrent unit unit true 0 HandlePtr unbound_machine
  = Undefined /\
  PWMC_SetPhaseVoltage unit unit true HandlePtr (mk_alphabeta 0 0)
    unbound_machine = Undefined /\
  PWMC_GetPhaseCurrents unit unit false MC_NULL (mk_ab 0 0) example_machine
  = Undefined /\
  PWMC_CheckOverCurrent unit unit false 0 MC_NULL example_machine
  = Undefined.
Proof. repeat split; reflexivity. Qed.

(** * Further properties of the trigonometric engine *)

Lemma residues_check (P : Z -> bool) :
  forallb P residues = true -> forall r, 0 <= r < 360 -> P r = true.
Proof.
  intros H r Hr. rewrite forallb_forall in H. apply H.
  unfold residues. apply in_map_iff. exists (Z.to_nat r).
  split; [lia | apply in_seq; lia].
Qed.

Lemma limitTheta_residue theta :
  0 <= theta <= 32767 -> limitTheta theta = theta mod 360.
Proof.
  intros H. apply limitTheta_nonnegative; unfold is_int16; lia.
Qed.

(** [sin2] depends on a non-negative angle through its residue only. *)
Lemma sin2_residue theta :
  0 <= theta <= 32767 -> sin2 theta = sin2 (theta mod 360).
Proof.
  intros H. pose proof (Z.mod_pos_bound theta 360 ltac:(lia)) as B.
  unfold sin2.
  rewrite (limitTheta_residue theta H).
  rewrite (limitTheta_residue (theta mod 360)) by lia.
  rewrite Z.mod_mod by lia. reflexivity.
Qed.

Lemma sin2_offset theta k :
  0 <= theta -> 0 <= k -> theta + k <= 32767 ->
  sin2 (theta + k) = sin2 ((theta mod 360 + k) mod 360).
Proof.
  intros Ht Hk Hs. rewrite sin2_residue by lia.
  rewrite Zplus_mod_idemp_l. reflexivity.
Qed.

Lemma short_sum x k :
  is_int16 (x + k) -> to_int16 (add32 x k) = x + k.
Proof.
  intros H. unfold add32.
  rewrite to_int32_id by (unfold is_int16, is_int32 in *; lia).
  apply to_int16_id, H.
Qed.

(** X1.  For every angle from 0 to 32767 degrees [sin2] reads the table
    within its bounds and returns a value from -512 to 512; the value is the
    same one turn later. *)
Theorem sin2_nonnegative_angle theta :
  0 <= theta <= 32767 ->
  exists s,
    sin2 theta = Some s /\ - 512 <= s <= 512 /\
    (theta + 360 <= 32767 -> sin2 (theta + 360) = Some s).
Proof.
  intros H.
  destruct (sin2_defined theta ltac:(unfold is_int16; lia) ltac:(lia))
    as (s & Hs).
  exists s. split; [exact Hs |]. split; [exact (sin2_range theta s Hs) |].
  intros Hn. rewrite <- Hs.
  rewrite (sin2_residue (theta + 360)) by lia.
  rewrite (sin2_residue theta) by lia.
  f_equal. rewrite <- (Z.mul_1_l 360) at 1. apply Z.mod_add. lia.
Qed.

Lemma sin2_nonnegative_angle_witness :
  exists s, sin2 725 = Some s /\ - 512 <= s <= 512 /\ sin2 1085 = Some s.
Proof.
  destruct (sin2_nonnegative_angle 725 ltac:(lia)) as (s & Hs & Hr & Hp).
  exists s. split; [exact Hs |]. split; [exact Hr |].
  apply Hp. lia.
Defined.

Lemma sin2_negative_angle_witness : sin2 (- 45) = None.
Proof.
  apply sin2_negative_angle; [unfold is_int16; lia | lia |].
  vm_compute. discriminate.
Defined.

(** X3.  Half a turn later the sine is the opposite: for an angle from 0 to
    32587 degrees, [sin2 (theta + 180)] is [- sin2 theta]. *)
Theorem sin2_half_turn theta :
  0 <= theta <= 32587 ->
  sin2 (theta + 180) = option_map Z.opp (sin2 theta).
Proof.
  intros H.
  rewrite (sin2_offset theta 180) by lia.
  rewrite (sin2_residue theta) by lia.
  pose proof (Z.mod_pos_bound theta 360 ltac:(lia)) as B.
  set (r := theta mod 360) in *.
  pose proof (residues_check
    (fun r => match sin2 ((r + 180) mod 360), sin2 r with
              | Some x, Some y => x =? - y
              | _, _ => false
              end) eq_refl r B) as C.
  cbv beta in C.
  destruct (sin2 ((r + 180) mod 360)) as [x |]; [| discriminate].
  destruct (sin2 r) as [y |]; [| discriminate].
  cbn. f_equal. lia.
Qed.

Lemma sin2_half_turn_witness :
  sin2 (30 + 180) = option_map Z.opp (sin2 30) /\ sin2 30 = Some 256.
Proof.
  split; [apply sin2_half_turn; lia | reflexivity].
Defined.

(** X4.  On the first half turn the sine is mirrored about 90 degrees, and
    on the first quarter it does not decrease: for [0 <= a <= b <= 90],
    [sin2 (180 - a) = sin2 a] and [sin2 a <= sin2 b], from 0 at 0 degrees to
    512 at 90. *)
Theorem sin2_first_half_turn a b :
  0 <= a <= b -> b <= 90 ->
  exists x y,
    sin2 a = Some x /\ sin2 b = Some y /\ 0 <= x <= y /\ y <= 512 /\
    sin2 (180 - a) = Some x /\ sin2 (180 - b) = Some y /\
    sin2 0 = Some 0 /\ sin2 90 = Some 512.
Proof.
  intros Ha Hb.
  assert (Q : forall r, 0 <= r <= 90 ->
              exists x, sin2 r = Some x /\ sin2 (180 - r) = Some x /\
                        0 <= x <= 512 /\
                        (forall y, sin2 (r + 1) = Some y -> r < 90 -> x <= y)).
  { intros r Hr.
    pose proof (residues_check
      (fun r => (90 <? r) ||
                match sin2 r, sin2 (180 - r), sin2 (r + 1) with
                | Some x, Some x', Some y =>
                    (x =? x') && (0 <=? x) && (x <=? 512) &&
                    ((r =? 90) || (x <=? y))
                | _, _, _ => false
                end) eq_refl r ltac:(lia)) as C.
    cbv beta in C.
    destruct (sin2 r) as [x |]; [| lia].
    destruct (sin2 (180 - r)) as [x' |]; [| lia].
    destruct (sin2 (r + 1)) as [y |]; [| lia].
    exists x. split; [reflexivity |]. split; [f_equal; lia |].
    split; [lia |]. intros y' Hy Hlt. injection Hy as <-. lia. }
  destruct (Q a ltac:(lia)) as (x & Hx & Hx' & Rx & _).
  destruct (Q b ltac:(lia)) as (y & Hy & Hy' & Ry & _).
  exists x, y. repeat split; try assumption; try lia; try reflexivity.
  (* monotone: induction on the distance from [a] to [b] *)
  clear Hx' Hy' Rx Ry.
  assert (M : forall n r z, sin2 r = Some z ->
              0 <= r -> r + Z.of_nat n <= 90 ->
              forall w, sin2 (r + Z.of_nat n) = Some w -> z <= w).
  { induction n as [| n IH]; intros r z Hz Hr0 Hr w Hw.
    - rewrite Z.add_0_r in Hw. rewrite Hz in Hw. injection Hw as <-. lia.
    - destruct (Q r ltac:(lia)) as (z' & Hz' & _ & _ & Hstep).
      rewrite Hz in Hz'. injection Hz' as <-.
      destruct (Q (r + 1) ltac:(lia)) as (u & Hu & _).
      specialize (Hstep u Hu ltac:(lia)).
      specialize (IH (r + 1) u Hu ltac:(lia) ltac:(lia) w).
      replace (r + 1 + Z.of_nat n) with (r + Z.of_nat (S n)) in IH by lia.
      specialize (IH Hw). lia. }
  apply (M (Z.to_nat (b - a)) a x Hx ltac:(lia) ltac:(lia)).
  replace (a + Z.of_nat (Z.to_nat (b - a))) with b by lia. exact Hy.
Qed.

Lemma sin2_first_half_turn_witness :
  exists x y,
    sin2 30 = Some x /\ sin2 60 = Some y /\ x <= y /\
    sin2 150 = Some x /\ sin2 120 = Some y.
Proof.
  destruct (sin2_first_half_turn 30 60 ltac:(lia) ltac:(lia))
    as (x & y & Hx & Hy & Hle & _ & Hx' & Hy' & _).
  exists x, y. repeat split; try assumption; lia.
Defined.

Lemma cos2_as_sin2 theta :
  - 90 <= theta <= 32677 -> cos2 theta = sin2 (theta + 90).
Proof.
  intros H. unfold cos2. rewrite short_sum by (unfold is_int16; lia).
  reflexivity.
Qed.

(** X5.  For an angle from 0 to 32677 degrees [sin2] and [cos2] are both
    defined and their squares add up to 512 squared within 572, that is
    within 0.22 percent. *)
Theorem sin2_cos2_unit_circle theta :
  0 <= theta <= 32677 ->
  exists s c,
    sin2 theta = Some s /\ cos2 theta = Some c /\
    Z.abs (s * s + c * c - 512 * 512) <= 572.
Proof.
  intros H. rewrite cos2_as_sin2 by lia.
  rewrite (sin2_offset theta 90) by lia.
  rewrite (sin2_residue theta) by lia.
  pose proof (Z.mod_pos_bound theta 360 ltac:(lia)) as B.
  set (r := theta mod 360) in *.
  pose proof (residues_check
    (fun r => match sin2 r, sin2 ((r + 90) mod 360) with
              | Some s, Some c =>
                  Z.abs (s * s + c * c - 512 * 512) <=? 572
              | _, _ => false
              end) eq_refl r B) as C.
  cbv beta in C.
  destruct (sin2 r) as [s |]; [| discriminate].
  destruct (sin2 ((r + 90) mod 360)) as [c |]; [| discriminate].
  exists s, c. repeat split. lia.
Qed.

Lemma sin2_cos2_unit_circle_witness :
  exists s c,
    sin2 1000 = Some s /\ cos2 1000 = Some c /\
    Z.abs (s * s + c * c - 512 * 512) <= 572.
Proof. apply sin2_cos2_unit_circle. lia. Defined.

(** The triplet depends on the angle through the residue of
    [thetaElec + 90] only. *)
Lemma computeSinCos_residue theta :
  - 90 <= theta <= 32347 ->
  computeSinCos theta = computeSinCos ((theta + 90) mod 360 - 90).
Proof.
  intros H. pose proof (Z.mod_pos_bound (theta + 90) 360 ltac:(lia)) as B.
  set (r := (theta + 90) mod 360) in *.
  assert (Er : r mod 360 = r) by (apply Z.mod_small; lia).
  unfold computeSinCos, cos2. cbv zeta.
  rewrite (short_sum theta 90) by (unfold is_int16; lia).
  rewrite (short_sum (r - 90) 90) by (unfold is_int16; lia).
  replace (r - 90 + 90) with r by lia.
  rewrite !short_sum by (unfold is_int16; rewrite ?short_sum;
                         unfold is_int16; lia).
  replace (theta + 90 + 120 + 90) with (theta + 90 + 210) by lia.
  replace (theta + 90 + 240 + 90) with (theta + 90 + 330) by lia.
  replace (r + 120 + 90) with (r + 210) by lia.
  replace (r + 240 + 90) with (r + 330) by lia.
  rewrite (sin2_residue (theta + 90)) by lia. fold r.
  rewrite (sin2_residue r), Er by lia.
  rewrite (sin2_offset (theta + 90) 90), (sin2_offset (theta + 90) 120),
    (sin2_offset (theta + 90) 240), (sin2_offset (theta + 90) 210),
    (sin2_offset (theta + 90) 330) by lia.
  fold r.
  rewrite (sin2_offset r 90), (sin2_offset r 120), (sin2_offset r 240),
    (sin2_offset r 210), (sin2_offset r 330), Er by lia.
  reflexivity.
Qed.

(** X6.  For an electrical angle from -90 to 32347 degrees [computeSinCos]
    reads the table within its bounds; each of the six values lies from -512
    to 512, the three sines add up to 0 within 1 and so do the three
    cosines, and each sine-cosine pair is on the circle of radius 512 within
    0.22 percent. *)
Theorem computeSinCos_balanced theta :
  - 90 <= theta <= 32347 ->
  exists t,
    computeSinCos theta = Some t /\
    (- 512 <= sin000 t <= 512 /\ - 512 <= sin120 t <= 512 /\
     - 512 <= sin240 t <= 512 /\ - 512 <= cos000 t <= 512 /\
     - 512 <= cos120 t <= 512 /\ - 512 <= cos240 t <= 512) /\
    - 1 <= sin000 t + sin120 t + sin240 t <= 1 /\
    - 1 <= cos000 t + cos120 t + cos240 t <= 1 /\
    Z.abs (sin000 t * sin000 t + cos000 t * cos000 t - 512 * 512) <= 572 /\
    Z.abs (sin120 t * sin120 t + cos120 t * cos120 t - 512 * 512) <= 572 /\
    Z.abs (sin240 t * sin240 t + cos240 t * cos240 t - 512 * 512) <= 572.
Proof.
  intros H. rewrite (computeSinCos_residue theta H).
  pose proof (Z.mod_pos_bound (theta + 90) 360 ltac:(lia)) as B.
  set (r := (theta + 90) mod 360) in *.
  pose proof (residues_check
    (fun r => match computeSinCos (r - 90) with
              | Some t =>
                  (Z.abs (sin000 t) <=? 512) && (Z.abs (sin120 t) <=? 512) &&
                  (Z.abs (sin240 t) <=? 512) && (Z.abs (cos000 t) <=? 512) &&
                  (Z.abs (cos120 t) <=? 512) && (Z.abs (cos240 t) <=? 512) &&
                  (Z.abs (sin000 t + sin120 t + sin240 t) <=? 1) &&
                  (Z.abs (cos000 t + cos120 t + cos240 t) <=? 1) &&
                  (Z.abs (sin000 t * sin000 t + cos000 t * cos000 t
                          - 512 * 512) <=? 572) &&
                  (Z.abs (sin120 t * sin120 t + cos120 t * cos120 t
                          - 512 * 512) <=? 572) &&
                  (Z.abs (sin240 t * sin240 t + cos240 t * cos240 t
                          - 512 * 512) <=? 572)
              | None => false
              end) ltac:(vm_compute; reflexivity) r B) as C.
  cbv beta in C.
  destruct (computeSinCos (r - 90)) as [t |]; [| discriminate].
  exists t. split; [reflexivity |].
  repeat rewrite andb_true_iff in C.
  repeat split; lia.
Qed.

Lemma computeSinCos_balanced_witness :
  exists t,
    computeSinCos 1000 = Some t /\
    - 1 <= sin000 t + sin120 t + sin240 t <= 1 /\
    - 1 <= cos000 t + cos120 t + cos240 t <= 1.
Proof.
  destruct (computeSinCos_balanced 1000 ltac:(lia))
    as (t & Ht & _ & Hs & Hc & _).
  exists t. split; [exact Ht |]. split; assumption.
Defined.

(** X7.  For an electrical angle below -90 degrees [computeSinCos] reads the
    table at a negative index: it has no defined result. *)
Theorem computeSinCos_below_range theta :
  - 32768 <= theta < - 90 -> computeSinCos theta = None.
Proof.
  intros H. unfold computeSinCos, cos2. cbv zeta.
  rewrite (short_sum theta 90) by (unfold is_int16; lia).
  destruct (Z.eq_dec ((theta + 90) mod 360) 0) as [E | E].
  - rewrite (short_sum (theta + 90) 90) by (unfold is_int16; lia).
    rewrite (sin2_negative_limit (theta + 90 + 90)).
    + destruct (sin2 (theta + 90)); reflexivity.
    + apply limitTheta_negative_range.
      * unfold is_int16; lia.
      * Z.to_euclidean_division_equations; lia.
      * rewrite <- Zplus_mod_idemp_l, E. cbn. discriminate.
  - rewrite (sin2_negative_limit (theta + 90)); [reflexivity |].
    apply limitTheta_negative_range;
      [unfold is_int16; lia | lia | exact E].
Qed.

Lemma computeSinCos_below_range_witness : computeSinCos (- 91) = None.
Proof. apply computeSinCos_below_range. lia. Defined.

Lemma parkTransform_exact_in_cycle_witness :
  exists t,
    computeSinCos 0 = Some t /\
    qd_d (parkTransform to_int16 t 30 (- 10) (- 20)) = 30000 /\
    qd_q (parkTransform to_int16 t 30 (- 10) (- 20)) = 5768.
Proof.
  exists (mkTrig 512 (- 256) (- 256) 0 (- 443) 443).
  split; [reflexivity |].
  destruct (parkTransform_exact_in_cycle to_int16 0
              (mkTrig 512 (- 256) (- 256) 0 (- 443) 443) 30 (- 10) (- 20)
              eq_refl ltac:(lia) ltac:(lia) ltac:(lia)) as (Hd & Hq).
  split; [rewrite Hd | rewrite Hq]; reflexivity.
Defined.

(** X9.  The Park transform rejects a common value of the three phases:
    with the triplet of [computeSinCos] for an angle from -90 to 32347
    degrees and [a = b = c] of magnitude at most 1398, the values stored in
    [d] and [q] are the conversions of integers of magnitude at most
    [2 * |a|]. *)
Theorem parkTransform_common_mode qd_conv theta t a :
  - 90 <= theta <= 32347 ->
  computeSinCos theta = Some t ->
  - 1398 <= a <= 1398 ->
  exists dv qv,
    parkTransform qd_conv t a a a = mk_qd (qd_conv qv) (qd_conv dv) /\
    Z.abs dv <= 2 * Z.abs a /\ Z.abs qv <= 2 * Z.abs a.
Proof.
  intros H Ht Ha.
  assert (S : (sin000 t + sin240 t + sin120 t = - 1 \/
               sin000 t + sin240 t + sin120 t = 0 \/
               sin000 t + sin240 t + sin120 t = 1) /\
              (cos000 t + cos240 t + cos120 t = - 1 \/
               cos000 t + cos240 t + cos120 t = 0 \/
               cos000 t + cos240 t + cos120 t = 1)).
  { rewrite (computeSinCos_residue theta H) in Ht.
    pose proof (Z.mod_pos_bound (theta + 90) 360 ltac:(lia)) as B.
    set (r := (theta + 90) mod 360) in *.
    pose proof (residues_check
      (fun r => match computeSinCos (r - 90) with
                | Some t =>
                    (Z.abs (sin000 t + sin240 t + sin120 t) <=? 1) &&
                    (Z.abs (cos000 t + cos240 t + cos120 t) <=? 1)
                | None => false
                end) ltac:(vm_compute; reflexivity) r B) as C.
    cbv beta in C. rewrite Ht in C. split; lia. }
  destruct S as (Ss & Sc).
  unfold parkTransform.
  rewrite (packed_sum_once (sin000 t) a (sin240 t) a (sin120 t) a).
  rewrite (packed_sum_once (cos000 t) a (cos240 t) a (cos120 t) a).
  replace (sin000 t * a + sin240 t * a + sin120 t * a)
    with ((sin000 t + sin240 t + sin120 t) * a) by ring.
  replace (cos000 t * a + cos240 t * a + cos120 t * a)
    with ((cos000 t + cos240 t + cos120 t) * a) by ring.
  rewrite !div32_exact by (try apply to_int32_range; lia).
  eexists _, _. split; [reflexivity |].
  split;
    [destruct Ss as [-> | [-> | ->]] | destruct Sc as [-> | [-> | ->]]];
    rewrite to_int32_id by (unfold is_int32; lia);
    Z.to_euclidean_division_equations; lia.
Qed.

Lemma parkTransform_common_mode_witness :
  exists dv qv,
    parkTransform to_int16 (mkTrig 512 (- 256) (- 256) 0 (- 443) 443)
                  1000 1000 1000
    = mk_qd (to_int16 qv) (to_int16 dv) /\
    Z.abs dv <= 2000 /\ Z.abs qv <= 2000.
Proof.
  apply (parkTransform_common_mode to_int16 0
           (mkTrig 512 (- 256) (- 256) 0 (- 443) 443) 1000);
    [lia | reflexivity | lia].
Defined.

(** X10.  For every three [int16_t] values the Clarke transform wraps
    nowhere: [alpha] is the conversion of [a*2/3 - (b+c)/3] and [beta] that
    of [(b-c)*250/433], the divisions truncating.  For phase values that add
    up to 0, [alpha] is [a] within 1; for [b = c], [beta] is 0; and opposite
    inputs give opposite values. *)
Theorem clarkeTransform_exact ab_conv a b c :
  is_int16 a -> is_int16 b -> is_int16 c ->
  exists av bv,
    clarkeTransform ab_conv a b c = (ab_conv av, ab_conv bv) /\
    av = Z.quot (a * 2) 3 - Z.quot (b + c) 3 /\
    bv = Z.quot ((b - c) * 250) 433 /\
    (a + b + c = 0 -> a - 1 <= av <= a + 1) /\
    (b = c -> bv = 0) /\
    (- 32768 < a -> - 32768 < b -> - 32768 < c ->
     clarkeTransform ab_conv (- a) (- b) (- c)
     = (ab_conv (- av), ab_conv (- bv))).
Proof.
  unfold is_int16. intros Ha Hb Hc.
  assert (E : forall x y z,
             - 32768 <= x <= 32767 -> - 32768 <= y <= 32767 ->
             - 32768 <= z <= 32767 ->
             clarkeTransform ab_conv x y z
             = (ab_conv (Z.quot (x * 2) 3 - Z.quot (y + z) 3),
                ab_conv (Z.quot ((y - z) * 250) 433))).
  { intros x y z Hx Hy Hz. unfold clarkeTransform, add32, sub32, mul32, div32.
    strip_int32 quot_lia. reflexivity. }
  exists (Z.quot (a * 2) 3 - Z.quot (b + c) 3), (Z.quot ((b - c) * 250) 433).
  split; [apply E; assumption |].
  split; [reflexivity |]. split; [reflexivity |].
  split; [intros; quot_lia |].
  split; [intros ->; rewrite Z.sub_diag; reflexivity |].
  intros Ha' Hb' Hc'. rewrite E by lia. f_equal; f_equal; quot_lia.
Qed.

Lemma clarkeTransform_exact_witness :
  clarkeTransform to_int16 100 (- 30) (- 70) = (99, 23).
Proof.
  destruct (clarkeTransform_exact to_int16 100 (- 30) (- 70))
    as (av & bv & E & Ea & Eb & _); try (unfold is_int16; lia).
  rewrite E, Ea, Eb. reflexivity.
Defined.

(** * Further properties of the PWM & current feedback component *)

(** ** Low-pass filter: tracking *)

(** One call, for an [int16_t] input, a time constant from 0 to 32768 and
    an accumulator below [2^30] in magnitude. *)
Lemma LowPassFilter_step inp out_buf t :
  is_int16 inp -> 0 <= t <= 32768 -> accumulator_in_range out_buf ->
  let y := Z.shiftr out_buf 15 in
  let x := fst (PWMC_LowPassFilter inp out_buf t) in
  let out_buf' := snd (PWMC_LowPassFilter inp out_buf t) in
  out_buf' = out_buf + (inp - y) * t /\
  x = Z.shiftr out_buf' 15 /\
  accumulator_in_range out_buf' /\
  (y <= inp ->
   out_buf <= out_buf' /\ y <= x <= inp /\
   (y < inp -> out_buf + t <= out_buf')) /\
  (inp <= y ->
   out_buf' <= out_buf /\ inp <= x <= y /\
   (inp < y -> out_buf' <= out_buf - t)).
Proof.
  unfold is_int16, accumulator_in_range. intros Hi Ht Hb. cbv zeta.
  rewrite (PWMC_LowPassFilter_buffer inp out_buf t).
  assert (Ex : fst (PWMC_LowPassFilter inp out_buf t)
               = Z.shiftr (snd (PWMC_LowPassFilter inp out_buf t)) 15)
    by reflexivity.
  rewrite Ex, (PWMC_LowPassFilter_buffer inp out_buf t).
  rewrite !Z.shiftr_div_pow2 by lia. change (2 ^ 15) with 32768.
  set (y := out_buf / 32768).
  assert (Hy : 32768 * y <= out_buf < 32768 * y + 32768)
    by (subst y; Z.to_euclidean_division_equations; lia).
  clearbody y.
  set (p := (inp - y) * t).
  assert (Hp : (y <= inp -> 0 <= p <= (inp - y) * 32768 /\
                            (y < inp -> t <= p)) /\
               (inp <= y -> (inp - y) * 32768 <= p <= 0 /\
                            (inp < y -> p <= - t)))
    by (subst p; split; intros; split; try intros; nia).
  clearbody p.
  assert (Hfit : is_int32 (out_buf + p)) by (unfold is_int32; lia).
  rewrite (to_int32_id _ Hfit).
  split; [reflexivity |]. split; [reflexivity |].
  split; [lia |].
  split; intros Hle; (split; [lia |]);
    (split; [Z.to_euclidean_division_equations; lia | lia]).
Qed.

(** X11.  The filter output moves toward the input and never passes it: for
    an [int16_t] input, a time constant from 0 to 32768 and an accumulator
    below [2^30] in magnitude, the output of a call lies between the
    previous output and the input, the accumulator stays below [2^30], and
    an accumulator whose output equals the input does not change. *)
Theorem PWMC_LowPassFilter_no_overshoot inp out_buf t :
  is_int16 inp -> 0 <= t <= 32768 -> accumulator_in_range out_buf ->
  let y := Z.shiftr out_buf 15 in
  let '(x, out_buf') := PWMC_LowPassFilter inp out_buf t in
  accumulator_in_range out_buf' /\
  (y <= inp -> y <= x <= inp) /\
  (inp <= y -> inp <= x <= y) /\
  (y = inp -> out_buf' = out_buf).
Proof.
  intros Hi Ht Hb.
  pose proof (LowPassFilter_step inp out_buf t Hi Ht Hb) as S.
  cbv zeta in *.
  destruct (PWMC_LowPassFilter inp out_buf t) as [x out_buf']. cbn [fst snd] in S.
  destruct S as (E & Ex & Hr & Hup & Hdown).
  split; [exact Hr |].
  split; [intros H; apply Hup, H |].
  split; [intros H; apply Hdown, H |].
  intros H. rewrite E, H. lia.
Qed.

Lemma PWMC_LowPassFilter_no_overshoot_witness :
  PWMC_LowPassFilter 1000 65536 3 = (2, 68530) /\ 2 <= 2 <= 1000.
Proof.
  pose proof (PWMC_LowPassFilter_no_overshoot 1000 65536 3
                ltac:(unfold is_int16; lia) ltac:(lia)
                ltac:(unfold accumulator_in_range; lia)) as H.
  cbv zeta in H.
  destruct (PWMC_LowPassFilter 1000 65536 3) as [x b] eqn:E.
  destruct H as (_ & Hup & _).
  vm_compute in E. injection E as <- <-.
  split; [reflexivity | apply Hup; vm_compute; discriminate].
Defined.

Lemma LowPassFilter_hold_succ n inp out_buf t :
  snd (LowPassFilter_hold (S n) inp out_buf t)
  = snd (LowPassFilter_hold n inp (snd (PWMC_LowPassFilter inp out_buf t)) t).
Proof.
  unfold LowPassFilter_hold. cbn [repeat LowPassFilter_run].
  destruct (PWMC_LowPassFilter inp out_buf t) as [x b]. cbn [snd].
  destruct (LowPassFilter_run (repeat inp n) b t) as [xs b']. reflexivity.
Qed.

Lemma LowPassFilter_hold_rising n :
  forall inp out_buf t,
    is_int16 inp -> 0 <= t <= 32768 -> accumulator_in_range out_buf ->
    Z.shiftr out_buf 15 <= inp ->
    let b := snd (LowPassFilter_hold n inp out_buf t) in
    accumulator_in_range b /\ Z.shiftr b 15 <= inp /\
    Z.min (out_buf + Z.of_nat n * t) (32768 * inp) <= b.
Proof.
  induction n as [| n IH]; intros inp out_buf t Hi Ht Hb Hy; cbv zeta.
  - cbn. split; [exact Hb |]. split; [exact Hy | lia].
  - rewrite LowPassFilter_hold_succ.
    pose proof (LowPassFilter_step inp out_buf t Hi Ht Hb) as S.
    cbv zeta in S. destruct S as (E & Ex & Hr & Hup & _).
    destruct (Hup Hy) as (Hge & Hx & Hstrict).
    set (b1 := snd (PWMC_LowPassFilter inp out_buf t)) in *.
    rewrite Ex in Hx.
    specialize (IH inp b1 t Hi Ht Hr ltac:(lia)). cbv zeta in IH.
    destruct IH as (R & Y & M).
    split; [exact R |]. split; [exact Y |].
    rewrite Nat2Z.inj_succ, Z.mul_succ_l.
    set (k := Z.of_nat n * t) in *.
    destruct (Z.eq_dec (Z.shiftr out_buf 15) inp) as [Eq | Ne].
    + rewrite Z.shiftr_div_pow2 in Eq by lia. change (2 ^ 15) with 32768 in Eq.
      assert (32768 * inp <= out_buf)
        by (Z.to_euclidean_division_equations; lia).
      assert (0 <= k) by (subst k; nia). lia.
    + specialize (Hstrict ltac:(lia)). lia.
Qed.

Lemma LowPassFilter_hold_falling n :
  forall inp out_buf t,
    is_int16 inp -> 0 <= t <= 32768 -> accumulator_in_range out_buf ->
    inp <= Z.shiftr out_buf 15 ->
    let b := snd (LowPassFilter_hold n inp out_buf t) in
    accumulator_in_range b /\ inp <= Z.shiftr b 15 /\
    b <= Z.max (out_buf - Z.of_nat n * t) (32768 * inp + 32767).
Proof.
  induction n as [| n IH]; intros inp out_buf t Hi Ht Hb Hy; cbv zeta.
  - cbn. split; [exact Hb |]. split; [exact Hy | lia].
  - rewrite LowPassFilter_hold_succ.
    pose proof (LowPassFilter_step inp out_buf t Hi Ht Hb) as S.
    cbv zeta in S. destruct S as (E & Ex & Hr & _ & Hdown).
    destruct (Hdown Hy) as (Hge & Hx & Hstrict).
    set (b1 := snd (PWMC_LowPassFilter inp out_buf t)) in *.
    rewrite Ex in Hx.
    specialize (IH inp b1 t Hi Ht Hr ltac:(lia)). cbv zeta in IH.
    destruct IH as (R & Y & M).
    split; [exact R |]. split; [exact Y |].
    rewrite Nat2Z.inj_succ, Z.mul_succ_l.
    set (k := Z.of_nat n * t) in *.
    destruct (Z.eq_dec (Z.shiftr out_buf 15) inp) as [Eq | Ne].
    + rewrite Z.shiftr_div_pow2 in Eq by lia. change (2 ^ 15) with 32768 in Eq.
      assert (out_buf <= 32768 * inp + 32767)
        by (Z.to_euclidean_division_equations; lia).
      assert (0 <= k) by (subst k; nia). lia.
    + specialize (Hstrict ltac:(lia)). lia.
Qed.

(** X12.  Held at a constant [int16_t] input, with a time constant from 1
    to 32768, the filter reaches the input within a bounded number of
    calls: after [n] calls with [n * t] at least the distance from the
    accumulator to [32768 * input], the output equals the input, and every
    further call returns the input and leaves the accumulator as it is. *)
Theorem PWMC_LowPassFilter_converges (n m : nat) inp out_buf t :
  is_int16 inp -> 1 <= t <= 32768 -> accumulator_in_range out_buf ->
  Z.abs (32768 * inp - out_buf) <= Z.of_nat n * t ->
  let b := snd (LowPassFilter_hold n inp out_buf t) in
  Z.shiftr b 15 = inp /\
  LowPassFilter_hold m inp b t = (repeat inp m, b).
Proof.
  intros Hi Ht Hb Hn. cbv zeta.
  set (b := snd (LowPassFilter_hold n inp out_buf t)).
  assert (Hconv : accumulator_in_range b /\ Z.shiftr b 15 = inp).
  { destruct (Z_le_gt_dec (Z.shiftr out_buf 15) inp) as [Hy | Hy].
    - destruct (LowPassFilter_hold_rising n inp out_buf t Hi
                  ltac:(lia) Hb Hy) as (R & Y & M).
      fold b in R, Y, M. split; [exact R |].
      rewrite Z.shiftr_div_pow2 in * by lia.
      change (2 ^ 15) with 32768 in *.
      Z.to_euclidean_division_equations; lia.
    - destruct (LowPassFilter_hold_falling n inp out_buf t Hi
                  ltac:(lia) Hb ltac:(lia)) as (R & Y & M).
      fold b in R, Y, M. split; [exact R |].
      rewrite Z.shiftr_div_pow2 in * by lia.
      change (2 ^ 15) with 32768 in *.
      Z.to_euclidean_division_equations; lia. }
  destruct Hconv as (R & Y). split; [exact Y |].
  clearbody b. clear Hn Hb out_buf.
  induction m as [| m IH]; [reflexivity |].
  unfold LowPassFilter_hold in *. cbn [repeat LowPassFilter_run].
  pose proof (LowPassFilter_step inp b t Hi ltac:(lia) R) as S.
  cbv zeta in S. destruct S as (E & Ex & _).
  destruct (PWMC_LowPassFilter inp b t) as [x b']. cbn [fst snd] in E, Ex.
  rewrite Y in E. replace b' with b in * by lia.
  rewrite IH, Ex, Y. reflexivity.
Qed.

Lemma PWMC_LowPassFilter_converges_witness :
  Z.shiftr (snd (LowPassFilter_hold 200 100 0 16384)) 15 = 100.
Proof.
  apply (PWMC_LowPassFilter_converges 200 0 100 0 16384);
    [unfold is_int16; lia | lia | unfold accumulator_in_range; lia
     | cbn; lia].
Defined.

(** ** Estimation of the phase currents *)

Section EstimationProperties.

Variables HW PO : Type.
Variable flag : bool.
Variable MCM_Rev_Park : qd_t -> Z -> alphabeta_t.
Variable SQRT3FACTOR : Z.

(** X13.  [PWMC_CalcPhaseCurrentsEst] calls no operation and writes the two
    filter buffers and the three estimates only.  The estimates are taken
    from the reverse Park transform of the two filter outputs: [IaEst] is
    its [alpha]; [IbEst] and [IcEst] are [(-alpha - w*beta)/2] and
    [(-alpha + w*beta)/2] with the integer weight [w = SQRT3FACTOR >> 15],
    which is 0 or 1 for a 16-bit constant; when these sums fit an [int16_t]
    the three estimates add up to 0 within 1. *)
Theorem PWMC_CalcPhaseCurrentsEst_estimates (m : Machine HW PO) Iqd angle :
  exists m',
    PWMC_CalcPhaseCurrentsEst HW PO flag MCM_Rev_Park SQRT3FACTOR
      HandlePtr Iqd angle m = Returns tt m' /\
    (trace m' = trace m /\ callbacks m' = callbacks m /\ hw m' = hw m) /\
    (CntPhA (handle m') = CntPhA (handle m) /\
     CntPhB (handle m') = CntPhB (handle m) /\
     CntPhC (handle m') = CntPhC (handle m) /\
     Sector (handle m') = Sector (handle m) /\
     Ia (handle m') = Ia (handle m) /\ Ib (handle m') = Ib (handle m) /\
     Ic (handle m') = Ic (handle m) /\
     LPFIqd_const (handle m') = LPFIqd_const (handle m) /\
     OffCalibrWaitTimeCounter (handle m')
     = OffCalibrWaitTimeCounter (handle m)) /\
    LPFIqBuf (handle m')
    = snd (PWMC_LowPassFilter (qd_q Iqd) (LPFIqBuf (handle m))
                              (LPFIqd_const (handle m))) /\
    LPFIdBuf (handle m')
    = snd (PWMC_LowPassFilter (qd_d Iqd) (LPFIdBuf (handle m))
                              (LPFIqd_const (handle m))) /\
    let ab := MCM_Rev_Park
                (mk_qd (to_int16 (Z.shiftr (LPFIqBuf (handle m')) 15))
                       (to_int16 (Z.shiftr (LPFIdBuf (handle m')) 15)))
                angle in
    let w := Z.shiftr SQRT3FACTOR 15 in
    IaEst (handle m') = alpha ab /\
    (is_uint16 SQRT3FACTOR -> is_int16 (alpha ab) -> is_int16 (beta ab) ->
     is_int16 (- alpha ab - w * beta ab) ->
     is_int16 (- alpha ab + w * beta ab) ->
     (w = 0 \/ w = 1) /\
     IbEst (handle m') = Z.quot (- alpha ab - w * beta ab) 2 /\
     IcEst (handle m') = Z.quot (- alpha ab + w * beta ab) 2 /\
     - 1 <= IaEst (handle m') + IbEst (handle m') + IcEst (handle m') <= 1).
Proof.
  unfold PWMC_CalcPhaseCurrentsEst, unless_null, bind, read, write,
    PWMC_LowPassFilter.
  cbv beta iota zeta.
  eexists. split; [reflexivity |].
  cbn [handle callbacks hw trace].
  split; [repeat split; reflexivity |].
  split; [repeat split; reflexivity |].
  split; [reflexivity |]. split; [reflexivity |].
  cbn -[Z.shiftr asr32 to_int16 to_int32 div32 add32 sub32 mul32 neg32].
  set (ab := MCM_Rev_Park _ angle).
  split; [reflexivity |].
  unfold is_uint16, is_int16. intros Hk Ha Hb Hm Hp.
  rewrite (to_int32_id SQRT3FACTOR) by (unfold is_int32; lia).
  unfold asr32.
  assert (Hw : Z.shiftr SQRT3FACTOR 15 = 0 \/ Z.shiftr SQRT3FACTOR 15 = 1).
  { rewrite Z.shiftr_div_pow2 by lia. change (2 ^ 15) with 32768.
    Z.to_euclidean_division_equations; lia. }
  set (w := Z.shiftr SQRT3FACTOR 15) in *. clearbody w.
  split; [exact Hw |].
  assert (Eb : to_int16 (div32 (to_int16 (sub32 (neg32 (alpha ab))
                                                (mul32 (beta ab) w))) 2)
               = Z.quot (- alpha ab - w * beta ab) 2).
  { unfold sub32, neg32, mul32, div32.
    rewrite (Z.mul_comm (beta ab) w).
    strip_int32 ltac:(destruct Hw; subst w; lia).
    rewrite (to_int16_id (- alpha ab - w * beta ab)) by (unfold is_int16; lia).
    rewrite to_int32_id by (unfold is_int32; quot_lia).
    apply to_int16_id. unfold is_int16. quot_lia. }
  assert (Ec : to_int16 (div32 (to_int16 (add32 (neg32 (alpha ab))
                                                (mul32 (beta ab) w))) 2)
               = Z.quot (- alpha ab + w * beta ab) 2).
  { unfold add32, neg32, mul32, div32.
    rewrite (Z.mul_comm (beta ab) w).
    strip_int32 ltac:(destruct Hw; subst w; lia).
    rewrite (to_int16_id (- alpha ab + w * beta ab)) by (unfold is_int16; lia).
    rewrite to_int32_id by (unfold is_int32; quot_lia).
    apply to_int16_id. unfold is_int16. quot_lia. }
  rewrite Eb, Ec. split; [reflexivity |]. split; [reflexivity |].
  destruct Hw; subst w; quot_lia.
Qed.

End EstimationProperties.

Lemma PWMC_CalcPhaseCurrentsEst_estimates_witness :
  exists m',
    PWMC_CalcPhaseCurrentsEst unit unit false
      (fun Iqd _ => mk_alphabeta (qd_d Iqd) (qd_q Iqd)) 56756
      HandlePtr (mk_qd 0 0) 0
      (with_handle (set_LPFIqBuf (32768 * 7) (set_LPFIdBuf (32768 * 100)
                                                example_handle))
                   example_machine)
    = Returns tt m' /\
    IaEst (handle m') = 100 /\ IbEst (handle m') = - 53 /\
    IcEst (handle m') = - 46.
Proof.
  destruct (PWMC_CalcPhaseCurrentsEst_estimates unit unit false
              (fun Iqd _ => mk_alphabeta (qd_d Iqd) (qd_q Iqd)) 56756
              (with_handle (set_LPFIqBuf (32768 * 7)
                              (set_LPFIdBuf (32768 * 100) example_handle))
                           example_machine)
              (mk_qd 0 0) 0)
    as (m' & Hr & _ & _ & Hq & Hd & Ha & Hbc).
  exists m'. split; [exact Hr |].
  cbv zeta in Ha, Hbc. rewrite Hq, Hd in Ha, Hbc.
  split; [rewrite Ha; reflexivity |].
  destruct Hbc as (_ & Hb & Hc & _);
    try (vm_compute; split; discriminate).
  split; [rewrite Hb | rewrite Hc]; reflexivity.
Defined.

(** ** Space-vector modulation: duties, zero vector, frame *)

(** The compensation step writes the three counters only. *)
Lemma svpwm_counters_frame h t :
  let h' := svpwm_counters h t in
  lowDuty h' = lowDuty h /\ midDuty h' = midDuty h /\
  highDuty h' = highDuty h /\ Sector h' = Sector h /\
  hT_Sqrt3 h' = hT_Sqrt3 h /\ PWMperiod h' = PWMperiod h /\
  DTTest h' = DTTest h /\ DTCompCnt h' = DTCompCnt h /\
  Ia h' = Ia h /\ Ib h' = Ib h /\ Ic h' = Ic h /\
  IaEst h' = IaEst h /\ IbEst h' = IbEst h /\ IcEst h' = IcEst h /\
  LPFIqd_const h' = LPFIqd_const h /\ LPFIdBuf h' = LPFIdBuf h /\
  LPFIqBuf h' = LPFIqBuf h /\
  OffCalibrWaitTicks h' = OffCalibrWaitTicks h /\
  OffCalibrWaitTimeCounter h' = OffCalibrWaitTimeCounter h /\
  AlignFlag h' = AlignFlag h /\
  TurnOnLowSidesAction h' = TurnOnLowSidesAction h /\
  DPWM_Mode h' = DPWM_Mode h.
Proof.
  unfold svpwm_counters. cbn.
  destruct (DTTest h =? 1); cbn; [| repeat split; reflexivity].
  destruct (Ia h >? 0); cbn; destruct (Ib h >? 0); cbn;
    destruct (Ic h >? 0); cbn; repeat split; reflexivity.
Qed.

(** The sector step writes the sector and the three duties only. *)
Lemma svpwm_sector_untouched h p :
  let h' := fst (svpwm_sector h p) in
  CntPhA h' = CntPhA h /\ CntPhB h' = CntPhB h /\ CntPhC h' = CntPhC h /\
  IaEst h' = IaEst h /\ IbEst h' = IbEst h /\ IcEst h' = IcEst h /\
  LPFIqd_const h' = LPFIqd_const h /\ LPFIdBuf h' = LPFIdBuf h /\
  LPFIqBuf h' = LPFIqBuf h /\
  OffCalibrWaitTicks h' = OffCalibrWaitTicks h /\
  OffCalibrWaitTimeCounter h' = OffCalibrWaitTimeCounter h /\
  AlignFlag h' = AlignFlag h /\
  TurnOnLowSidesAction h' = TurnOnLowSidesAction h /\
  DPWM_Mode h' = DPWM_Mode h.
Proof. sector_cases p; cbn; repeat split; reflexivity. Qed.

(** In every sector the low duty holds the largest of the three timings, the
    high duty the smallest and the mid duty the remaining one. *)
Lemma svpwm_sector_duties (h : PWMC_Handle_t) (v : alphabeta_t) :
  let p := svpwm_projections h v in
  let h1 := fst (svpwm_sector h p) in
  let t := snd (svpwm_sector h p) in
  let hi := Z.max (Z.max (wTimePhA t) (wTimePhB t)) (wTimePhC t) in
  let lo := Z.min (Z.min (wTimePhA t) (wTimePhB t)) (wTimePhC t) in
  0 <= PWMperiod h <= 10922 ->
  - (131072 * PWMperiod h) <= wUAlpha p <= 131072 * PWMperiod h ->
  - (65536 * PWMperiod h) <= wUBeta p <= 65536 * PWMperiod h ->
  lowDuty h1 = to_uint16 hi /\ highDuty h1 = to_uint16 lo /\
  midDuty h1
  = to_uint16 (wTimePhA t + wTimePhB t + wTimePhC t - hi - lo) /\
  hi <= PWMperiod h /\ - PWMperiod h <= lo.
Proof.
  cbv zeta. unfold svpwm_projections.
  set (a := mul32 (alpha v) (hT_Sqrt3 h)).
  set (X := mul32 (neg32 (mul32 (beta v) (PWMperiod h))) 2).
  clearbody a X. cbn [wUAlpha wUBeta].
  intros HP Ha HX.
  unfold svpwm_sector. cbn [wX wY wZ].
  unfold add32, sub32, div32.
  set (P := PWMperiod h) in *.
  strip_int32 quot_lia.
  set (Y := Z.quot (X + a) 2). set (W := Z.quot (X - a) 2).
  assert (HY : 2 * Y - 1 <= X + a <= 2 * Y + 1) by (subst Y; quot_lia).
  assert (HW : 2 * W - 1 <= X - a <= 2 * W + 1) by (subst W; quot_lia).
  clearbody Y W.
  destruct (Y <? 0) eqn:EY; destruct (W <? 0) eqn:EW;
    destruct (W >=? 0) eqn:EW'; destruct (X <=? 0) eqn:EX;
    cbn [fst snd wTimePhA wTimePhB wTimePhC PWMperiod lowDuty midDuty
         highDuty set_Sector set_lowDuty set_midDuty set_highDuty];
    fold P; unfold add32, sub32, div32;
    try lia; strip_int32 quot_lia;
    (split; [f_equal; quot_lia |]); (split; [f_equal; quot_lia |]);
    (split; [f_equal; quot_lia |]); split; quot_lia.
Qed.

Lemma duties_arith (A B C P low mid high cA cB cC ia ib ic comp : Z)
    (on : bool) :
  let tl := Z.max (Z.max A B) C in
  let th := Z.min (Z.min A B) C in
  let tm := A + B + C - tl - th in
  low = to_uint16 tl -> high = to_uint16 th -> mid = to_uint16 tm ->
  tl <= P -> P <= 10922 ->
  cA = compensated on ia comp A -> cB = compensated on ib comp B ->
  cC = compensated on ic comp C ->
  low = to_uint16 tl /\ mid = to_uint16 tm /\ high = to_uint16 th /\
  th <= tm <= tl /\ tl <= P /\
  (0 <= th ->
   high <= mid <= low /\ low <= P /\
   (on = false ->
    low = Z.max (Z.max cA cB) cC /\ high = Z.min (Z.min cA cB) cC)).
Proof.
  cbv zeta. intros El Eh Em Hle HP EA EB EC.
  split; [exact El |]. split; [exact Em |]. split; [exact Eh |].
  split; [lia |]. split; [lia |].
  intros Hpos.
  rewrite to_uint16_id in El, Eh, Em by (unfold is_uint16; lia).
  split; [lia |]. split; [lia |].
  intros ->. unfold compensated, MAX in EA, EB, EC.
  assert (FA : (if A >? 0 then A else 0) = A) by (destruct (A >? 0) eqn:E; lia).
  assert (FB : (if B >? 0 then B else 0) = B) by (destruct (B >? 0) eqn:E; lia).
  assert (FC : (if C >? 0 then C else 0) = C) by (destruct (C >? 0) eqn:E; lia).
  rewrite FA in EA. rewrite FB in EB. rewrite FC in EC.
  rewrite to_uint16_id in EA, EB, EC by (unfold is_uint16; lia).
  subst. split; reflexivity.
Qed.

Lemma svpwm_duties_keep_sector_duties h v :
  lowDuty (svpwm_duties h v)
  = lowDuty (fst (svpwm_sector h (svpwm_projections h v))) /\
  midDuty (svpwm_duties h v)
  = midDuty (fst (svpwm_sector h (svpwm_projections h v))) /\
  highDuty (svpwm_duties h v)
  = highDuty (fst (svpwm_sector h (svpwm_projections h v))).
Proof.
  unfold svpwm_duties.
  destruct (svpwm_sector h (svpwm_projections h v)) as [h1 t1].
  destruct (svpwm_counters_frame h1 t1) as (F1 & F2 & F3 & _).
  cbn [fst]. repeat split; assumption.
Qed.

Lemma projections_within_reach h v :
  handle_in_range h -> alphabeta_in_range v ->
  PWMperiod h <= 10922 -> hT_Sqrt3 h <= 4 * PWMperiod h ->
  0 <= PWMperiod h <= 10922 /\
  - (131072 * PWMperiod h) <= wUAlpha (svpwm_projections h v)
                           <= 131072 * PWMperiod h /\
  - (65536 * PWMperiod h) <= wUBeta (svpwm_projections h v)
                          <= 65536 * PWMperiod h.
Proof.
  intros (HT16 & HP16 & _) (Hal & Hbe) HP HT.
  unfold is_uint16, is_int16 in *.
  destruct (svpwm_projections_reduced h v) as (Ea & Eb & _).
  rewrite Ea, Eb.
  rewrite !to_int32_id by (unfold is_int32; nia).
  split; [lia |]. split; nia.
Qed.

Section DutyProperties.

Variables HW PO : Type.
Variable flag : bool.

(** X14.  For a period of at most 10922 and [hT_Sqrt3 <= 4 * PWMperiod], in
    every sector [lowDuty], [midDuty] and [highDuty] receive the largest,
    the middle and the smallest of the three timings, none above the
    period; when the smallest timing is not negative the stored duties are
    ordered, and with the compensation disabled the largest and the
    smallest of the three counters are [lowDuty] and [highDuty]. *)
Theorem PWMC_SetPhaseVoltage_duties (m : Machine HW PO) v f :
  pFctSetADCSampPointSectX _ _ (callbacks m) = Some f ->
  handle_in_range (handle m) -> alphabeta_in_range v ->
  PWMperiod (handle m) <= 10922 ->
  hT_Sqrt3 (handle m) <= 4 * PWMperiod (handle m) ->
  let t := snd (svpwm_sector (handle m)
                             (svpwm_projections (handle m) v)) in
  let tl := Z.max (Z.max (wTimePhA t) (wTimePhB t)) (wTimePhC t) in
  let th := Z.min (Z.min (wTimePhA t) (wTimePhB t)) (wTimePhC t) in
  let tm := wTimePhA t + wTimePhB t + wTimePhC t - tl - th in
  exists h',
    SetPhaseVoltage_delivers flag m v h' /\
    lowDuty h' = to_uint16 tl /\ midDuty h' = to_uint16 tm /\
    highDuty h' = to_uint16 th /\
    th <= tm <= tl /\ tl <= PWMperiod (handle m) /\
    (0 <= th ->
     highDuty h' <= midDuty h' <= lowDuty h' /\
     lowDuty h' <= PWMperiod (handle m) /\
     (DTTest (handle m) <> 1 ->
      lowDuty h' = Z.max (Z.max (CntPhA h') (CntPhB h')) (CntPhC h') /\
      highDuty h' = Z.min (Z.min (CntPhA h') (CntPhB h')) (CntPhC h'))).
Proof.
  intros Hf Hh Hv HP HT. cbv zeta.
  exists (svpwm_duties (handle m) v).
  split; [exact (SetPhaseVoltage_delivers_duties HW PO flag m v f Hf) |].
  destruct (projections_within_reach (handle m) v Hh Hv HP HT)
    as (R1 & R2 & R3).
  destruct (svpwm_sector_duties (handle m) v R1 R2 R3)
    as (Dl & Dh & Dm & Bhi & _).
  destruct (svpwm_duties_counters (handle m) v) as (CA & CB & CC).
  destruct (svpwm_duties_keep_sector_duties (handle m) v) as (Fl & Fm & Fh).
  pose proof (duties_arith _ _ _ _ _ _ _ _ _ _ _ _ _ _ _
                (eq_trans Fl Dl) (eq_trans Fh Dh) (eq_trans Fm Dm)
                Bhi HP CA CB CC) as (G1 & G2 & G3 & G4 & G5 & G6).
  split; [exact G1 |]. split; [exact G2 |]. split; [exact G3 |].
  split; [exact G4 |]. split; [exact G5 |].
  intros Hpos. destruct (G6 Hpos) as (K1 & K2 & K3).
  split; [exact K1 |]. split; [exact K2 |].
  intros Hoff. apply K3. apply Z.eqb_neq. exact Hoff.
Qed.

(** X15.  A zero voltage vector selects sector 2 and gives the three duties
    and, with the compensation disabled, the three counters the same value,
    a quarter of the period. *)
Theorem PWMC_SetPhaseVoltage_zero_vector (m : Machine HW PO) f :
  pFctSetADCSampPointSectX _ _ (callbacks m) = Some f ->
  is_uint16 (PWMperiod (handle m)) ->
  exists h',
    SetPhaseVoltage_delivers flag m (mk_alphabeta 0 0) h' /\
    Sector h' = SECTOR_2 /\
    lowDuty h' = Z.quot (PWMperiod (handle m)) 4 /\
    midDuty h' = Z.quot (PWMperiod (handle m)) 4 /\
    highDuty h' = Z.quot (PWMperiod (handle m)) 4 /\
    (DTTest (handle m) <> 1 ->
     CntPhA h' = Z.quot (PWMperiod (handle m)) 4 /\
     CntPhB h' = Z.quot (PWMperiod (handle m)) 4 /\
     CntPhC h' = Z.quot (PWMperiod (handle m)) 4).
Proof.
  intros Hf HP. unfold is_uint16 in HP.
  exists (svpwm_duties (handle m) (mk_alphabeta 0 0)).
  split; [exact (SetPhaseVoltage_delivers_duties HW PO flag m _ f Hf) |].
  set (h := handle m) in *.
  assert (Ep : svpwm_projections h (mk_alphabeta 0 0)
               = mkProjections 0 0 0 0 0).
  { unfold svpwm_projections, mul32, neg32, add32, sub32, div32.
    cbn [alpha beta]. rewrite !Z.mul_0_l. reflexivity. }
  assert (Es : svpwm_sector h (mkProjections 0 0 0 0 0)
               = (set_highDuty (Z.quot (PWMperiod h) 4)
                    (set_midDuty (Z.quot (PWMperiod h) 4)
                       (set_lowDuty (Z.quot (PWMperiod h) 4)
                          (set_Sector SECTOR_2 h))),
                  mkTimings (Z.quot (PWMperiod h) 4) (Z.quot (PWMperiod h) 4)
                            (Z.quot (PWMperiod h) 4))).
  { unfold svpwm_sector. cbn [wX wY wZ Z.ltb Z.geb Z.compare].
    cbn [PWMperiod set_Sector].
    unfold add32, sub32, div32.
    change (Z.quot 0 131072) with 0. change (Z.quot (0 - 0) 262144) with 0.
    change (to_int32 0) with 0.
    rewrite !Z.add_0_r, !Z.sub_0_r.
    strip_int32 quot_lia.
    rewrite !to_uint16_id by (unfold is_uint16; quot_lia).
    reflexivity. }
  rewrite svpwm_duties_Sector.
  destruct (svpwm_duties_counters h (mk_alphabeta 0 0)) as (CA & CB & CC).
  cbv zeta in CA, CB, CC.
  assert (Fr : lowDuty (svpwm_duties h (mk_alphabeta 0 0))
               = Z.quot (PWMperiod h) 4 /\
               midDuty (svpwm_duties h (mk_alphabeta 0 0))
               = Z.quot (PWMperiod h) 4 /\
               highDuty (svpwm_duties h (mk_alphabeta 0 0))
               = Z.quot (PWMperiod h) 4).
  { unfold svpwm_duties. rewrite Ep, Es.
    destruct (svpwm_counters_frame
                (set_highDuty (Z.quot (PWMperiod h) 4)
                   (set_midDuty (Z.quot (PWMperiod h) 4)
                      (set_lowDuty (Z.quot (PWMperiod h) 4)
                         (set_Sector SECTOR_2 h))))
                (mkTimings (Z.quot (PWMperiod h) 4) (Z.quot (PWMperiod h) 4)
                           (Z.quot (PWMperiod h) 4)))
      as (F1 & F2 & F3 & _).
    cbv zeta in F1, F2, F3. rewrite F1, F2, F3. repeat split; reflexivity. }
  rewrite Ep, Es in *. cbn [fst snd Sector set_Sector set_lowDuty
                             set_midDuty set_highDuty] in *.
  split; [reflexivity |].
  destruct Fr as (Fl & Fm & Fh).
  split; [exact Fl |]. split; [exact Fm |]. split; [exact Fh |].
  intros Hoff. apply Z.eqb_neq in Hoff. rewrite Hoff in CA, CB, CC.
  cbn [wTimePhA wTimePhB wTimePhC] in CA, CB, CC.
  assert (Ec : compensated false 0 0 (Z.quot (PWMperiod h) 4)
               = Z.quot (PWMperiod h) 4).
  { unfold compensated, MAX.
    destruct (Z.quot (PWMperiod h) 4 >? 0) eqn:E;
      rewrite to_uint16_id; unfold is_uint16; quot_lia. }
  unfold compensated in CA, CB, CC, Ec.
  rewrite CA, CB, CC. repeat split; exact Ec.
Qed.

End DutyProperties.

Lemma PWMC_SetPhaseVoltage_duties_witness :
  exists h',
    SetPhaseVoltage_delivers false example_machine
                             (mk_alphabeta 0 (- 2048)) h' /\
    highDuty h' <= midDuty h' <= lowDuty h' /\ lowDuty h' <= 4096.
Proof.
  destruct (PWMC_SetPhaseVoltage_duties unit unit false example_machine
              (mk_alphabeta 0 (- 2048)) (idle 0) eq_refl)
    as (h' & Hd & El & Em & Eh & Ho & Hb & Hpos).
  - unfold handle_in_range, is_uint16, is_int16; cbn; lia.
  - unfold alphabeta_in_range, is_int16; cbn; lia.
  - cbn; lia.
  - cbn; lia.
  - exists h'. split; [exact Hd |].
    destruct Hpos as (Hord & Hle & _); [vm_compute; discriminate |].
    split; [exact Hord | exact Hle].
Defined.

Lemma PWMC_SetPhaseVoltage_zero_vector_witness :
  exists h',
    SetPhaseVoltage_delivers false
      (with_handle (set_DTTest 0 example_handle) example_machine)
      (mk_alphabeta 0 0) h' /\
    Sector h' = SECTOR_2 /\
    CntPhA h' = 1024 /\ CntPhB h' = 1024 /\ CntPhC h' = 1024.
Proof.
  destruct (PWMC_SetPhaseVoltage_zero_vector unit unit false
              (with_handle (set_DTTest 0 example_handle) example_machine)
              (idle 0) eq_refl)
    as (h' & Hd & Hs & _ & _ & _ & Hc).
  - unfold is_uint16; cbn; lia.
  - exists h'. split; [exact Hd |]. split; [exact Hs |].
    apply Hc. cbn. lia.
Defined.

Section FrameProperties.

Variables HW PO : Type.
Variable flag : bool.

(** X16.  [PWMC_SetPhaseVoltage] returns the value returned by the sampling
    point operation, and leaves the trace and the machine as that operation
    leaves them.  Before the call of the operation it has written the
    sector, the three duties and the three counters, and nothing else: the
    period, [hT_Sqrt3], the currents, the estimates, the filter buffers, the
    compensation and calibration members and the mode flags are those of
    the handle it was called on. *)
Theorem PWMC_SetPhaseVoltage_frame (m : Machine HW PO) v f :
  pFctSetADCSampPointSectX _ _ (callbacks m) = Some f ->
  exists h',
    SetPhaseVoltage_delivers flag m v h' /\
    PWMC_SetPhaseVoltage HW PO flag HandlePtr v m
    = Returns (fst (f tt (h', hw m)))
        (mkMachine (fst (snd (f tt (h', hw m)))) (callbacks m)
                   (snd (snd (f tt (h', hw m))))
                   (trace m ++ [(SetADCSampPointSectX, h')])) /\
    hT_Sqrt3 h' = hT_Sqrt3 (handle m) /\
    PWMperiod h' = PWMperiod (handle m) /\
    DTTest h' = DTTest (handle m) /\
    DTCompCnt h' = DTCompCnt (handle m) /\
    Ia h' = Ia (handle m) /\ Ib h' = Ib (handle m) /\
    Ic h' = Ic (handle m) /\
    IaEst h' = IaEst (handle m) /\ IbEst h' = IbEst (handle m) /\
    IcEst h' = IcEst (handle m) /\
    LPFIqd_const h' = LPFIqd_const (handle m) /\
    LPFIdBuf h' = LPFIdBuf (handle m) /\
    LPFIqBuf h' = LPFIqBuf (handle m) /\
    OffCalibrWaitTicks h' = OffCalibrWaitTicks (handle m) /\
    OffCalibrWaitTimeCounter h' = OffCalibrWaitTimeCounter (handle m) /\
    AlignFlag h' = AlignFlag (handle m) /\
    TurnOnLowSidesAction h' = TurnOnLowSidesAction (handle m) /\
    DPWM_Mode h' = DPWM_Mode (handle m).
Proof.
  intros Hf. exists (svpwm_duties (handle m) v).
  split; [exact (SetPhaseVoltage_delivers_duties HW PO flag m v f Hf) |].
  split.
  - unfold PWMC_SetPhaseVoltage, unless_null, bind, write, invoke.
    cbn [callbacks handle hw trace]. rewrite Hf.
    destruct (f tt (svpwm_duties (handle m) v, hw m)) as [r [h1 w1]].
    reflexivity.
  - unfold svpwm_duties.
    pose proof (svpwm_sector_frame (handle m)
                  (svpwm_projections (handle m) v)) as F.
    pose proof (svpwm_sector_untouched (handle m)
                  (svpwm_projections (handle m) v)) as U.
    destruct (svpwm_sector (handle m) (svpwm_projections (handle m) v))
      as [h1 t].
    pose proof (svpwm_counters_frame h1 t) as G.
    cbv zeta in F, U, G. cbn [fst] in F, U.
    destruct F as (F1 & F2 & F3 & F4 & F5 & F6 & F7).
    destruct U as (_ & _ & _ & U4 & U5 & U6 & U7 & U8 & U9 & U10 & U11 &
                   U12 & U13 & U14).
    destruct G as (_ & _ & _ & _ & G5 & G6 & G7 & G8 & G9 & G10 & G11 &
                   G12 & G13 & G14 & G15 & G16 & G17 & G18 & G19 & G20 &
                   G21 & G22).
    repeat split; congruence.
Qed.

End FrameProperties.

Lemma PWMC_SetPhaseVoltage_frame_witness :
  exists h',
    SetPhaseVoltage_delivers false example_machine
                             (mk_alphabeta 100 (- 2048)) h' /\
    PWMperiod h' = 4096 /\ DTCompCnt h' = 50 /\ Ic h' = - 1.
Proof.
  destruct (PWMC_SetPhaseVoltage_frame unit unit false example_machine
              (mk_alphabeta 100 (- 2048)) (idle 0) eq_refl)
    as (h' & Hd & _ & _ & HP & _ & HC & _ & _ & Hc & _).
  exists h'. split; [exact Hd |].
  split; [exact HP |]. split; [exact HC | exact Hc].
Defined.

Lemma mandatory_operation_unchecked_witness :
  PWMC_CheckOverCurrent unit unit true 0 HandlePtr unbound_machine
  = Undefined /\
  PWMC_CurrentReadingCalibr unit unit true HandlePtr CRC_START
    unbound_machine = Undefined.
Proof.
  destruct (mandatory_operation_unchecked unit unit true unbound_machine)
    as (_ & Hoc & _ & Hcal).
  split; [apply Hoc; reflexivity | apply Hcal; reflexivity].
Defined.

(** ** Registration and mode flags *)

Section RegistrationProperties.

Variables HW PO : Type.
Variable flag : bool.

(** X17.  Whatever the handle held before, once the seven operations that
    the dispatch functions call without a check are registered, each of
    those functions returns, in either build; the registrations change no
    data member, call nothing, and leave the pointers of the optional
    operations as they were. *)
Theorem register_mandatory_defined (m : Machine HW PO)
    get off on cal low samp over :
  exists m1,
    register_mandatory flag get off on cal low samp over m = Returns tt m1 /\
    handle m1 = handle m /\ hw m1 = hw m /\ trace m1 = trace m /\
    (pFctOCPSetReferenceVoltage _ _ (callbacks m1)
     = pFctOCPSetReferenceVoltage _ _ (callbacks m) /\
     pFctRLDetectionModeEnable _ _ (callbacks m1)
     = pFctRLDetectionModeEnable _ _ (callbacks m) /\
     pFctRLDetectionModeDisable _ _ (callbacks m1)
     = pFctRLDetectionModeDisable _ _ (callbacks m) /\
     pFctRLDetectionModeSetDuty _ _ (callbacks m1)
     = pFctRLDetectionModeSetDuty _ _ (callbacks m)) /\
    (forall Iab, exists r m2,
        PWMC_GetPhaseCurrents HW PO flag HandlePtr Iab m1 = Returns r m2) /\
    (forall v, exists r m2,
        PWMC_SetPhaseVoltage HW PO flag HandlePtr v m1 = Returns r m2) /\
    (forall no_faults, exists r m2,
        PWMC_CheckOverCurrent HW PO flag no_faults HandlePtr m1
        = Returns r m2) /\
    (exists m2, PWMC_SwitchOffPWM HW PO flag HandlePtr m1 = Returns tt m2) /\
    (exists m2, PWMC_SwitchOnPWM HW PO flag HandlePtr m1 = Returns tt m2) /\
    (exists m2, PWMC_TurnOnLowSides HW PO flag HandlePtr m1
                = Returns tt m2) /\
    (forall action, exists r m2,
        PWMC_CurrentReadingCalibr HW PO flag HandlePtr action m1
        = Returns r m2).
Proof.
  eexists. split; [reflexivity |].
  cbn [handle hw trace callbacks].
  split; [reflexivity |]. split; [reflexivity |]. split; [reflexivity |].
  split; [repeat split; reflexivity |].
  split.
  { intros Iab. unfold PWMC_GetPhaseCurrents, unless_null, invoke. cbn.
    destruct (get Iab (handle m, hw m)) as [r [h1 w1]]. eauto. }
  split.
  { intros v. unfold PWMC_SetPhaseVoltage, unless_null, bind, write, invoke.
    cbn.
    destruct (samp tt (svpwm_duties (handle m) v, hw m)) as [r [h1 w1]].
    eauto. }
  split.
  { intros nf. unfold PWMC_CheckOverCurrent, unless_null, bind, invoke. cbn.
    destruct (over tt (handle m, hw m)) as [r [h1 w1]]. eauto. }
  split.
  { unfold PWMC_SwitchOffPWM, unless_null, invoke. cbn.
    destruct (off tt (handle m, hw m)) as [[] [h1 w1]]. eauto. }
  split.
  { unfold PWMC_SwitchOnPWM, unless_null, invoke. cbn.
    destruct (on tt (handle m, hw m)) as [[] [h1 w1]]. eauto. }
  split.
  { unfold PWMC_TurnOnLowSides, unless_null, invoke. cbn.
    destruct (low tt (handle m, hw m)) as [[] [h1 w1]]. eauto. }
  intros action.
  unfold PWMC_CurrentReadingCalibr, PWMC_SwitchOffPWM, null_checked, deref,
    unless_null.
  destruct action.
  - unfold bind, read, write, invoke. cbn -[Z.eqb].
    destruct (off tt (handle m, hw m)) as [[] [h1 w1]]. cbn -[Z.eqb].
    destruct (0 =? OffCalibrWaitTicks h1); cbn; [| eauto].
    destruct (cal tt _) as [[] [h2 w2]]. eauto.
  - unfold bind, read, write, invoke. cbn -[Z.eqb Z.gtb to_uint16].
    destruct (OffCalibrWaitTimeCounter (handle m) >? 0);
      cbn -[Z.eqb to_uint16]; [| eauto].
    destruct (0 =? to_uint16 _); cbn; [| eauto].
    destruct (cal tt _) as [[] [h2 w2]]. eauto.
  - cbn. eauto.
Qed.

(** X18.  The operation called is the last one registered: after two
    registrations for the phase currents, [PWMC_GetPhaseCurrents] calls the
    second callback, once, on the handle as it is, and returns what it
    returns; after the registration of a null pointer the call goes through
    a null pointer. *)
Theorem register_replaces (m : Machine HW PO) first second Iab :
  bind (PWMC_RegisterGetPhaseCurrentsCallBack HW PO flag first HandlePtr)
    (fun _ =>
     bind (PWMC_RegisterGetPhaseCurrentsCallBack HW PO flag (Some second)
                                                 HandlePtr)
       (fun _ => PWMC_GetPhaseCurrents HW PO flag HandlePtr Iab)) m
  = Returns (fst (second Iab (handle m, hw m)))
      (mkMachine (fst (snd (second Iab (handle m, hw m))))
                 (set_pFctGetPhaseCurrents _ _ (Some second) (callbacks m))
                 (snd (snd (second Iab (handle m, hw m))))
                 (trace m ++ [(GetPhaseCurrents, handle m)])) /\
  bind (PWMC_RegisterGetPhaseCurrentsCallBack HW PO flag (Some second)
                                              HandlePtr)
    (fun _ =>
     bind (PWMC_RegisterGetPhaseCurrentsCallBack HW PO flag None HandlePtr)
       (fun _ => PWMC_GetPhaseCurrents HW PO flag HandlePtr Iab)) m
  = Undefined.
Proof.
  split.
  - unfold bind, PWMC_RegisterGetPhaseCurrentsCallBack, PWMC_GetPhaseCurrents,
      unless_null, rebind, invoke. cbn.
    destruct (second Iab (handle m, hw m)) as [r [h1 w1]]. reflexivity.
  - reflexivity.
Qed.

(** X19.  Once the wait counter is 0, any number of further [EXEC] calls
    return true, call nothing and leave the machine as it is. *)
Theorem exec_after_completion (n : nat) (m : Machine HW PO) :
  OffCalibrWaitTimeCounter (handle m) = 0 ->
  exec_calls HW PO flag n m = Returns (repeat true n) m.
Proof.
  intros H0.
  assert (E : PWMC_CurrentReadingCalibr HW PO flag HandlePtr CRC_EXEC m
              = Returns true m).
  { unfold PWMC_CurrentReadingCalibr, null_checked, deref, unless_null, bind, read.
    rewrite H0. reflexivity. }
  induction n as [| n IH]; [reflexivity |].
  change (exec_calls HW PO flag (S n))
    with (bind (PWMC_CurrentReadingCalibr HW PO flag HandlePtr CRC_EXEC)
            (fun r => bind (exec_calls HW PO flag n)
                        (fun rs => ret (r :: rs)))).
  unfold bind at 1. rewrite E. unfold bind. rewrite IH. reflexivity.
Qed.

(** X20.  [PWMC_GetDPWM_Mode] returns true after [PWMC_DPWM_ModeEnable] and
    false after [PWMC_DPWM_ModeDisable], whatever the mode was; enabling or
    disabling calls nothing and leaves the counters, the duties, the sector
    and the low-sides flag as they were. *)
Theorem DPWM_mode_round_trip (m : Machine HW PO) :
  (exists m1,
     PWMC_DPWM_ModeEnable HW PO flag HandlePtr m = Returns tt m1 /\
     PWMC_GetDPWM_Mode HW PO flag HandlePtr m1 = Returns true m1 /\
     PWMC_GetTurnOnLowSidesAction HW PO flag HandlePtr m1
     = Returns (TurnOnLowSidesAction (handle m)) m1 /\
     trace m1 = trace m /\
     CntPhA (handle m1) = CntPhA (handle m) /\
     CntPhB (handle m1) = CntPhB (handle m) /\
     CntPhC (handle m1) = CntPhC (handle m) /\
     Sector (handle m1) = Sector (handle m) /\
     exists m2,
       PWMC_DPWM_ModeDisable HW PO flag HandlePtr m1 = Returns tt m2 /\
       PWMC_GetDPWM_Mode HW PO flag HandlePtr m2 = Returns false m2 /\
       trace m2 = trace m) /\
  (DPWM_Mode (handle m) = false ->
   bind (PWMC_DPWM_ModeEnable HW PO flag HandlePtr)
     (fun _ => PWMC_DPWM_ModeDisable HW PO flag HandlePtr) m
   = Returns tt
       (mkMachine (set_DPWM_Mode false (handle m)) (callbacks m) (hw m)
                  (trace m)) /\
   set_DPWM_Mode false (handle m) = handle m).
Proof.
  split.
  - eexists. split; [reflexivity |].
    repeat split; try reflexivity.
    eexists. repeat split; reflexivity.
  - intros Hoff. split; [reflexivity |].
    destruct (handle m); cbn in *. subst. reflexivity.
Qed.

End RegistrationProperties.

Lemma exec_after_completion_witness :
  exec_calls unit unit false 3 (calibration_machine 5 0)
  = Returns [true; true; true] (calibration_machine 5 0).
Proof. apply (exec_after_completion unit unit false 3). reflexivity. Defined.

Lemma DPWM_mode_round_trip_witness :
  bind (PWMC_DPWM_ModeEnable unit unit false HandlePtr)
    (fun _ => PWMC_DPWM_ModeDisable unit unit false HandlePtr)
    example_machine
  = Returns tt example_machine.
Proof.
  destruct (DPWM_mode_round_trip unit unit false example_machine)
    as (_ & H).
  destruct (H eq_refl) as (E & _). exact E.
Defined.

(** ** Space-vector modulation: no memory between calls *)

(** The timings, the sector and the duties depend on the handle through the
    period only. *)
Lemma svpwm_sector_period h1 h2 p :
  PWMperiod h1 = PWMperiod h2 ->
  snd (svpwm_sector h1 p) = snd (svpwm_sector h2 p) /\
  Sector (fst (svpwm_sector h1 p)) = Sector (fst (svpwm_sector h2 p)) /\
  lowDuty (fst (svpwm_sector h1 p)) = lowDuty (fst (svpwm_sector h2 p)) /\
  midDuty (fst (svpwm_sector h1 p)) = midDuty (fst (svpwm_sector h2 p)) /\
  highDuty (fst (svpwm_sector h1 p)) = highDuty (fst (svpwm_sector h2 p)).
Proof.
  intros HP. sector_cases p;
    cbn [fst snd Sector lowDuty midDuty highDuty PWMperiod
         set_Sector set_lowDuty set_midDuty set_highDuty];
    rewrite HP; repeat split; reflexivity.
Qed.

Lemma svpwm_projections_inputs h1 h2 v :
  PWMperiod h1 = PWMperiod h2 -> hT_Sqrt3 h1 = hT_Sqrt3 h2 ->
  svpwm_projections h1 v = svpwm_projections h2 v.
Proof. intros HP HT. unfold svpwm_projections. rewrite HP, HT. reflexivity. Qed.

Section StatelessProperties.

Variables HW PO : Type.
Variable flag : bool.

(** X22.  The sector, the duties and the counters of a call are a function
    of the vector, the period, [hT_Sqrt3], the compensation settings and the
    three currents: two handles that agree on these receive the same
    sector, duties and counters, whatever they held before and whatever
    operations are bound. *)
Theorem PWMC_SetPhaseVoltage_stateless (m1 m2 : Machine HW PO) v f1 f2 :
  pFctSetADCSampPointSectX _ _ (callbacks m1) = Some f1 ->
  pFctSetADCSampPointSectX _ _ (callbacks m2) = Some f2 ->
  PWMperiod (handle m1) = PWMperiod (handle m2) ->
  hT_Sqrt3 (handle m1) = hT_Sqrt3 (handle m2) ->
  DTTest (handle m1) = DTTest (handle m2) ->
  DTCompCnt (handle m1) = DTCompCnt (handle m2) ->
  Ia (handle m1) = Ia (handle m2) -> Ib (handle m1) = Ib (handle m2) ->
  Ic (handle m1) = Ic (handle m2) ->
  exists h1 h2,
    SetPhaseVoltage_delivers flag m1 v h1 /\
    SetPhaseVoltage_delivers flag m2 v h2 /\
    Sector h1 = Sector h2 /\
    lowDuty h1 = lowDuty h2 /\ midDuty h1 = midDuty h2 /\
    highDuty h1 = highDuty h2 /\
    CntPhA h1 = CntPhA h2 /\ CntPhB h1 = CntPhB h2 /\ CntPhC h1 = CntPhC h2.
Proof.
  intros Hf1 Hf2 HP HT HD HC HA HB HCc.
  exists (svpwm_duties (handle m1) v), (svpwm_duties (handle m2) v).
  split; [exact (SetPhaseVoltage_delivers_duties HW PO flag m1 v f1 Hf1) |].
  split; [exact (SetPhaseVoltage_delivers_duties HW PO flag m2 v f2 Hf2) |].
  pose proof (svpwm_projections_inputs _ _ v HP HT) as Ep.
  destruct (svpwm_sector_period (handle m1) (handle m2)
              (svpwm_projections (handle m2) v) HP)
    as (Et & Es & El & Em & Eh).
  destruct (svpwm_duties_counters (handle m1) v) as (A1 & B1 & C1).
  destruct (svpwm_duties_counters (handle m2) v) as (A2 & B2 & C2).
  destruct (svpwm_duties_keep_sector_duties (handle m1) v) as (L1 & M1 & H1).
  destruct (svpwm_duties_keep_sector_duties (handle m2) v) as (L2 & M2 & H2).
  rewrite !svpwm_duties_Sector.
  rewrite L1, M1, H1, L2, M2, H2, A1, B1, C1, A2, B2, C2.
  rewrite Ep, Et, Es, El, Em, Eh, HD, HC, HA, HB, HCc.
  repeat split; reflexivity.
Qed.

End StatelessProperties.

Lemma PWMC_SetPhaseVoltage_stateless_witness :
  exists h1 h2,
    SetPhaseVoltage_delivers false example_machine
                             (mk_alphabeta 100 (- 2048)) h1 /\
    SetPhaseVoltage_delivers false
      (with_handle (set_Sector SECTOR_6 (set_CntPhA 777 example_handle))
                   example_machine)
      (mk_alphabeta 100 (- 2048)) h2 /\
    Sector h1 = Sector h2 /\ CntPhA h1 = CntPhA h2.
Proof.
  destruct (PWMC_SetPhaseVoltage_stateless unit unit false example_machine
              (with_handle (set_Sector SECTOR_6
                              (set_CntPhA 777 example_handle))
                           example_machine)
              (mk_alphabeta 100 (- 2048)) (idle 0) (idle 0)
              eq_refl eq_refl eq_refl eq_refl eq_refl eq_refl eq_refl
              eq_refl eq_refl)
    as (h1 & h2 & D1 & D2 & Es & _ & _ & _ & Ea & _).
  exists h1, h2. repeat split; assumption.
Defined.

(** ** Estimation after a reset *)

Section RestartProperties.

Variables HW PO : Type.
Variable flag : bool.
Variable MCM_Rev_Park : qd_t -> Z -> alphabeta_t.
Variable SQRT3FACTOR : Z.

(** X23.  After [PWMC_Clear] the filters start from 0: the first estimation
    leaves [Iqd.q * LPFIqd_const] and [Iqd.d * LPFIqd_const] in the two
    buffers, for [int16_t] currents and constant, and with zero currents the
    buffers stay at 0 and the estimate is the reverse Park transform of the
    zero vector. *)
Theorem PWMC_Clear_then_estimate (m : Machine HW PO) Iqd angle :
  is_int16 (qd_q Iqd) -> is_int16 (qd_d Iqd) ->
  is_int16 (LPFIqd_const (handle m)) ->
  exists m',
    bind (PWMC_Clear HW PO flag HandlePtr)
      (fun _ => PWMC_CalcPhaseCurrentsEst HW PO flag MCM_Rev_Park
                  SQRT3FACTOR HandlePtr Iqd angle) m
    = Returns tt m' /\
    trace m' = trace m /\
    LPFIqBuf (handle m') = qd_q Iqd * LPFIqd_const (handle m) /\
    LPFIdBuf (handle m') = qd_d Iqd * LPFIqd_const (handle m) /\
    (qd_q Iqd = 0 -> qd_d Iqd = 0 ->
     LPFIqBuf (handle m') = 0 /\ LPFIdBuf (handle m') = 0 /\
     IaEst (handle m') = alpha (MCM_Rev_Park (mk_qd 0 0) angle)).
Proof.
  unfold is_int16. intros Hq Hd Ht.
  unfold bind, PWMC_Clear, PWMC_CalcPhaseCurrentsEst, unless_null, bind,
    read, write.
  cbv beta iota zeta.
  cbn [handle callbacks hw trace LPFIqBuf LPFIdBuf LPFIqd_const
       set_IaEst set_IbEst set_IcEst set_LPFIdBuf set_LPFIqBuf].
  assert (E : forall x t, - 32768 <= x <= 32767 -> - 32768 <= t <= 32767 ->
                PWMC_LowPassFilter x 0 t = (Z.shiftr (x * t) 15, x * t)).
  { intros x t Hx Htt. unfold PWMC_LowPassFilter, asr32, add32, sub32, mul32.
    change (Z.shiftr 0 15) with 0. rewrite Z.sub_0_r, Z.add_0_l.
    strip_int32 nia. reflexivity. }
  rewrite (E (qd_q Iqd) _ Hq Ht).
  cbn [handle callbacks hw trace LPFIqBuf LPFIdBuf LPFIqd_const
       set_IaEst set_IbEst set_IcEst set_LPFIdBuf set_LPFIqBuf].
  rewrite (E (qd_d Iqd) _ Hd Ht).
  eexists. split; [reflexivity |].
  cbn [handle callbacks hw trace LPFIqBuf LPFIdBuf IaEst
       set_IaEst set_IbEst set_IcEst set_LPFIdBuf set_LPFIqBuf].
  split; [reflexivity |]. split; [reflexivity |]. split; [reflexivity |].
  intros -> ->. rewrite !Z.mul_0_l. repeat split; reflexivity.
Qed.

End RestartProperties.

Lemma PWMC_Clear_then_estimate_witness :
  exists m',
    bind (PWMC_Clear unit unit false HandlePtr)
      (fun _ => PWMC_CalcPhaseCurrentsEst unit unit false
                  (fun Iqd _ => mk_alphabeta (qd_d Iqd) (qd_q Iqd)) 56756
                  HandlePtr (mk_qd 300 (- 20)) 0)
      (with_handle (set_LPFIqBuf 12345 example_handle) example_machine)
    = Returns tt m' /\
    LPFIqBuf (handle m') = 0 /\ LPFIdBuf (handle m') = 0.
Proof.
  destruct (PWMC_Clear_then_estimate unit unit false
              (fun Iqd _ => mk_alphabeta (qd_d Iqd) (qd_q Iqd)) 56756
              (with_handle (set_LPFIqBuf 12345 example_handle)
                           example_machine)
              (mk_qd 300 (- 20)) 0)
    as (m' & Hr & _ & Hq & Hd & _);
    try (unfold is_int16; cbn; lia).
  exists m'. split; [exact Hr |]. split; [rewrite Hq | rewrite Hd]; reflexivity.
Defined.

(** ** Optional operations *)

Section OptionalProperties.

Variables HW PO : Type.
Variable MC_FOC_DURATION : Z.

(** X24.  Once an R/L detection duty operation is registered,
    [PWMC_RLDetectionModeSetDuty] calls it once with the duty and returns
    what it returns, in either build.  Once a null pointer is registered,
    the build with [NULL_PTR_PWR_CUR_FDB] returns [MC_FOC_DURATION] and
    calls nothing, and the build without it calls the null pointer. *)
Theorem RLDetectionModeSetDuty_registered (flag : bool) (m : Machine HW PO)
    cb hDuty :
  bind (PWMC_RegisterRLDetectionModeSetDutyCallBack HW PO flag (Some cb)
                                                    HandlePtr)
    (fun _ => PWMC_RLDetectionModeSetDuty HW PO flag MC_FOC_DURATION
                HandlePtr hDuty) m
  = Returns (fst (cb hDuty (handle m, hw m)))
      (mkMachine (fst (snd (cb hDuty (handle m, hw m))))
         (set_pFctRLDetectionModeSetDuty _ _ (Some cb) (callbacks m))
         (snd (snd (cb hDuty (handle m, hw m))))
         (trace m ++ [(RLDetectionModeSetDuty, handle m)])) /\
  bind (PWMC_RegisterRLDetectionModeSetDutyCallBack HW PO true None
                                                    HandlePtr)
    (fun _ => PWMC_RLDetectionModeSetDuty HW PO true MC_FOC_DURATION
                HandlePtr hDuty) m
  = Returns MC_FOC_DURATION
      (mkMachine (handle m)
         (set_pFctRLDetectionModeSetDuty _ _ None (callbacks m))
         (hw m) (trace m)) /\
  bind (PWMC_RegisterRLDetectionModeSetDutyCallBack HW PO false None
                                                    HandlePtr)
    (fun _ => PWMC_RLDetectionModeSetDuty HW PO false MC_FOC_DURATION
                HandlePtr hDuty) m
  = Undefined.
Proof.
  split; [| split; reflexivity].
  unfold bind, PWMC_RegisterRLDetectionModeSetDutyCallBack,
    PWMC_RLDetectionModeSetDuty, unless_null, unless_null_or_unbound,
    rebind, bind, bound, invoke.
  destruct flag; cbn;
    destruct (cb hDuty (handle m, hw m)) as [r [h1 w1]]; reflexivity.
Qed.

End OptionalProperties.
